(** * Resume Roast: debate orchestration and feedback memory

    A shallow embedding of the server's core:
    - [agents/critic.py], [agents/advocate.py], [agents/realist.py]:
      the three prompt templates;
    - [agents/graph.py]: [AgentOrchestrator.execute_debate], an async
      generator, embedded as a computation that logs what it yields and
      which completion calls it makes, and that may raise;
    - [repositories/feedback_repository.py]: the repository operations,
      embedded as functions over an explicit store of table rows;
    - [api/routes.py]: the stream consumer [generate_stream] and the
      learning derivation of [submit_feedback].

    Python [str] values are [string]s; a character stands for the code
    point of the same number (code points below 256).  Python [float]s
    are only compared, never computed with, and are embedded as
    rationals.  UUIDs and timestamps are integers; [uuid4()] is a supply
    of fresh integers, and the clock is read by the caller, who passes
    its reading [now] to the operation (a stream is given one reading).

    Left out: logging, the JSON text of the events (an event stands for
    its JSON), and what the database itself may refuse (foreign keys,
    column widths), which the repository code does not check. *)

From stdpp Require Import base strings list gmap sorting.
From Stdlib Require Import Ascii QArith Qminmax.

#[local] Open Scope string_scope.
#[local] Open Scope list_scope.

(* ================================================================== *)
(** * Python values *)
(* ================================================================== *)

Module Py.

(** Exceptions that the embedded code raises.  [MultipleResultsFound]
    is what SQLAlchemy's [scalar_one_or_none] raises on two rows. *)
Inductive exn : Type :=
| ValueError (msg : string)
| RuntimeError (msg : string)
| MultipleResultsFound.

(** [str(e)], as used by the stream consumer for its error event. *)
Definition str_of_exn (e : exn) : string :=
  match e with
  | ValueError m => m
  | RuntimeError m => m
  | MultipleResultsFound =>
      "Multiple rows were found when one or none was required"
  end.

(** Results of code that may raise. *)
Inductive result (A : Type) : Type :=
| Raise (e : exn)
| Return (a : A).
Arguments Raise {A} e.
Arguments Return {A} a.

#[export] Instance result_ret : MRet result := fun A a => Return a.
#[export] Instance result_bind : MBind result := fun A B k m =>
  match m with
  | Raise e => Raise e
  | Return a => k a
  end.

(** Truth value of a [str]: non-empty. *)
Definition truthy (s : string) : bool :=
  match s with
  | EmptyString => false
  | String _ _ => true
  end.

(** Truth value of a list: non-empty. *)
Definition truthy_list {A} (l : list A) : bool :=
  match l with
  | [] => false
  | _ :: _ => true
  end.

(** [c.isspace()] on the code points below 256: TAB..CR, FS..US,
    SPACE, NEL and NBSP. *)
Definition isspace (c : ascii) : bool :=
  let n := N_of_ascii c in
  ((9 <=? n) && (n <=? 13) || (28 <=? n) && (n <=? 32)
   || (n =? 133) || (n =? 160))%N.

Fixpoint lstrip (s : string) : string :=
  match s with
  | EmptyString => EmptyString
  | String c s' => if isspace c then lstrip s' else s
  end.

Fixpoint rstrip (s : string) : string :=
  match s with
  | EmptyString => EmptyString
  | String c s' =>
      match rstrip s' with
      | EmptyString => if isspace c then EmptyString else String c EmptyString
      | r => String c r
      end
  end.

(** [s.strip()] *)
Definition strip (s : string) : string := rstrip (lstrip s).

(** The guard [not s or not s.strip()] of the templates and of the
    repository. *)
Definition blank (s : string) : bool :=
  negb (truthy s) || negb (truthy (strip s)).

(** [c.lower()] on the code points below 256: A..Z and the Latin-1
    capitals (all of 0xC0..0xDE but the multiplication sign). *)
Definition lower_char (c : ascii) : ascii :=
  let n := N_of_ascii c in
  if ((65 <=? n) && (n <=? 90)
      || (192 <=? n) && (n <=? 222) && negb (n =? 215))%N
  then ascii_of_N (n + 32) else c.

(** [s.lower()] *)
Fixpoint lower (s : string) : string :=
  match s with
  | EmptyString => EmptyString
  | String c s' => String (lower_char c) (lower s')
  end.

(** [s[:n]] *)
Fixpoint slice_to (n : nat) (s : string) : string :=
  match n, s with
  | S n', String c s' => String c (slice_to n' s')
  | _, _ => EmptyString
  end.

(** [sep.join(l)] *)
Definition join (sep : string) (l : list string) : string :=
  String.concat sep l.

(** The one-character string ["\n"]. *)
Definition nl : string := String (ascii_of_N 10) EmptyString.

(** A block of text written one source line per list entry. *)
Definition lines (l : list string) : string := join nl l.

(** [max(a, b)] and [min(a, b)] on floats: the first argument unless
    the second is strictly better. *)
Definition max (a b : Q) : Q :=
  match (b ?= a)%Q with Gt => b | _ => a end.
Definition min (a b : Q) : Q :=
  match (b ?= a)%Q with Lt => b | _ => a end.

(** [c in s] for a character [c]. *)
Fixpoint contains_char (c : ascii) (s : string) : bool :=
  match s with
  | EmptyString => false
  | String d s' => Ascii.eqb c d || contains_char c s'
  end.

(** ["".join(f(c) for c in s)] for a function [f] from characters to
    characters. *)
Fixpoint map_chars (f : ascii -> ascii) (s : string) : string :=
  match s with
  | EmptyString => EmptyString
  | String c s' => String (f c) (map_chars f s')
  end.

(** [s.startswith(prefix)] and [s.endswith(suffix)]. *)
Fixpoint startswith (s prefix : string) {struct prefix} : bool :=
  match prefix, s with
  | EmptyString, _ => true
  | String p prefix', String c s' => Ascii.eqb c p && startswith s' prefix'
  | String _ _, EmptyString => false
  end.

Fixpoint endswith (s suffix : string) : bool :=
  match s with
  | EmptyString => String.eqb suffix EmptyString
  | String _ s' => String.eqb s suffix || endswith s' suffix
  end.

(** [s.rsplit(sep, 1)] for a character [sep]: the parts before and after
    the last [sep], or [s] alone when it has none. *)
Fixpoint rsplit1 (sep : ascii) (s : string) : list string :=
  match s with
  | EmptyString => [EmptyString]
  | String c s' =>
      match rsplit1 sep s' with
      | [before; after] => [String c before; after]
      | _ => if Ascii.eqb c sep then [EmptyString; s'] else [s]
      end
  end.

End Py.
Export (hints) Py.

(* ================================================================== *)
(** * The prompt templates: [agents/critic.py], [agents/advocate.py],
      [agents/realist.py] *)
(* ================================================================== *)

(** The section appended to a base prompt when there is memory context. *)
Definition memory_header : string :=
  Py.nl +:+ Py.nl +:+ "Based on previous feedback patterns:" +:+ Py.nl.

Module CriticAgent.

Definition name : string := "Critic".
Definition order : Z := 1.

Definition base_prompt : string := Py.lines
  [ "You are the Critic. Identify ONLY the top 3 critical resume issues."
  ; ""
  ; "Be direct and specific. Maximum 100 words total."
  ; ""
  ; "Format:"
  ; "1. [Issue] - [Why it matters] - [Quick fix]"
  ; "2. [Issue] - [Why it matters] - [Quick fix] "
  ; "3. [Issue] - [Why it matters] - [Quick fix]"
  ; ""
  ; "Focus on: Missing keywords, weak language, experience gaps." ].

(** [memory_context] is [Optional[List[str]]]; [if memory_context:] holds
    for a list that is there and not empty. *)
Definition get_system_prompt (memory_context : option (list string)) : string :=
  match memory_context with
  | Some mc =>
      if Py.truthy_list mc then
        let memory_section := memory_header +:+ Py.join Py.nl mc in
        base_prompt +:+ memory_section
      else base_prompt
  | None => base_prompt
  end.

Definition format_user_message (resume_text job_description : string)
  : Py.result string :=
  if Py.blank resume_text then
    Py.Raise (Py.ValueError "Resume text cannot be empty")
  else if Py.blank job_description then
    Py.Raise (Py.ValueError "Job description cannot be empty")
  else Py.Return (Py.lines
    [ ""
    ; "JOB DESCRIPTION:"
    ; job_description
    ; ""
    ; "RESUME TO CRITIQUE:"
    ; resume_text
    ; ""
    ; "Provide your critical analysis focusing on what would prevent this resume from succeeding for this specific role."
    ; "" ]).

End CriticAgent.

Module AdvocateAgent.

Definition name : string := "Advocate".
Definition order : Z := 2.

Definition base_prompt : string := Py.lines
  [ "You are the Advocate - an enthusiastic career coach. Highlight this candidate's top 3 strengths."
  ; ""
  ; "Focus on:"
  ; "- Unique achievements and skills"
  ; "- Transferable experience  "
  ; "- Growth potential"
  ; ""
  ; "Be encouraging and specific. Keep response under 150 words."
  ; "End with why they'd be a great fit for the role." ].

Definition get_system_prompt (memory_context : option (list string)) : string :=
  match memory_context with
  | Some mc =>
      if Py.truthy_list mc then
        let memory_section := memory_header +:+ Py.join Py.nl mc in
        base_prompt +:+ memory_section
      else base_prompt
  | None => base_prompt
  end.

Definition format_user_message (resume_text job_description : string)
  : Py.result string :=
  if Py.blank resume_text then
    Py.Raise (Py.ValueError "Resume text cannot be empty")
  else if Py.blank job_description then
    Py.Raise (Py.ValueError "Job description cannot be empty")
  else Py.Return (Py.lines
    [ ""
    ; "JOB DESCRIPTION:"
    ; job_description
    ; ""
    ; "RESUME TO ADVOCATE FOR:"
    ; resume_text
    ; ""
    ; "Identify and highlight all the strengths, achievements, and positive aspects that make this candidate attractive for this role."
    ; "" ]).

End AdvocateAgent.

Module RealistAgent.

Definition name : string := "Realist".
Definition order : Z := 3.

Definition base_prompt : string := Py.lines
  [ "You are the Realist - a pragmatic hiring manager. Provide 3 specific, actionable recommendations."
  ; ""
  ; "Balance the Critic's concerns with the Advocate's strengths:"
  ; "- Prioritize high-impact changes"
  ; "- Give practical next steps"
  ; "- Consider market realities"
  ; ""
  ; "Keep response under 150 words."
  ; "End with one key positioning strategy for this role." ].

Definition get_system_prompt (memory_context : option (list string)) : string :=
  match memory_context with
  | Some mc =>
      if Py.truthy_list mc then
        let memory_section := memory_header +:+ Py.join Py.nl mc in
        base_prompt +:+ memory_section
      else base_prompt
  | None => base_prompt
  end.

Definition format_user_message
  (resume_text job_description critic_response advocate_response : string)
  : Py.result string :=
  if Py.blank resume_text then
    Py.Raise (Py.ValueError "Resume text cannot be empty")
  else if Py.blank job_description then
    Py.Raise (Py.ValueError "Job description cannot be empty")
  else if Py.blank critic_response then
    Py.Raise (Py.ValueError "Critic response cannot be empty")
  else if Py.blank advocate_response then
    Py.Raise (Py.ValueError "Advocate response cannot be empty")
  else Py.Return (Py.lines
    [ ""
    ; "JOB DESCRIPTION:"
    ; job_description
    ; ""
    ; "RESUME:"
    ; resume_text
    ; ""
    ; "CRITIC'S ANALYSIS:"
    ; critic_response
    ; ""
    ; "ADVOCATE'S PERSPECTIVE:"
    ; advocate_response
    ; ""
    ; "Now provide your balanced, realistic assessment with specific actionable recommendations."
    ; "" ]).

End RealistAgent.

(* ================================================================== *)
(** * The completion service: [services/llm_service.py] *)
(* ================================================================== *)

Module LLMService.

(** What one call of [generate_agent_response] delivers to its consumer:
    the fragments it yields, in order, and then either the end of the
    stream or a [RuntimeError] (the service turns every failure of the
    API into one). *)
Record Stream : Type := mkStream {
  fragments : list string;
  failure : option string
}.

(** The service itself is outside the embedding: it is any function from
    the arguments of [generate_agent_response] (system prompt, user
    message, agent name, memory context) to what the call delivers. *)
Record t : Type := mk {
  generate_agent_response :
    string -> string -> string -> list string -> Stream
}.

End LLMService.

(** The client of the completion API, as far as the service looks at
    what it delivers. *)
Module OpenAI.

Record Message : Type := mkMessage {
  role : string;
  content : string
}.

(** A chunk of a streamed completion.  An attribute that is absent, or
    present and [None], is [None] here. *)
Record Delta : Type := mkDelta {
  delta_content : option string
}.

Record Choice : Type := mkChoice {
  delta : option Delta
}.

Record Chunk : Type := mkChunk {
  choices : option (list Choice)
}.

(** An exception of the client: its text, and which of the classes
    that the service names it is an instance of. *)
Record Exception : Type := mkException {
  message : string;
  is_api_error : bool;
  is_rate_limit_error : bool;
  is_authentication_error : bool
}.

(** What [chat.completions.create(..., stream=True)] and the iteration
    over its result deliver: the chunks that arrive, and then the end
    of the stream or an exception (with no chunk before it when the
    call itself fails). *)
Record Response : Type := mkResponse {
  chunks : list Chunk;
  error : option Exception
}.

(** The client, for the deployment, token limit and temperature of the
    settings. *)
Definition Client : Type := list Message -> Response.

End OpenAI.

(** The class [LLMService] of the source, over a given client. *)
Module AzureLLMService.

Definition messages (system_prompt user_message : string)
  (memory_context : list string) : list OpenAI.Message :=
  let messages := [OpenAI.mkMessage "system" system_prompt] in
  (* Add memory context if available *)
  let messages :=
    if Py.truthy_list memory_context then
      let memory_text := Py.join Py.nl memory_context in
      messages ++ [OpenAI.mkMessage "system"
                     ("Based on previous feedback, consider these patterns:"
                      +:+ Py.nl +:+ memory_text)]
    else messages in
  messages ++ [OpenAI.mkMessage "user" user_message].

(** The body of the loop over the chunks: what it yields, if anything. *)
Definition yielded (chunk : OpenAI.Chunk) : option string :=
  match OpenAI.choices chunk with
  | Some (choice :: _) =>
      match OpenAI.delta choice with
      | Some delta =>
          match OpenAI.delta_content delta with
          | Some content => if Py.truthy content then Some content else None
          | None => None
          end
      | None => None
      end
  | _ => None
  end.

(** The [except] clauses, in the order of the source. *)
Definition handle (agent_name : string) (e : OpenAI.Exception) : string :=
  if OpenAI.is_api_error e then
    "OpenAI API error for " +:+ agent_name +:+ ": " +:+ OpenAI.message e
  else if OpenAI.is_rate_limit_error e then
    "OpenAI rate limit exceeded for " +:+ agent_name +:+ ": " +:+ OpenAI.message e
  else if OpenAI.is_authentication_error e then
    "OpenAI authentication error for " +:+ agent_name +:+ ": " +:+ OpenAI.message e
  else
    "Unexpected error with OpenAI for " +:+ agent_name +:+ ": " +:+ OpenAI.message e.

Definition generate_agent_response (client : OpenAI.Client)
  (system_prompt user_message agent_name : string)
  (memory_context : list string) : LLMService.Stream :=
  let stream := client (messages system_prompt user_message memory_context) in
  LLMService.mkStream
    (omap yielded (OpenAI.chunks stream))
    (handle agent_name <$> OpenAI.error stream).

Definition service (client : OpenAI.Client) : LLMService.t :=
  LLMService.mk (generate_agent_response client).

End AzureLLMService.

(* ================================================================== *)
(** * The file store: [services/s3_service.py] *)
(* ================================================================== *)

Module S3Service.

Definition safe_chars : string :=
  "abcdefghijklmnopqrstuvwxyzABCDEFGHIJKLMNOPQRSTUVWXYZ0123456789.-_".

(** [_sanitize_filename].  The unpacking of the result of [rsplit] into
    two names raises when it does not have two parts. *)
Definition _sanitize_filename (filename : string) : Py.result string :=
  (* Remove or replace unsafe characters *)
  let sanitized :=
    Py.map_chars (fun c => if Py.contains_char c safe_chars then c else "_"%char)
      filename in
  (* Ensure it doesn't start with a dot or dash *)
  let sanitized :=
    if Py.startswith sanitized "." || Py.startswith sanitized "-"
    then "file_" +:+ sanitized else sanitized in
  (* Limit length *)
  sanitized ←
    (if (100 <? String.length sanitized)%nat then
       parts ← (if Py.contains_char "."%char sanitized
                then match Py.rsplit1 "."%char sanitized with
                     | [name_part; ext] => Py.Return (name_part, ext)
                     | _ => Py.Raise (Py.ValueError "not enough values to unpack")
                     end
                else Py.Return (sanitized, ""));
       let '(name_part, ext) := parts in
       mret (Py.slice_to 95 name_part
             +:+ (if Py.truthy ext then "." +:+ ext else ""))
     else mret sanitized);
  mret (if Py.truthy sanitized then sanitized else "resume.pdf").

End S3Service.

(* ================================================================== *)
(** * The orchestrator: [agents/graph.py] *)
(* ================================================================== *)

Module Graph.

Record AgentWorkflowResult : Type := mkAgentWorkflowResult {
  critic_response : string;
  advocate_response : string;
  realist_response : string
}.

(** The dictionaries that [execute_debate] yields.  Only the final one
    has a ["results"] entry. *)
Record Event : Type := mkEvent {
  agent_name : string;
  chunk : string;
  is_complete : bool;
  order : Z;
  results : option AgentWorkflowResult
}.

(** What a run of the generator does that the outside can see, in the
    order in which it happens. *)
Inductive Action : Type :=
| Yield (e : Event)
| LLMCall (system_prompt user_message agent_name : string)
          (memory_context : list string).

(** A generator body: the actions performed so far, and how the run
    ended. *)
Record Gen (A : Type) : Type := mkGen {
  trace : list Action;
  outcome : Py.result A
}.
Arguments mkGen {A} trace outcome.
Arguments trace {A} g.
Arguments outcome {A} g.

#[export] Instance gen_ret : MRet Gen := fun A a => mkGen [] (Py.Return a).
#[export] Instance gen_bind : MBind Gen := fun A B k m =>
  match outcome m with
  | Py.Raise e => mkGen (trace m) (Py.Raise e)
  | Py.Return a =>
      match k a with
      | mkGen tr o => mkGen (trace m ++ tr) o
      end
  end.

Definition yield (e : Event) : Gen unit := mkGen [Yield e] (Py.Return tt).
Definition raise {A} (e : Py.exn) : Gen A := mkGen [] (Py.Raise e).
Definition lift {A} (r : Py.result A) : Gen A := mkGen [] r.

(** The body of an [async for] run over the fragments that arrive. *)
Fixpoint for_each {A} (body : string -> A -> Gen A) (chunks : list string)
  (acc : A) : Gen A :=
  match chunks with
  | [] => mret acc
  | chunk :: rest => acc' ← body chunk acc; for_each body rest acc'
  end.

(** [async for chunk in llm_service.generate_agent_response(...): body]:
    the call is made, the body runs once per fragment, and a failure of
    the stream is raised after the fragments that came before it. *)
Definition async_for {A} (llm_service : LLMService.t)
  (system_prompt user_message agent_name : string)
  (memory_context : list string)
  (body : string -> A -> Gen A) (acc : A) : Gen A :=
  let stream := LLMService.generate_agent_response llm_service
                  system_prompt user_message agent_name memory_context in
  _ ← mkGen [LLMCall system_prompt user_message agent_name memory_context]
        (Py.Return tt);
  acc' ← for_each body (LLMService.fragments stream) acc;
  match LLMService.failure stream with
  | Some msg => raise (Py.RuntimeError msg)
  | None => mret acc'
  end.

(** [execute_debate].  The dictionary [initial_state] that the source
    builds first is never read and is left out. *)
Definition execute_debate (llm_service : LLMService.t)
  (resume_text job_description : string)
  (memory_context : option (list string)) : Gen unit :=
  let memory_context := default [] memory_context in
  (* Execute Critic *)
  _ ← yield (mkEvent "Critic" "" false 1 None);
  let critic_prompt := CriticAgent.get_system_prompt (Some memory_context) in
  critic_message ← lift (CriticAgent.format_user_message resume_text job_description);
  critic_response ← async_for llm_service critic_prompt critic_message "Critic" memory_context
    (fun chunk critic_response =>
       let critic_response := critic_response +:+ chunk in
       _ ← yield (mkEvent "Critic" chunk false 1 None);
       mret critic_response) "";
  _ ← yield (mkEvent "Critic" "" true 1 None);
  (* Execute Advocate *)
  _ ← yield (mkEvent "Advocate" "" false 2 None);
  let advocate_prompt := AdvocateAgent.get_system_prompt (Some memory_context) in
  advocate_message ← lift (AdvocateAgent.format_user_message resume_text job_description);
  advocate_response ← async_for llm_service advocate_prompt advocate_message "Advocate" memory_context
    (fun chunk advocate_response =>
       let advocate_response := advocate_response +:+ chunk in
       _ ← yield (mkEvent "Advocate" chunk false 2 None);
       mret advocate_response) "";
  _ ← yield (mkEvent "Advocate" "" true 2 None);
  (* Execute Realist *)
  _ ← yield (mkEvent "Realist" "" false 3 None);
  let realist_prompt := RealistAgent.get_system_prompt (Some memory_context) in
  realist_message ← lift (RealistAgent.format_user_message
                            resume_text job_description critic_response advocate_response);
  realist_response ← async_for llm_service realist_prompt realist_message "Realist" memory_context
    (fun chunk realist_response =>
       let realist_response := realist_response +:+ chunk in
       _ ← yield (mkEvent "Realist" chunk false 3 None);
       mret realist_response) "";
  _ ← yield (mkEvent "Realist" "" true 3 None);
  (* Final workflow complete signal *)
  yield (mkEvent "Workflow" "" true 4
           (Some (mkAgentWorkflowResult critic_response advocate_response realist_response))).

(** The events of a trace, in emission order. *)
Definition events (tr : list Action) : list Event :=
  omap (fun a => match a with Yield e => Some e | LLMCall _ _ _ _ => None end) tr.

End Graph.
Export (hints) Graph.

(* ================================================================== *)
(** * The tables: [core/models.py] *)
(* ================================================================== *)

Module FeedbackSession.
Record t : Type := mk {
  id : Z;
  resume_id : Z;
  status : string;
  created_at : Z;
  completed_at : option Z
}.
End FeedbackSession.

Module AgentResponse.
Record t : Type := mk {
  id : Z;
  session_id : Z;
  agent_name : string;
  response_text : string;
  order : Z;
  thumbs_up : option bool;
  feedback_text : option string;
  created_at : Z
}.
End AgentResponse.

Module AggregatedLearning.
Record t : Type := mk {
  id : Z;
  pattern_type : string;
  description : string;
  frequency : Z;
  confidence_score : Q;
  agent_name : string;
  last_updated : Z
}.
End AggregatedLearning.

Module Resume.
Record t : Type := mk {
  id : Z;
  filename : string;
  text_content : string;
  s3_url : string;
  job_description : string;
  uploaded_at : Z
}.
End Resume.

(** What the database session holds: the rows of the three tables, in
    insertion order, and the supply of fresh primary keys ([uuid4]). *)
Record Store : Type := mkStore {
  feedback_sessions : list FeedbackSession.t;
  agent_responses : list AgentResponse.t;
  aggregated_learnings : list AggregatedLearning.t;
  next_uuid : Z
}.

Definition empty_store : Store := mkStore [] [] [] 1.

(** Code that works on the database session: it may raise, and what it
    did to the session before raising stays in the session. *)
Record DB (A : Type) : Type := mkDB {
  run : Store -> Py.result A * Store
}.
Arguments mkDB {A} run.
Arguments run {A} d st.

#[export] Instance db_ret : MRet DB := fun A a =>
  mkDB (fun st => (Py.Return a, st)).
#[export] Instance db_bind : MBind DB := fun A B k m =>
  mkDB (fun st =>
    match run m st with
    | (Py.Raise e, st') => (Py.Raise e, st')
    | (Py.Return a, st') => run (k a) st'
    end).

Module Db.

Definition raise {A} (e : Py.exn) : DB A := mkDB (fun st => (Py.Raise e, st)).
Definition get : DB Store := mkDB (fun st => (Py.Return st, st)).
Definition put (st : Store) : DB unit := mkDB (fun _ => (Py.Return tt, st)).

(** [uuid4()] as the default of a primary key. *)
Definition uuid4 : DB Z :=
  mkDB (fun st =>
    (Py.Return (next_uuid st),
     mkStore (feedback_sessions st) (agent_responses st)
             (aggregated_learnings st) (next_uuid st + 1)%Z)).

(** [select(...).where(p)]: the rows that satisfy [p], each with its
    position in the table, which stands for the identity of the mapped
    object. *)
Fixpoint select_where {A} (p : A -> bool) (rows : list A) (i : nat)
  : list (nat * A) :=
  match rows with
  | [] => []
  | r :: rs =>
      if p r then (i, r) :: select_where p rs (S i)
      else select_where p rs (S i)
  end.

(** [result.scalar_one_or_none()] *)
Definition scalar_one_or_none {A} (res : list (nat * A))
  : DB (option (nat * A)) :=
  match res with
  | [] => mret None
  | [x] => mret (Some x)
  | _ :: _ :: _ => raise Py.MultipleResultsFound
  end.

End Db.

(* ================================================================== *)
(** * The repository: [repositories/feedback_repository.py] *)
(* ================================================================== *)

Module FeedbackRepository.

(** [resume_id] is [None] or a UUID; only [None] is falsy. *)
Definition create_feedback_session (resume_id : option Z) (now : Z)
  : DB FeedbackSession.t :=
  match resume_id with
  | None => Db.raise (Py.ValueError "Resume ID is required")
  | Some resume_id =>
      id ← Db.uuid4;
      let session := FeedbackSession.mk id resume_id "in_progress" now None in
      st ← Db.get;
      _ ← Db.put (mkStore (feedback_sessions st ++ [session]) (agent_responses st)
                          (aggregated_learnings st) (next_uuid st));
      mret session
  end.

Definition add_agent_response (session_id : option Z)
  (agent_name response_text : string) (order now : Z)
  : DB AgentResponse.t :=
  match session_id with
  | None => Db.raise (Py.ValueError "Session ID is required")
  | Some session_id =>
      if Py.blank agent_name then
        Db.raise (Py.ValueError "Agent name is required")
      else if Py.blank response_text then
        Db.raise (Py.ValueError "Response text is required")
      else if (order <? 0)%Z then
        Db.raise (Py.ValueError "Order must be non-negative")
      else
        id ← Db.uuid4;
        let response := AgentResponse.mk id session_id (Py.lower agent_name)
                          response_text order None None now in
        st ← Db.get;
        _ ← Db.put (mkStore (feedback_sessions st) (agent_responses st ++ [response])
                            (aggregated_learnings st) (next_uuid st));
        mret response
  end.

Definition get_feedback_session_by_id (session_id : Z)
  : DB (option (nat * FeedbackSession.t)) :=
  st ← Db.get;
  Db.scalar_one_or_none
    (Db.select_where (fun s => (FeedbackSession.id s =? session_id)%Z)
       (feedback_sessions st) 0).

Definition complete_feedback_session (session_id now : Z)
  : DB (option FeedbackSession.t) :=
  session ← get_feedback_session_by_id session_id;
  match session with
  | None => mret None
  | Some (i, session) =>
      let session := FeedbackSession.mk (FeedbackSession.id session)
                       (FeedbackSession.resume_id session) "completed"
                       (FeedbackSession.created_at session) (Some now) in
      st ← Db.get;
      _ ← Db.put (mkStore (<[i := session]> (feedback_sessions st)) (agent_responses st)
                          (aggregated_learnings st) (next_uuid st));
      mret (Some session)
  end.

Definition update_agent_feedback (response_id : Z) (thumbs_up : bool)
  (feedback_text : option string) : DB (option AgentResponse.t) :=
  st ← Db.get;
  response ← Db.scalar_one_or_none
    (Db.select_where (fun r => (AgentResponse.id r =? response_id)%Z)
       (agent_responses st) 0);
  match response with
  | None => mret None
  | Some (i, response) =>
      let response := AgentResponse.mk (AgentResponse.id response)
                        (AgentResponse.session_id response)
                        (AgentResponse.agent_name response)
                        (AgentResponse.response_text response)
                        (AgentResponse.order response)
                        (Some thumbs_up) feedback_text
                        (AgentResponse.created_at response) in
      _ ← Db.put (mkStore (feedback_sessions st) (<[i := response]> (agent_responses st))
                          (aggregated_learnings st) (next_uuid st));
      mret (Some response)
  end.

Definition get_agent_response_by_session_and_name (session_id : Z)
  (agent_name : string) : DB (option (nat * AgentResponse.t)) :=
  st ← Db.get;
  Db.scalar_one_or_none
    (Db.select_where
       (fun r => (AgentResponse.session_id r =? session_id)%Z
                 && String.eqb (AgentResponse.agent_name r) (Py.lower agent_name))
       (agent_responses st) 0).

(** The [where] clause of [create_or_update_learning]. *)
Definition learning_matches (pattern_type description agent_name : string)
  (l : AggregatedLearning.t) : bool :=
  String.eqb (AggregatedLearning.pattern_type l) pattern_type
  && String.eqb (AggregatedLearning.description l) description
  && String.eqb (AggregatedLearning.agent_name l) (Py.lower agent_name).

(** The cap of the update branch. *)
Definition confidence_cap : Q := 95 # 100.

Definition create_or_update_learning
  (pattern_type description agent_name : string) (confidence_score : Q)
  (now : Z) : DB AggregatedLearning.t :=
  st ← Db.get;
  existing ← Db.scalar_one_or_none
    (Db.select_where (learning_matches pattern_type description agent_name)
       (aggregated_learnings st) 0);
  match existing with
  | Some (i, existing) =>
      (* Update existing learning *)
      let existing := AggregatedLearning.mk
            (AggregatedLearning.id existing)
            (AggregatedLearning.pattern_type existing)
            (AggregatedLearning.description existing)
            (AggregatedLearning.frequency existing + 1)%Z
            (Py.max (AggregatedLearning.confidence_score existing)
                    (Py.min confidence_score confidence_cap))
            (AggregatedLearning.agent_name existing)
            now in
      _ ← Db.put (mkStore (feedback_sessions st) (agent_responses st)
                          (<[i := existing]> (aggregated_learnings st)) (next_uuid st));
      mret existing
  | None =>
      (* Create new learning *)
      id ← Db.uuid4;
      let learning := AggregatedLearning.mk id pattern_type description 1
                        confidence_score (Py.lower agent_name) now in
      st ← Db.get;
      _ ← Db.put (mkStore (feedback_sessions st) (agent_responses st)
                          (aggregated_learnings st ++ [learning]) (next_uuid st));
      mret learning
  end.

(** [ORDER BY frequency DESC, last_updated DESC]: the rows that may come
    before a given row. *)
Definition learning_precedes (l1 l2 : AggregatedLearning.t) : Prop :=
  (AggregatedLearning.frequency l2 < AggregatedLearning.frequency l1)%Z
  \/ (AggregatedLearning.frequency l1 = AggregatedLearning.frequency l2
      /\ (AggregatedLearning.last_updated l2
          <= AggregatedLearning.last_updated l1)%Z).

#[export] Instance learning_precedes_dec : RelDecision learning_precedes :=
  fun l1 l2 =>
    or_dec
      (decide (AggregatedLearning.frequency l2 < AggregatedLearning.frequency l1)%Z)
      (and_dec
         (decide (AggregatedLearning.frequency l1 = AggregatedLearning.frequency l2))
         (decide (AggregatedLearning.last_updated l2
                  <= AggregatedLearning.last_updated l1)%Z)).

(** [limit] is a limit that the database accepts, that is, not
    negative.  Rows that agree on both columns of the ordering come in
    an order that the database chooses; here they are sorted by
    merging. *)
Definition get_aggregated_learnings (agent_name : option string) (limit : nat)
  : DB (list AggregatedLearning.t) :=
  st ← Db.get;
  let rows :=
    match agent_name with
    | Some agent_name =>
        if Py.truthy agent_name then
          List.filter
            (fun l => String.eqb (AggregatedLearning.agent_name l)
                        (Py.lower agent_name))
            (aggregated_learnings st)
        else aggregated_learnings st
    | None => aggregated_learnings st
    end in
  mret (take limit (merge_sort learning_precedes rows)).

End FeedbackRepository.

(* ================================================================== *)
(** * The resumes: [repositories/resume_repository.py] *)
(* ================================================================== *)

(** The whole database: the table of the resumes beside the tables of
    the feedback. *)
Record Database : Type := mkDatabase {
  resumes : list Resume.t;
  feedback : Store
}.

(** Code that works on the whole database. *)
Record Tx (A : Type) : Type := mkTx {
  run_tx : Database -> Py.result A * Database
}.
Arguments mkTx {A} run_tx.
Arguments run_tx {A} t db.

#[export] Instance tx_ret : MRet Tx := fun A a =>
  mkTx (fun db => (Py.Return a, db)).
#[export] Instance tx_bind : MBind Tx := fun A B k m =>
  mkTx (fun db =>
    match run_tx m db with
    | (Py.Raise e, db') => (Py.Raise e, db')
    | (Py.Return a, db') => run_tx (k a) db'
    end).

Module Txn.

Definition raise {A} (e : Py.exn) : Tx A := mkTx (fun db => (Py.Raise e, db)).
Definition get : Tx Database := mkTx (fun db => (Py.Return db, db)).
Definition put (db : Database) : Tx unit := mkTx (fun _ => (Py.Return tt, db)).

(** The code of the feedback repository, run on the whole database. *)
Definition lift {A} (m : DB A) : Tx A :=
  mkTx (fun db =>
    match run m (feedback db) with
    | (r, st') => (r, mkDatabase (resumes db) st')
    end).

End Txn.

Module ResumeRepository.

Definition create_resume (filename text_content s3_url job_description : string)
  (now : Z) : Tx Resume.t :=
  if Py.blank filename then
    Txn.raise (Py.ValueError "Filename is required")
  else if Py.blank text_content then
    Txn.raise (Py.ValueError "Text content is required")
  else if Py.blank s3_url then
    Txn.raise (Py.ValueError "S3 URL is required")
  else if Py.blank job_description then
    Txn.raise (Py.ValueError "Job description is required")
  else
    id ← Txn.lift Db.uuid4;
    let resume := Resume.mk id (Py.strip filename) (Py.strip text_content)
                    (Py.strip s3_url) (Py.strip job_description) now in
    db ← Txn.get;
    _ ← Txn.put (mkDatabase (resumes db ++ [resume]) (feedback db));
    mret resume.

Definition get_resume_by_id (resume_id : Z) : Tx (option (nat * Resume.t)) :=
  db ← Txn.get;
  Txn.lift (Db.scalar_one_or_none
    (Db.select_where (fun r => (Resume.id r =? resume_id)%Z) (resumes db) 0)).

(** [ORDER BY uploaded_at DESC] *)
Definition uploaded_after (r1 r2 : Resume.t) : Prop :=
  (Resume.uploaded_at r2 <= Resume.uploaded_at r1)%Z.

#[export] Instance uploaded_after_dec : RelDecision uploaded_after :=
  fun r1 r2 => decide (Resume.uploaded_at r2 <= Resume.uploaded_at r1)%Z.

Definition get_recent_resumes (limit : Z) : Tx (list Resume.t) :=
  if ((limit <? 1) || (100 <? limit))%Z then
    Txn.raise (Py.ValueError "Limit must be between 1 and 100")
  else
    db ← Txn.get;
    mret (take (Z.to_nat limit) (merge_sort uploaded_after (resumes db))).

(** [db_session.delete(resume)] removes the resume and, by the cascades
    that the models declare ([all, delete-orphan] on
    [Resume.feedback_sessions] and on [FeedbackSession.agent_responses]),
    its feedback sessions and their agent responses. *)
Definition delete_resume (resume_id : Z) : Tx bool :=
  resume ← get_resume_by_id resume_id;
  match resume with
  | None => mret false
  | Some (i, resume) =>
      db ← Txn.get;
      let st := feedback db in
      let gone (s : FeedbackSession.t) : bool :=
        (FeedbackSession.resume_id s =? Resume.id resume)%Z in
      let gone_with (r : AgentResponse.t) : bool :=
        existsb (fun s => gone s
                          && (AgentResponse.session_id r =? FeedbackSession.id s)%Z)
                (feedback_sessions st) in
      _ ← Txn.put
            (mkDatabase (delete i (resumes db))
               (mkStore
                  (List.filter (fun s => negb (gone s)) (feedback_sessions st))
                  (List.filter (fun r => negb (gone_with r)) (agent_responses st))
                  (aggregated_learnings st) (next_uuid st)));
      mret true
  end.

End ResumeRepository.


(* ================================================================== *)
(** * The routes: [api/routes.py] *)
(* ================================================================== *)

Module Routes.

(** ** [stream_analysis.generate_stream] *)

(** One server-sent event: the JSON of an orchestrator event, or the
    error object of the [except] branch. *)
Inductive SSE : Type :=
| Data (response_data : Graph.Event)
| Error (message : string).

(** The body of the consumer's loop for one event; [agent_responses] is
    the consumer's dictionary from agent names to accumulated text. *)
Definition on_event (session_id now : Z) (response_data : Graph.Event)
  (agent_responses : gmap string string) : DB (gmap string string) :=
  (* Store complete responses for database *)
  _ ← (if Graph.is_complete response_data
          && negb (String.eqb (Graph.agent_name response_data) "Workflow")
       then
         let agent_name := Graph.agent_name response_data in
         match agent_responses !! agent_name with
         | Some text =>
             _ ← FeedbackRepository.add_agent_response (Some session_id)
                   agent_name text (Graph.order response_data) now;
             mret tt
         | None => mret tt
         end
       else mret tt);
  (* Accumulate responses *)
  if negb (Graph.is_complete response_data) then
    let agent_name := Graph.agent_name response_data in
    let agent_responses :=
      match agent_responses !! agent_name with
      | None => <[agent_name := ""]> agent_responses
      | Some _ => agent_responses
      end in
    mret (<[agent_name :=
              default "" (agent_responses !! agent_name)
              +:+ Graph.chunk response_data]> agent_responses)
  else mret agent_responses.

(** The loop over the events that the orchestrator yields.  The loop
    stops at the first event whose body raises; the events handled
    before it have been sent. *)
Fixpoint consume (session_id now : Z) (evs : list Graph.Event)
  (agent_responses : gmap string string) (st : Store)
  : list SSE * Py.result unit * Store :=
  match evs with
  | [] => ([], Py.Return tt, st)
  | response_data :: rest =>
      match run (on_event session_id now response_data agent_responses) st with
      | (Py.Raise e, st') => ([], Py.Raise e, st')
      | (Py.Return agent_responses', st') =>
          let '(out, r, st'') := consume session_id now rest agent_responses' st' in
          (Data response_data :: out, r, st'')
      end
  end.

(** The stream for one session: drive the orchestrator, record each
    agent's text when its completion event arrives, complete the session
    at the end; any exception becomes a final error event. *)
Definition generate_stream (llm_service : LLMService.t) (session_id : Z)
  (text_content job_description : string) (memory_context : list string)
  (now : Z) (st : Store) : list SSE * Store :=
  let debate := Graph.execute_debate llm_service text_content job_description
                  (Some memory_context) in
  let '(out, r, st1) :=
    consume session_id now (Graph.events (Graph.trace debate)) ∅ st in
  match r with
  | Py.Raise e => (out ++ [Error (Py.str_of_exn e)], st1)
  | Py.Return _ =>
      match Graph.outcome debate with
      | Py.Raise e => (out ++ [Error (Py.str_of_exn e)], st1)
      | Py.Return _ =>
          (* Mark session as completed *)
          match run (FeedbackRepository.complete_feedback_session session_id now) st1 with
          | (Py.Raise e, st2) => (out ++ [Error (Py.str_of_exn e)], st2)
          | (Py.Return _, st2) => (out, st2)
          end
      end
  end.

(** ** [submit_feedback] *)

(** [AgentFeedbackRequest], after the framework has validated it. *)
Record AgentFeedbackRequest : Type := mkAgentFeedbackRequest {
  session_id : Z;
  agent_name : string;
  thumbs_up : bool;
  feedback_text : option string
}.

(** The [detail] of an [HTTPException], kept as the parts of its text. *)
Inductive Detail : Type :=
| AgentResponseNotFound (agent_name : string) (session_id : Z)
| FailedToUpdateAgentResponse
| FeedbackSubmissionError (message : string).

Record HTTPException : Type := mkHTTPException {
  status_code : Z;
  detail : Detail
}.

(** The learning that a feedback turns into (the block that follows the
    update of the response): pattern type, description and confidence. *)
Definition pattern_type_of (thumbs_up : bool) : string :=
  if thumbs_up then "positive_feedback" else "negative_feedback".

Definition confidence_score_of (thumbs_up : bool) : Q :=
  if thumbs_up then 8 # 10 else 3 # 10.

Definition description_of (thumbs_up : bool) (feedback_text : option string)
  : string :=
  match feedback_text with
  | Some text =>
      if Py.truthy text then Py.slice_to 200 text
      else "User gave " +:+ (if thumbs_up then "positive" else "negative")
           +:+ " feedback"
  | None =>
      "User gave " +:+ (if thumbs_up then "positive" else "negative")
      +:+ " feedback"
  end.

(** The handler.  Its result is the id of the updated response. *)
Definition submit_feedback (feedback_request : AgentFeedbackRequest)
  (now : Z) (st : Store) : (HTTPException + Z) * Store :=
  let body : DB (HTTPException + Z) :=
    agent_response ← FeedbackRepository.get_agent_response_by_session_and_name
                       (session_id feedback_request) (agent_name feedback_request);
    match agent_response with
    | None =>
        mret (inl (mkHTTPException 404
                     (AgentResponseNotFound (agent_name feedback_request)
                                            (session_id feedback_request))))
    | Some (_, agent_response) =>
        updated_response ← FeedbackRepository.update_agent_feedback
                             (AgentResponse.id agent_response)
                             (thumbs_up feedback_request)
                             (feedback_text feedback_request);
        match updated_response with
        | None => mret (inl (mkHTTPException 404 FailedToUpdateAgentResponse))
        | Some updated_response =>
            let pattern_type := pattern_type_of (thumbs_up feedback_request) in
            let confidence_score := confidence_score_of (thumbs_up feedback_request) in
            let description := description_of (thumbs_up feedback_request)
                                 (feedback_text feedback_request) in
            _ ← FeedbackRepository.create_or_update_learning pattern_type description
                  (AgentResponse.agent_name updated_response) confidence_score now;
            mret (inr (AgentResponse.id updated_response))
        end
    end in
  match run body st with
  | (Py.Return r, st') => (r, st')
  | (Py.Raise e, st') =>
      (inl (mkHTTPException 500 (FeedbackSubmissionError (Py.str_of_exn e))), st')
  end.

(** ** [stream_analysis] *)

(** The [HTTPException]s of [stream_analysis], whose details are plain
    texts. *)
Record HTTPError : Type := mkHTTPError {
  http_status : Z;
  http_detail : string
}.

(** The handler, together with the consumption of the stream that it
    returns: the answer is an [HTTPException], or the events sent to a
    client that reads the stream to its end.  [now] is the time of the
    database during the request. *)
Definition stream_analysis (llm_service : LLMService.t) (session_id now : Z)
  (db : Database) : (HTTPError + list SSE) * Database :=
  let body : Tx (HTTPError + Resume.t * list string) :=
    (* Get feedback session and resume *)
    feedback_session ← Txn.lift
                         (FeedbackRepository.get_feedback_session_by_id session_id);
    match feedback_session with
    | None => mret (inl (mkHTTPError 404 "Feedback session not found"))
    | Some (_, feedback_session) =>
        resume ← ResumeRepository.get_resume_by_id
                   (FeedbackSession.resume_id feedback_session);
        match resume with
        | None => mret (inl (mkHTTPError 404 "Resume not found"))
        | Some (_, resume) =>
            (* Get memory context *)
            memory_learnings ← Txn.lift
                                 (FeedbackRepository.get_aggregated_learnings None 10);
            let memory_context :=
              List.map AggregatedLearning.description memory_learnings in
            mret (inr (resume, memory_context))
        end
    end in
  match run_tx body db with
  | (Py.Raise e, db') =>
      (inl (mkHTTPError 500 ("Streaming error: " +:+ Py.str_of_exn e)), db')
  | (Py.Return (inl e), db') => (inl e, db')
  | (Py.Return (inr (resume, memory_context)), db') =>
      let '(out, st) :=
        generate_stream llm_service session_id (Resume.text_content resume)
          (Resume.job_description resume) memory_context now (feedback db') in
      (inr out, mkDatabase (resumes db') st)
  end.

End Routes.

(* ================================================================== *)
(** * Vocabulary of the properties *)
(* ================================================================== *)

(** The text that a sequence of chunks adds up to. *)
Definition accumulate (chunks : list string) : string :=
  foldr String.append "" chunks.

(** The three kinds of event that an agent's phase is made of. *)
Definition start_event (name : string) (order : Z) : Graph.Event :=
  Graph.mkEvent name "" false order None.
Definition chunk_event (name : string) (order : Z) (c : string) : Graph.Event :=
  Graph.mkEvent name c false order None.
Definition complete_event (name : string) (order : Z) : Graph.Event :=
  Graph.mkEvent name "" true order None.
Definition workflow_event (res : Graph.AgentWorkflowResult) : Graph.Event :=
  Graph.mkEvent "Workflow" "" true 4 (Some res).

(** The three agents with their orders. *)
Definition agents : list (string * Z) :=
  [("Critic", 1%Z); ("Advocate", 2%Z); ("Realist", 3%Z)].

(** The chunks of an agent's events with [is_complete = false], in
    emission order, and the text they add up to. *)
Definition is_chunk_of (name : string) (e : Graph.Event) : bool :=
  String.eqb (Graph.agent_name e) name && negb (Graph.is_complete e).
Definition chunks_of (name : string) (evs : list Graph.Event) : list string :=
  map Graph.chunk (List.filter (is_chunk_of name) evs).
Definition streamed_text (name : string) (evs : list Graph.Event) : string :=
  accumulate (chunks_of name evs).

(** The actions of a trace that concern one agent: its events and the
    completion calls made for it. *)
Definition concerns (name : string) (a : Graph.Action) : bool :=
  match a with
  | Graph.Yield e => String.eqb (Graph.agent_name e) name
  | Graph.LLMCall _ _ n _ => String.eqb n name
  end.
Definition agent_actions (name : string) (tr : list Graph.Action)
  : list Graph.Action :=
  List.filter (concerns name) tr.

(** The phases of an event sequence: its maximal runs of events with the
    same agent name and order, one entry per run. *)
Fixpoint squash (l : list (string * Z)) : list (string * Z) :=
  match l with
  | [] => []
  | x :: l' =>
      match squash l' with
      | [] => [x]
      | y :: s => if decide (x = y) then y :: s else x :: y :: s
      end
  end.
Definition phases (evs : list Graph.Event) : list (string * Z) :=
  squash (map (fun e => (Graph.agent_name e, Graph.order e)) evs).

(** The completion event of an agent occurs once, after all the other
    events of that agent, and before every event of a later order. *)
Definition completes_in_place (evs : list Graph.Event) (ao : string * Z) : Prop :=
  exists before after,
    evs = before ++ complete_event ao.1 ao.2 :: after
    /\ Forall (fun e => (Graph.order e <= ao.2)%Z
                        /\ (Graph.agent_name e = ao.1 -> Graph.is_complete e = false))
              before
    /\ Forall (fun e => (ao.2 < Graph.order e)%Z /\ Graph.agent_name e <> ao.1)
              after.

(** The number of completion events of an agent. *)
Definition completions (name : string) (evs : list Graph.Event) : nat :=
  length (List.filter (fun e => String.eqb (Graph.agent_name e) name
                                && Graph.is_complete e) evs).

(** An event sequence in the order Critic(1), Advocate(2), Realist(3),
    Workflow(4). *)
Definition ordered_debate (evs : list Graph.Event) : Prop :=
  StronglySorted Z.le (map Graph.order evs)
  /\ phases evs = [("Critic", 1%Z); ("Advocate", 2%Z); ("Realist", 3%Z); ("Workflow", 4%Z)]
  /\ Forall (fun ao => completions ao.1 evs = 1%nat /\ completes_in_place evs ao) agents.

(** The actions of an agent's phase: its opening event, the completion
    call and one event per fragment; a closed phase ends with the
    completion event. *)
Definition open_phase (name : string) (order : Z)
  (system_prompt user_message : string) (memory_context frags : list string)
  : list Graph.Action :=
  Graph.Yield (start_event name order)
  :: Graph.LLMCall system_prompt user_message name memory_context
  :: map (fun c => Graph.Yield (chunk_event name order c)) frags.
Definition closed_phase (name : string) (order : Z)
  (system_prompt user_message : string) (memory_context frags : list string)
  : list Graph.Action :=
  open_phase name order system_prompt user_message memory_context frags
  ++ [Graph.Yield (complete_event name order)].

(** The runs of [execute_debate], one rule per way in which a run can
    end: at the validation of the inputs, at a failure of one of the
    three streams, at the validation of the Realist's inputs, or with the
    final Workflow event. *)
Inductive Run (llm : LLMService.t) (r j : string) (mc : list string)
  : list Graph.Action -> Py.result unit -> Prop :=
| run_invalid e :
    CriticAgent.format_user_message r j = Py.Raise e ->
    Run llm r j mc [Graph.Yield (start_event "Critic" 1)] (Py.Raise e)
| run_critic_fails cm sc err :
    CriticAgent.format_user_message r j = Py.Return cm ->
    LLMService.generate_agent_response llm
      (CriticAgent.get_system_prompt (Some mc)) cm "Critic" mc = sc ->
    LLMService.failure sc = Some err ->
    Run llm r j mc
      (open_phase "Critic" 1 (CriticAgent.get_system_prompt (Some mc)) cm mc
         (LLMService.fragments sc))
      (Py.Raise (Py.RuntimeError err))
| run_advocate_fails cm sc am sa err :
    CriticAgent.format_user_message r j = Py.Return cm ->
    LLMService.generate_agent_response llm
      (CriticAgent.get_system_prompt (Some mc)) cm "Critic" mc = sc ->
    LLMService.failure sc = None ->
    AdvocateAgent.format_user_message r j = Py.Return am ->
    LLMService.generate_agent_response llm
      (AdvocateAgent.get_system_prompt (Some mc)) am "Advocate" mc = sa ->
    LLMService.failure sa = Some err ->
    Run llm r j mc
      (closed_phase "Critic" 1 (CriticAgent.get_system_prompt (Some mc)) cm mc
         (LLMService.fragments sc)
       ++ open_phase "Advocate" 2 (AdvocateAgent.get_system_prompt (Some mc)) am mc
            (LLMService.fragments sa))
      (Py.Raise (Py.RuntimeError err))
| run_realist_invalid cm sc am sa e :
    CriticAgent.format_user_message r j = Py.Return cm ->
    LLMService.generate_agent_response llm
      (CriticAgent.get_system_prompt (Some mc)) cm "Critic" mc = sc ->
    LLMService.failure sc = None ->
    AdvocateAgent.format_user_message r j = Py.Return am ->
    LLMService.generate_agent_response llm
      (AdvocateAgent.get_system_prompt (Some mc)) am "Advocate" mc = sa ->
    LLMService.failure sa = None ->
    RealistAgent.format_user_message r j
      (accumulate (LLMService.fragments sc))
      (accumulate (LLMService.fragments sa)) = Py.Raise e ->
    Run llm r j mc
      (closed_phase "Critic" 1 (CriticAgent.get_system_prompt (Some mc)) cm mc
         (LLMService.fragments sc)
       ++ closed_phase "Advocate" 2 (AdvocateAgent.get_system_prompt (Some mc)) am mc
            (LLMService.fragments sa)
       ++ [Graph.Yield (start_event "Realist" 3)])
      (Py.Raise e)
| run_realist_fails cm sc am sa rm sr err :
    CriticAgent.format_user_message r j = Py.Return cm ->
    LLMService.generate_agent_response llm
      (CriticAgent.get_system_prompt (Some mc)) cm "Critic" mc = sc ->
    LLMService.failure sc = None ->
    AdvocateAgent.format_user_message r j = Py.Return am ->
    LLMService.generate_agent_response llm
      (AdvocateAgent.get_system_prompt (Some mc)) am "Advocate" mc = sa ->
    LLMService.failure sa = None ->
    RealistAgent.format_user_message r j
      (accumulate (LLMService.fragments sc))
      (accumulate (LLMService.fragments sa)) = Py.Return rm ->
    LLMService.generate_agent_response llm
      (RealistAgent.get_system_prompt (Some mc)) rm "Realist" mc = sr ->
    LLMService.failure sr = Some err ->
    Run llm r j mc
      (closed_phase "Critic" 1 (CriticAgent.get_system_prompt (Some mc)) cm mc
         (LLMService.fragments sc)
       ++ closed_phase "Advocate" 2 (AdvocateAgent.get_system_prompt (Some mc)) am mc
            (LLMService.fragments sa)
       ++ open_phase "Realist" 3 (RealistAgent.get_system_prompt (Some mc)) rm mc
            (LLMService.fragments sr))
      (Py.Raise (Py.RuntimeError err))
| run_finished cm sc am sa rm sr :
    CriticAgent.format_user_message r j = Py.Return cm ->
    LLMService.generate_agent_response llm
      (CriticAgent.get_system_prompt (Some mc)) cm "Critic" mc = sc ->
    LLMService.failure sc = None ->
    AdvocateAgent.format_user_message r j = Py.Return am ->
    LLMService.generate_agent_response llm
      (AdvocateAgent.get_system_prompt (Some mc)) am "Advocate" mc = sa ->
    LLMService.failure sa = None ->
    RealistAgent.format_user_message r j
      (accumulate (LLMService.fragments sc))
      (accumulate (LLMService.fragments sa)) = Py.Return rm ->
    LLMService.generate_agent_response llm
      (RealistAgent.get_system_prompt (Some mc)) rm "Realist" mc = sr ->
    LLMService.failure sr = None ->
    Run llm r j mc
      (closed_phase "Critic" 1 (CriticAgent.get_system_prompt (Some mc)) cm mc
         (LLMService.fragments sc)
       ++ closed_phase "Advocate" 2 (AdvocateAgent.get_system_prompt (Some mc)) am mc
            (LLMService.fragments sa)
       ++ closed_phase "Realist" 3 (RealistAgent.get_system_prompt (Some mc)) rm mc
            (LLMService.fragments sr)
       ++ [Graph.Yield (workflow_event
             (Graph.mkAgentWorkflowResult
                (accumulate (LLMService.fragments sc))
                (accumulate (LLMService.fragments sa))
                (accumulate (LLMService.fragments sr))))])
      (Py.Return tt).

(** The events of an agent's phase. *)
Definition open_events (name : string) (order : Z) (frags : list string)
  : list Graph.Event :=
  start_event name order :: map (chunk_event name order) frags.
Definition closed_events (name : string) (order : Z) (frags : list string)
  : list Graph.Event :=
  open_events name order frags ++ [complete_event name order].

(** A completion service whose streams end at once, without a fragment. *)
Definition silent_llm : LLMService.t :=
  LLMService.mk (fun _ _ _ _ => LLMService.mkStream [] None).

(** A completion service that answers each agent with a short text. *)
Definition sample_llm : LLMService.t :=
  LLMService.mk (fun _ _ agent_name _ =>
    LLMService.mkStream
      (if String.eqb agent_name "Critic" then ["Too "; "vague"]
       else if String.eqb agent_name "Advocate" then ["Strong"]
       else ["Fix "; "the "; "summary"])
      None).

(** The key of a learning pattern. *)
Definition learning_key (l : AggregatedLearning.t) : string * string * string :=
  (AggregatedLearning.pattern_type l, AggregatedLearning.description l,
   AggregatedLearning.agent_name l).

(** A confidence between 0 and the cap. *)
Definition in_range (c : Q) : Prop :=
  (0 <= c)%Q /\ (c <= FeedbackRepository.confidence_cap)%Q.

(** Successive calls of [create_or_update_learning] with one key, each
    with its confidence and its time; the result lists what each call
    returned. *)
Fixpoint upserts (pattern_type description agent_name : string)
  (calls : list (Q * Z)) : DB (list AggregatedLearning.t) :=
  match calls with
  | [] => mret []
  | (confidence_score, now) :: rest =>
      l ← FeedbackRepository.create_or_update_learning
            pattern_type description agent_name confidence_score now;
      ls ← upserts pattern_type description agent_name rest;
      mret (l :: ls)
  end.



(** The number of recorded turns of an agent in a session. *)
Definition turns_of (session_id : Z) (agent_name : string) (st : Store) : nat :=
  length (List.filter
            (fun r => (AgentResponse.session_id r =? session_id)%Z
                      && String.eqb (AgentResponse.agent_name r) agent_name)
            (agent_responses st)).

(** At most one recorded turn per session and agent. *)
Definition at_most_one_turn (st : Store) : Prop :=
  forall session_id agent_name, (turns_of session_id agent_name st <= 1)%nat.

(** The operations of the repository that write. *)
Inductive Op : Type :=
| CreateFeedbackSession (resume_id : option Z) (now : Z)
| AddAgentResponse (session_id : option Z) (agent_name response_text : string)
                   (order now : Z)
| CompleteFeedbackSession (session_id now : Z)
| UpdateAgentFeedback (response_id : Z) (thumbs_up : bool)
                      (feedback_text : option string)
| CreateOrUpdateLearning (pattern_type description agent_name : string)
                         (confidence_score : Q) (now : Z).

(** The store after an operation, whether it returned or raised. *)
Definition apply_op (st : Store) (op : Op) : Store :=
  match op with
  | CreateFeedbackSession resume_id now =>
      (run (FeedbackRepository.create_feedback_session resume_id now) st).2
  | AddAgentResponse session_id agent_name response_text order now =>
      (run (FeedbackRepository.add_agent_response session_id agent_name
              response_text order now) st).2
  | CompleteFeedbackSession session_id now =>
      (run (FeedbackRepository.complete_feedback_session session_id now) st).2
  | UpdateAgentFeedback response_id thumbs_up feedback_text =>
      (run (FeedbackRepository.update_agent_feedback response_id thumbs_up
              feedback_text) st).2
  | CreateOrUpdateLearning pattern_type description agent_name confidence_score now =>
      (run (FeedbackRepository.create_or_update_learning pattern_type description
              agent_name confidence_score now) st).2
  end.

Definition apply_ops (st : Store) (ops : list Op) : Store :=
  foldl apply_op st ops.

(** The statuses that the repository writes. *)
Definition written_status (s : string) : Prop :=
  s = "in_progress" \/ s = "completed".

(** Statuses only move forward: a session keeps its status or becomes
    completed. *)
Definition forward (s s' : FeedbackSession.t) : Prop :=
  FeedbackSession.id s' = FeedbackSession.id s
  /\ (FeedbackSession.status s' = FeedbackSession.status s
      \/ FeedbackSession.status s' = "completed").

(** The record that the update branch makes of an existing one. *)
Definition updated (l : AggregatedLearning.t) (confidence_score : Q) (now : Z)
  : AggregatedLearning.t :=
  AggregatedLearning.mk
    (AggregatedLearning.id l)
    (AggregatedLearning.pattern_type l)
    (AggregatedLearning.description l)
    (AggregatedLearning.frequency l + 1)
    (Py.max (AggregatedLearning.confidence_score l)
            (Py.min confidence_score (95 # 100)))
    (AggregatedLearning.agent_name l)
    now.

(** The statuses of the specification's data model. *)
Definition spec_status (s : string) : Prop :=
  s ∈ ["pending"; "running"; "completed"; "failed"].

(** Whitespace-only strings, the empty one included. *)
Fixpoint all_space (s : string) : bool :=
  match s with
  | EmptyString => true
  | String c s' => Py.isspace c && all_space s'
  end.

(** Events sent before what a later part of the loop sends. *)
Definition prepend (sent : list Routes.SSE)
  (rest : list Routes.SSE * Py.result unit * Store)
  : list Routes.SSE * Py.result unit * Store :=
  (sent ++ rest.1.1, rest.1.2, rest.2).

(** The row that records the text of an agent. *)
Definition turn_row (id session_id : Z) (ao : string * Z) (text : string)
  (now : Z) : AgentResponse.t :=
  AgentResponse.mk id session_id (Py.lower ao.1) text ao.2 None None now.

(** No two learning patterns with the same key. *)
Definition keys_unique (rows : list AggregatedLearning.t) : Prop :=
  forall i j l l',
    rows !! i = Some l -> rows !! j = Some l' ->
    learning_key l = learning_key l' -> i = j.

(** The completion event of an agent is among the events. *)
Definition completed_in (evs : list Graph.Event) (name : string) : bool :=
  existsb (fun e => Graph.is_complete e && String.eqb (Graph.agent_name e) name)
          evs.

(** The agents whose text the stream consumer records for a run: the
    agents, in the order of the debate, up to the first whose completion
    event has not been emitted or whose streamed text is blank. *)
Fixpoint recorded (evs : list Graph.Event) (l : list (string * Z))
  : list (string * Z) :=
  match l with
  | [] => []
  | ao :: rest =>
      if completed_in evs ao.1 && negb (Py.blank (streamed_text ao.1 evs))
      then ao :: recorded evs rest
      else []
  end.

(** The rows that record the texts of a list of agents, with
    successive ids from [first_id] on: each row is the turn of its
    agent, in the session, and its text is the concatenation of the
    chunks of that agent. *)
Fixpoint rows_from (session_id now : Z) (evs : list Graph.Event)
  (first_id : Z) (l : list (string * Z)) : list AgentResponse.t :=
  match l with
  | [] => []
  | ao :: rest =>
      turn_row first_id session_id ao (streamed_text ao.1 evs) now
      :: rows_from session_id now evs (first_id + 1) rest
  end.

Definition recorded_rows (session_id now : Z) (evs : list Graph.Event)
  (first_id : Z) : list AgentResponse.t :=
  rows_from session_id now evs first_id (recorded evs agents).

(* ================================================================== *)
(** * Vocabulary of the further properties *)
(* ================================================================== *)

(** A recorded turn as [add_agent_response] lets it in. *)
Definition response_ok (r : AgentResponse.t) : Prop :=
  Py.blank (AgentResponse.agent_name r) = false
  /\ Py.lower (AgentResponse.agent_name r) = AgentResponse.agent_name r
  /\ Py.blank (AgentResponse.response_text r) = false
  /\ (0 <= AgentResponse.order r)%Z.

(** A learning pattern as [create_or_update_learning] leaves it. *)
Definition learning_ok (l : AggregatedLearning.t) : Prop :=
  (1 <= AggregatedLearning.frequency l)%Z
  /\ Py.lower (AggregatedLearning.agent_name l) = AggregatedLearning.agent_name l.

(** What holds of every store that the repository has built: in each
    table the primary keys are distinct and below the next fresh one,
    and the rows are as the operations let them in. *)
Record store_inv (st : Store) : Prop := mk_store_inv {
  inv_session_ids : NoDup (map FeedbackSession.id (feedback_sessions st));
  inv_response_ids : NoDup (map AgentResponse.id (agent_responses st));
  inv_learning_ids : NoDup (map AggregatedLearning.id (aggregated_learnings st));
  inv_session_fresh :
    Forall (fun s => (FeedbackSession.id s < next_uuid st)%Z) (feedback_sessions st);
  inv_response_fresh :
    Forall (fun r => (AgentResponse.id r < next_uuid st)%Z) (agent_responses st);
  inv_learning_fresh :
    Forall (fun l => (AggregatedLearning.id l < next_uuid st)%Z)
           (aggregated_learnings st);
  inv_responses : Forall response_ok (agent_responses st);
  inv_learnings : Forall learning_ok (aggregated_learnings st);
  inv_keys : keys_unique (aggregated_learnings st)
}.

(** The session with its status and time of completion set. *)
Definition completed (s : FeedbackSession.t) (now : Z) : FeedbackSession.t :=
  FeedbackSession.mk (FeedbackSession.id s) (FeedbackSession.resume_id s)
    "completed" (FeedbackSession.created_at s) (Some now).

(** The turn with the user's feedback set. *)
Definition with_feedback (r : AgentResponse.t) (thumbs_up : bool)
  (feedback_text : option string) : AgentResponse.t :=
  AgentResponse.mk (AgentResponse.id r) (AgentResponse.session_id r)
    (AgentResponse.agent_name r) (AgentResponse.response_text r)
    (AgentResponse.order r) (Some thumbs_up) feedback_text
    (AgentResponse.created_at r).

(** The turns of an agent in a session, with their positions. *)
Definition turns (session_id : Z) (agent_name : string) (st : Store)
  : list (nat * AgentResponse.t) :=
  Db.select_where
    (fun r => (AgentResponse.session_id r =? session_id)%Z
              && String.eqb (AgentResponse.agent_name r) (Py.lower agent_name))
    (agent_responses st) 0.

(** The operations through which the stream consumer of a session
    writes. *)
Definition stream_op (session_id now : Z) (op : Op) : Prop :=
  (exists agent_name response_text order,
     op = AddAgentResponse (Some session_id) agent_name response_text order now)
  \/ op = CompleteFeedbackSession session_id now.

(** An event stream has an error event. *)
Definition has_error (out : list Routes.SSE) : Prop :=
  exists message, Routes.Error message ∈ out.

(** The operations through which [submit_feedback] writes for a
    request. *)
Definition feedback_op (feedback_request : Routes.AgentFeedbackRequest)
  (now : Z) (op : Op) : Prop :=
  (exists response_id,
     op = UpdateAgentFeedback response_id (Routes.thumbs_up feedback_request)
            (Routes.feedback_text feedback_request))
  \/ (exists agent_name,
        op = CreateOrUpdateLearning
               (Routes.pattern_type_of (Routes.thumbs_up feedback_request))
               (Routes.description_of (Routes.thumbs_up feedback_request)
                  (Routes.feedback_text feedback_request))
               agent_name
               (Routes.confidence_score_of (Routes.thumbs_up feedback_request))
               now).

(** The completion calls of a trace, in the order in which they are
    made, and the agents they are made for. *)
Definition is_call (a : Graph.Action) : bool :=
  match a with
  | Graph.LLMCall _ _ _ _ => true
  | Graph.Yield _ => false
  end.
Definition calls (tr : list Graph.Action) : list Graph.Action :=
  List.filter is_call tr.
Definition called_agent (a : Graph.Action) : option string :=
  match a with
  | Graph.LLMCall _ _ agent_name _ => Some agent_name
  | Graph.Yield _ => None
  end.

(** The learning patterns that a query for an agent looks at: all of
    them when no agent, or an empty name, is given. *)
Definition wanted_by (agent_name : option string) (l : AggregatedLearning.t)
  : bool :=
  match agent_name with
  | Some agent_name =>
      if Py.truthy agent_name then
        String.eqb (AggregatedLearning.agent_name l) (Py.lower agent_name)
      else true
  | None => true
  end.

(** The learning patterns of an agent, whatever the case of the letters
    of the two names; all patterns when no agent, or an empty name, is
    given. *)
Definition of_agent (agent_name : option string) (l : AggregatedLearning.t)
  : bool :=
  match agent_name with
  | Some agent_name =>
      if Py.truthy agent_name then
        String.eqb (Py.lower (AggregatedLearning.agent_name l))
                   (Py.lower agent_name)
      else true
  | None => true
  end.

(** The [k] best rows of a table under an ordering: as many as there
    are, up to [k]; in order; and before every row left out. *)
Definition top_ranked {A} (R : relation A) (k : nat) (rows result : list A)
  : Prop :=
  exists rest,
    result ++ rest ≡ₚ rows
    /\ length result = Nat.min k (length rows)
    /\ StronglySorted R result
    /\ forall x y, x ∈ result -> y ∈ rest -> R x y.

(** A resume as [create_resume] lets it in: no field is blank, and none
    has white space at either end. *)
Definition trimmed (s : string) : Prop :=
  Py.blank s = false /\ Py.strip s = s.

Definition resume_ok (r : Resume.t) : Prop :=
  trimmed (Resume.filename r) /\ trimmed (Resume.text_content r)
  /\ trimmed (Resume.s3_url r) /\ trimmed (Resume.job_description r).

(** The operations that write to the database. *)
Inductive DbOp : Type :=
| CreateResume (filename text_content s3_url job_description : string) (now : Z)
| DeleteResume (resume_id : Z)
| Feedback (op : Op).

(** The database after an operation, whether it returned or raised. *)
Definition apply_db_op (db : Database) (op : DbOp) : Database :=
  match op with
  | CreateResume filename text_content s3_url job_description now =>
      (run_tx (ResumeRepository.create_resume filename text_content s3_url
                 job_description now) db).2
  | DeleteResume resume_id =>
      (run_tx (ResumeRepository.delete_resume resume_id) db).2
  | Feedback op => mkDatabase (resumes db) (apply_op (feedback db) op)
  end.

Definition apply_db_ops (db : Database) (ops : list DbOp) : Database :=
  foldl apply_db_op db ops.

Definition empty_database : Database := mkDatabase [] empty_store.

(** What holds of every database that the repositories have built. *)
Record db_inv (db : Database) : Prop := mk_db_inv {
  inv_feedback : store_inv (feedback db);
  inv_resume_ids : NoDup (map Resume.id (resumes db));
  inv_resume_fresh :
    Forall (fun r => (Resume.id r < next_uuid (feedback db))%Z) (resumes db);
  inv_resumes : Forall resume_ok (resumes db)
}.

(** The sessions of a resume, and the turns of those sessions. *)
Definition session_of (resume_id : Z) (s : FeedbackSession.t) : bool :=
  (FeedbackSession.resume_id s =? resume_id)%Z.

Definition turn_of_resume (resume_id : Z) (sessions : list FeedbackSession.t)
  (r : AgentResponse.t) : Prop :=
  exists s, s ∈ sessions
    /\ FeedbackSession.resume_id s = resume_id
    /\ AgentResponse.session_id r = FeedbackSession.id s.

(** The chunk events of a run that carry no text. *)
Definition empty_chunk (e : Graph.Event) : bool :=
  negb (Graph.is_complete e) && negb (Py.truthy (Graph.chunk e)).

(** The characters of a string. *)
Fixpoint chars (s : string) : list ascii :=
  match s with
  | EmptyString => []
  | String c s' => c :: chars s'
  end.

(** The resume that [create_resume] makes of its arguments, and the
    database with it. *)
Definition created_resume (filename text_content s3_url job_description : string)
  (now : Z) (db : Database) : Resume.t :=
  Resume.mk (next_uuid (feedback db)) (Py.strip filename) (Py.strip text_content)
    (Py.strip s3_url) (Py.strip job_description) now.

Definition with_resume (resume : Resume.t) (db : Database) : Database :=
  mkDatabase (resumes db ++ [resume])
    (mkStore (feedback_sessions (feedback db)) (agent_responses (feedback db))
       (aggregated_learnings (feedback db)) (next_uuid (feedback db) + 1)).

(** The database without the resume at a position, its sessions and
    their turns. *)
Definition gone_with (resume_id : Z) (sessions : list FeedbackSession.t)
  (r : AgentResponse.t) : bool :=
  existsb (fun s => session_of resume_id s
                    && (AgentResponse.session_id r =? FeedbackSession.id s)%Z)
          sessions.

Definition without_resume (i : nat) (resume_id : Z) (db : Database) : Database :=
  mkDatabase (delete i (resumes db))
    (mkStore
       (List.filter (fun s => negb (session_of resume_id s))
          (feedback_sessions (feedback db)))
       (List.filter
          (fun r => negb (gone_with resume_id (feedback_sessions (feedback db)) r))
          (agent_responses (feedback db)))
       (aggregated_learnings (feedback db)) (next_uuid (feedback db))).

(** The text that a chunk of the client carries: the content of the
    delta of its first choice, if it has any. *)
Definition chunk_text (chunk : OpenAI.Chunk) : string :=
  match OpenAI.choices chunk with
  | Some (choice :: _) =>
      match OpenAI.delta choice with
      | Some delta => default "" (OpenAI.delta_content delta)
      | None => ""
      end
  | _ => ""
  end.

(** The ways in which the service words a failure of the client. *)
Definition failure_wordings : list string :=
  [ "OpenAI API error"; "OpenAI rate limit exceeded";
    "OpenAI authentication error"; "Unexpected error with OpenAI" ].

(** A character that may stay in a file name, and a name that does not
    begin with a dot or a dash. *)
Definition safe (c : ascii) : bool := Py.contains_char c S3Service.safe_chars.

Definition plain_start (s : string) : bool :=
  negb (Py.startswith s ".") && negb (Py.startswith s "-").

(* ================================================================== *)
(** * Facts about strings *)
(* ================================================================== *)

Lemma str_app_nil_r (s : string) : s +:+ "" = s.
Proof.
  induction s as [|c s IH]; [reflexivity|].
  change (String c s +:+ "") with (String c (s +:+ "")). by rewrite IH.
Qed.

Lemma str_app_assoc (s1 s2 s3 : string) :
  (s1 +:+ s2) +:+ s3 = s1 +:+ (s2 +:+ s3).
Proof.
  induction s1 as [|c s1 IH]; [reflexivity|].
  change (String c (s1 +:+ s2 +:+ s3) = String c ((s1 +:+ s2) +:+ s3)) || idtac.
  change ((String c s1 +:+ s2) +:+ s3) with (String c ((s1 +:+ s2) +:+ s3)).
  change (String c s1 +:+ (s2 +:+ s3)) with (String c (s1 +:+ (s2 +:+ s3))).
  by rewrite IH.
Qed.

Lemma accumulate_app (l1 l2 : list string) :
  accumulate (l1 ++ l2) = accumulate l1 +:+ accumulate l2.
Proof.
  induction l1 as [|c l1 IH]; [reflexivity|].
  simpl. rewrite IH. by rewrite str_app_assoc.
Qed.

Lemma lstrip_all_space s : all_space s = true -> Py.lstrip s = "".
Proof.
  induction s as [|c s IH]; simpl; [done|].
  destruct (Py.isspace c); simpl; [auto | done].
Qed.

Lemma rstrip_empty s : Py.rstrip s = "" -> all_space s = true.
Proof.
  induction s as [|c s IH]; simpl; [done|].
  destruct (Py.rstrip s); [|done].
  destruct (Py.isspace c); [|done]. auto.
Qed.

Lemma lstrip_not_all_space s :
  all_space s = false -> exists c t, Py.lstrip s = String c t /\ Py.isspace c = false.
Proof.
  induction s as [|c s IH]; simpl; [done|].
  destruct (Py.isspace c) eqn:E; simpl; [auto | eauto].
Qed.

(** The guard [not s or not s.strip()] holds exactly of the strings that
    are empty or made of whitespace only. *)
Lemma blank_spec s : Py.blank s = all_space s.
Proof.
  unfold Py.blank, Py.strip.
  destruct (all_space s) eqn:E.
  - rewrite (lstrip_all_space s E). simpl. by destruct s.
  - destruct (lstrip_not_all_space s E) as (c & t & -> & Hc).
    destruct (Py.rstrip (String c t)) eqn:Er.
    + apply rstrip_empty in Er. simpl in Er. by rewrite Hc in Er.
    + by destruct s.
Qed.

Lemma lower_char_idemp c : Py.lower_char (Py.lower_char c) = Py.lower_char c.
Proof. by destruct c as [[] [] [] [] [] [] [] []]. Qed.

Lemma lower_idemp s : Py.lower (Py.lower s) = Py.lower s.
Proof.
  induction s as [|c s IH]; simpl; [done|].
  by rewrite lower_char_idemp, IH.
Qed.

(* ================================================================== *)
(** * The runs of the orchestrator *)
(* ================================================================== *)

Lemma for_each_yield name order chunks acc :
  Graph.for_each
    (fun chunk acc =>
       _ ← Graph.yield (Graph.mkEvent name chunk false order None);
       mret (acc +:+ chunk))
    chunks acc
  = Graph.mkGen (map (fun c => Graph.Yield (chunk_event name order c)) chunks)
      (Py.Return (acc +:+ accumulate chunks)).
Proof.
  match goal with |- Graph.for_each ?b _ _ = _ => set (body := b) end.
  revert acc. induction chunks as [|c chunks IH]; intros acc.
  - simpl. by rewrite str_app_nil_r.
  - cbn [Graph.for_each].
    replace (body c acc)
      with (Graph.mkGen [Graph.Yield (chunk_event name order c)]
              (Py.Return (acc +:+ c))) by reflexivity.
    unfold mbind, Graph.gen_bind. cbn [Graph.outcome Graph.trace].
    rewrite IH. simpl. by rewrite str_app_assoc.
Qed.

Lemma bind_unfold {A B} (m : Graph.Gen A) (k : A -> Graph.Gen B) :
  m ≫= k
  = match Graph.outcome m with
    | Py.Raise e => Graph.mkGen (Graph.trace m) (Py.Raise e)
    | Py.Return a =>
        Graph.mkGen (Graph.trace m ++ Graph.trace (k a)) (Graph.outcome (k a))
    end.
Proof.
  unfold mbind, Graph.gen_bind. destruct (Graph.outcome m); [reflexivity|].
  by destruct (k a).
Qed.

(** One phase of the run, whatever follows it. *)
Lemma phase_run {A} llm name order sp (msg : Py.result string) mc
    (k : string -> Graph.Gen A) :
  (_ ← Graph.yield (Graph.mkEvent name "" false order None);
   m ← Graph.lift msg;
   t ← Graph.async_for llm sp m name mc
         (fun chunk acc =>
            _ ← Graph.yield (Graph.mkEvent name chunk false order None);
            mret (acc +:+ chunk)) "";
   _ ← Graph.yield (Graph.mkEvent name "" true order None);
   k t)
  = match msg with
    | Py.Raise e => Graph.mkGen [Graph.Yield (start_event name order)] (Py.Raise e)
    | Py.Return m =>
        let s := LLMService.generate_agent_response llm sp m name mc in
        match LLMService.failure s with
        | Some err =>
            Graph.mkGen (open_phase name order sp m mc (LLMService.fragments s))
              (Py.Raise (Py.RuntimeError err))
        | None =>
            Graph.mkGen
              (closed_phase name order sp m mc (LLMService.fragments s)
               ++ Graph.trace (k (accumulate (LLMService.fragments s))))
              (Graph.outcome (k (accumulate (LLMService.fragments s))))
        end
    end.
Proof.
  destruct msg as [e|m]; [reflexivity|].
  rewrite bind_unfold. cbn [Graph.yield Graph.outcome Graph.trace].
  rewrite bind_unfold. cbn [Graph.lift Graph.outcome Graph.trace].
  unfold Graph.async_for. rewrite for_each_yield.
  rewrite bind_unfold.
  rewrite (bind_unfold (Graph.mkGen [_] _)). cbn [Graph.outcome Graph.trace].
  rewrite (bind_unfold (Graph.mkGen (map _ _) _)). cbn [Graph.outcome Graph.trace].
  destruct (LLMService.failure _); cbn [Graph.raise Graph.outcome Graph.trace].
  - unfold open_phase. simpl. by rewrite app_nil_r.
  - change (mret ?x) with (Graph.mkGen (A:=string) [] (Py.Return x)).
    cbn [Graph.outcome Graph.trace].
    rewrite bind_unfold. cbn [Graph.yield Graph.outcome Graph.trace].
    unfold closed_phase, open_phase, start_event, complete_event. simpl.
    rewrite !app_nil_r. by rewrite <- !app_assoc.
Qed.

Lemma critic_message_ok r j cm :
  CriticAgent.format_user_message r j = Py.Return cm ->
  Py.blank r = false /\ Py.blank j = false.
Proof.
  unfold CriticAgent.format_user_message.
  by destruct (Py.blank r), (Py.blank j).
Qed.

Lemma advocate_message_ok r j :
  Py.blank r = false -> Py.blank j = false ->
  exists am, AdvocateAgent.format_user_message r j = Py.Return am.
Proof.
  intros Hr Hj. unfold AdvocateAgent.format_user_message.
  rewrite Hr, Hj. eauto.
Qed.

(** Every run of [execute_debate] is one of the six kinds of run. *)
Lemma execute_debate_Run llm r j mc0 :
  Run llm r j (default [] mc0)
    (Graph.trace (Graph.execute_debate llm r j mc0))
    (Graph.outcome (Graph.execute_debate llm r j mc0)).
Proof.
  unfold Graph.execute_debate. cbv zeta.
  set (mc := default [] mc0).
  rewrite phase_run.
  destruct (CriticAgent.format_user_message r j) as [e|cm] eqn:Hcm;
    [by apply run_invalid|].
  destruct (critic_message_ok _ _ _ Hcm) as [Hr Hj].
  destruct (advocate_message_ok r j Hr Hj) as [am Ham].
  cbv zeta.
  destruct (LLMService.failure _) as [err|] eqn:Hfc;
    [by eapply run_critic_fails|].
  cbn [Graph.trace Graph.outcome].
  rewrite phase_run, Ham. cbv zeta.
  destruct (LLMService.failure (LLMService.generate_agent_response llm
              (AdvocateAgent.get_system_prompt _) _ _ _)) as [err|] eqn:Hfa;
    [by eapply run_advocate_fails|].
  cbn [Graph.trace Graph.outcome].
  rewrite phase_run.
  destruct (RealistAgent.format_user_message _ _ _ _) as [e|rm] eqn:Hrm;
    [by eapply run_realist_invalid|].
  cbv zeta.
  destruct (LLMService.failure (LLMService.generate_agent_response llm
              (RealistAgent.get_system_prompt _) _ _ _)) as [err|] eqn:Hfr;
    [by eapply run_realist_fails|].
  cbn [Graph.trace Graph.outcome Graph.yield].
  by eapply run_finished.
Qed.

(* ================================================================== *)
(** * Event sequences *)
(* ================================================================== *)

Lemma events_app tr1 tr2 :
  Graph.events (tr1 ++ tr2) = Graph.events tr1 ++ Graph.events tr2.
Proof. apply omap_app. Qed.

Lemma events_open_phase name order sp um mc frags :
  Graph.events (open_phase name order sp um mc frags)
  = open_events name order frags.
Proof.
  unfold open_phase, open_events, Graph.events. simpl. f_equal.
  induction frags as [|c frags IH]; simpl; [done | by rewrite IH].
Qed.

Lemma events_closed_phase name order sp um mc frags :
  Graph.events (closed_phase name order sp um mc frags)
  = closed_events name order frags.
Proof.
  unfold closed_phase, closed_events.
  by rewrite events_app, events_open_phase.
Qed.

(** ** The chunks of an agent *)

Lemma chunks_of_app name evs1 evs2 :
  chunks_of name (evs1 ++ evs2) = chunks_of name evs1 ++ chunks_of name evs2.
Proof. unfold chunks_of. by rewrite List.filter_app, map_app. Qed.

Lemma chunks_of_open name name' order frags :
  chunks_of name (open_events name' order frags)
  = if String.eqb name' name then "" :: frags else [].
Proof.
  unfold chunks_of, open_events, is_chunk_of. simpl.
  destruct (String.eqb name' name) eqn:E; simpl.
  - f_equal. induction frags as [|c frags IH]; simpl; [done|].
    rewrite E. simpl. by rewrite IH.
  - induction frags as [|c frags IH]; simpl; [done|]. by rewrite E.
Qed.

Lemma chunks_of_closed name name' order frags :
  chunks_of name (closed_events name' order frags)
  = if String.eqb name' name then "" :: frags else [].
Proof.
  unfold closed_events. rewrite chunks_of_app, chunks_of_open.
  unfold chunks_of, is_chunk_of. simpl.
  rewrite andb_false_r. simpl. by rewrite app_nil_r.
Qed.

(** ** Completion events *)

Lemma completions_app name evs1 evs2 :
  completions name (evs1 ++ evs2)
  = (completions name evs1 + completions name evs2)%nat.
Proof. unfold completions. by rewrite List.filter_app, length_app. Qed.

Lemma completions_open name name' order frags :
  completions name (open_events name' order frags) = 0%nat.
Proof.
  unfold completions, open_events. simpl. rewrite andb_false_r.
  induction frags as [|c frags IH]; simpl; [done|].
  by rewrite andb_false_r.
Qed.

Lemma completions_closed name name' order frags :
  completions name (closed_events name' order frags)
  = if String.eqb name' name then 1%nat else 0%nat.
Proof.
  unfold closed_events. rewrite completions_app, completions_open.
  unfold completions. simpl. rewrite andb_true_r.
  by destruct (String.eqb name' name).
Qed.

(** ** Blocks: events of one agent and one order *)

Lemma Forall_open_events (P : Graph.Event -> Prop) name order frags :
  P (start_event name order) ->
  (forall c, P (chunk_event name order c)) ->
  Forall P (open_events name order frags).
Proof.
  intros Hs Hc. unfold open_events. constructor; [done|].
  apply Forall_fmap, Forall_forall. intros c _. apply Hc.
Qed.

Lemma Forall_closed_events (P : Graph.Event -> Prop) name order frags :
  P (start_event name order) ->
  (forall c, P (chunk_event name order c)) ->
  P (complete_event name order) ->
  Forall P (closed_events name order frags).
Proof.
  intros Hs Hc He. unfold closed_events.
  apply Forall_app. split; [by apply Forall_open_events|].
  by constructor.
Qed.

Lemma StronglySorted_same (l : list Z) (o : Z) :
  Forall (fun x => x = o) l -> StronglySorted Z.le l.
Proof.
  induction 1 as [|x l -> Hl IH]; constructor; [done|].
  eapply Forall_impl; [eassumption|]. intros y ->. reflexivity.
Qed.

Lemma orders_closed name order frags :
  Forall (fun x => x = order) (map Graph.order (closed_events name order frags)).
Proof.
  apply Forall_fmap. by apply Forall_closed_events.
Qed.

Lemma squash_cons (x : string * Z) (l : list (string * Z)) :
  squash (x :: l)
  = match squash l with
    | [] => [x]
    | y :: s => if decide (x = y) then y :: s else x :: y :: s
    end.
Proof. reflexivity. Qed.

Lemma squash_block (k : string * Z) (l rest : list (string * Z)) :
  Forall (fun x => x = k) l -> l <> [] ->
  squash (l ++ rest)
  = match squash rest with
    | [] => [k]
    | y :: s => if decide (k = y) then y :: s else k :: y :: s
    end.
Proof.
  induction 1 as [|x l -> Hl IH]; [done|]. intros _.
  destruct l as [|x' l]; [reflexivity|].
  rewrite <- app_comm_cons, squash_cons, IH by done.
  destruct (squash rest) as [|y s]; [by rewrite decide_True|].
  destruct (decide (k = y)) as [->|Hne]; by rewrite decide_True.
Qed.

Lemma phases_closed name order frags rest :
  phases (closed_events name order frags ++ rest)
  = match phases rest with
    | [] => [(name, order)]
    | y :: s => if decide ((name, order) = y) then y :: s
                else (name, order) :: y :: s
    end.
Proof.
  unfold phases. rewrite map_app. apply squash_block.
  - apply Forall_fmap. by apply Forall_closed_events.
  - unfold closed_events, open_events. done.
Qed.

(** ** The event sequence of a finished run *)

Lemma order_in_closed name order frags x :
  x ∈ map Graph.order (closed_events name order frags) -> x = order.
Proof.
  intros Hx. pose proof (orders_closed name order frags) as H.
  rewrite Forall_forall in H. by apply H.
Qed.

(** Closes the side conditions on the events of a phase. *)
Ltac phase_events :=
  repeat first
    [ apply Forall_app; split
    | apply Forall_closed_events
    | apply Forall_open_events
    | apply Forall_cons; split
    | apply Forall_nil ];
  try exact I;
  try (intros; simpl; split; [lia | done]).

Lemma finished_ordered fc fa fr res :
  ordered_debate
    (closed_events "Critic" 1 fc ++ closed_events "Advocate" 2 fa
     ++ closed_events "Realist" 3 fr ++ [workflow_event res]).
Proof.
  split; [|split].
  - rewrite !map_app.
    repeat (apply StronglySorted_app_2;
            [ | eapply StronglySorted_same, orders_closed | ]).
    + intros x1 x2 H1 H2. apply order_in_closed in H1 as ->.
      rewrite !elem_of_app in H2.
      destruct H2 as [H2|[H2|H2]];
        [apply order_in_closed in H2 as ->; lia ..|].
      apply list_elem_of_singleton in H2 as ->. simpl. lia.
    + intros x1 x2 H1 H2. apply order_in_closed in H1 as ->.
      rewrite !elem_of_app in H2.
      destruct H2 as [H2|H2];
        [apply order_in_closed in H2 as ->; lia|].
      apply list_elem_of_singleton in H2 as ->. simpl. lia.
    + intros x1 x2 H1 H2. apply order_in_closed in H1 as ->.
      apply list_elem_of_singleton in H2 as ->. simpl. lia.
    + repeat constructor.
  - by rewrite !phases_closed.
  - unfold agents. repeat apply Forall_cons_2; try apply Forall_nil_2.
    all: cbn [fst snd]; (split;
      [ by rewrite !completions_app, !completions_closed | ]).
    + exists (open_events "Critic" 1 fc),
        (closed_events "Advocate" 2 fa ++ closed_events "Realist" 3 fr
         ++ [workflow_event res]).
      split; [unfold closed_events; by rewrite <- app_assoc|].
      split; phase_events.
    + exists (closed_events "Critic" 1 fc ++ open_events "Advocate" 2 fa),
        (closed_events "Realist" 3 fr ++ [workflow_event res]).
      split; [unfold closed_events; by rewrite <- !app_assoc|].
      split; phase_events.
    + exists (closed_events "Critic" 1 fc ++ closed_events "Advocate" 2 fa
              ++ open_events "Realist" 3 fr),
        [workflow_event res].
      split; [unfold closed_events; by rewrite <- !app_assoc|].
      split; phase_events.
Qed.

(** ** Reading a run *)

Lemma critic_message_exists r j :
  Py.blank r = false -> Py.blank j = false ->
  exists cm, CriticAgent.format_user_message r j = Py.Return cm.
Proof.
  intros Hr Hj. unfold CriticAgent.format_user_message.
  rewrite Hr, Hj. eauto.
Qed.

Lemma realist_message_exists r j c a :
  Py.blank r = false -> Py.blank j = false ->
  Py.blank c = false -> Py.blank a = false ->
  exists rm, RealistAgent.format_user_message r j c a = Py.Return rm.
Proof.
  intros Hr Hj Hc Ha. unfold RealistAgent.format_user_message.
  rewrite Hr, Hj, Hc, Ha. eauto.
Qed.

Lemma call_in_open_phase name order sp um mc frags :
  Graph.LLMCall sp um name mc ∈ open_phase name order sp um mc frags.
Proof. unfold open_phase. apply elem_of_cons. right. apply elem_of_cons. by left. Qed.

Lemma call_in_closed_phase name order sp um mc frags :
  Graph.LLMCall sp um name mc ∈ closed_phase name order sp um mc frags.
Proof. unfold closed_phase. apply elem_of_app. left. apply call_in_open_phase. Qed.

Lemma accumulate_start (frags : list string) :
  accumulate ("" :: frags) = accumulate frags.
Proof. reflexivity. Qed.

(** Rewrites the events, the chunks and the texts of a trace that is
    given phase by phase. *)
Ltac read_events :=
  rewrite ?events_app, ?events_closed_phase, ?events_open_phase;
  unfold streamed_text;
  rewrite ?chunks_of_app, ?chunks_of_closed, ?chunks_of_open;
  cbn [String.eqb Ascii.eqb Bool.eqb Graph.events omap chunks_of List.filter
       is_chunk_of Graph.agent_name Graph.is_complete start_event
       complete_event workflow_event andb negb map app];
  rewrite ?app_nil_r, ?accumulate_start.

(** Finds a completion call in a trace that is given phase by phase. *)
Ltac find_call :=
  repeat first
    [ apply call_in_open_phase
    | apply call_in_closed_phase
    | apply elem_of_app; left; solve [find_call]
    | apply elem_of_app; right ].

(** ** The actions that concern an agent *)

Lemma agent_actions_app name tr1 tr2 :
  agent_actions name (tr1 ++ tr2)
  = agent_actions name tr1 ++ agent_actions name tr2.
Proof. apply List.filter_app. Qed.

Lemma agent_actions_open name name' order sp um mc frags :
  agent_actions name (open_phase name' order sp um mc frags)
  = if String.eqb name' name then open_phase name' order sp um mc frags else [].
Proof.
  unfold agent_actions, open_phase. simpl.
  destruct (String.eqb name' name) eqn:E.
  - do 2 f_equal. induction frags as [|c frags IH]; simpl; [done|].
    by rewrite E, IH.
  - induction frags as [|c frags IH]; simpl; [done|]. by rewrite E.
Qed.

Lemma agent_actions_closed name name' order sp um mc frags :
  agent_actions name (closed_phase name' order sp um mc frags)
  = if String.eqb name' name then closed_phase name' order sp um mc frags else [].
Proof.
  unfold closed_phase. rewrite agent_actions_app, agent_actions_open.
  unfold agent_actions. simpl.
  destruct (String.eqb name' name); [done | by rewrite app_nil_r].
Qed.

Lemma call_in_open_phase_inv name order sp um mc frags sp' um' name' mc' :
  Graph.LLMCall sp' um' name' mc' ∈ open_phase name order sp um mc frags ->
  sp' = sp /\ um' = um /\ name' = name /\ mc' = mc.
Proof.
  unfold open_phase. rewrite !elem_of_cons, list_elem_of_fmap.
  intros [H|[H|(c & H & _)]]; [done | by injection H | done].
Qed.

Lemma call_in_closed_phase_inv name order sp um mc frags sp' um' name' mc' :
  Graph.LLMCall sp' um' name' mc' ∈ closed_phase name order sp um mc frags ->
  sp' = sp /\ um' = um /\ name' = name /\ mc' = mc.
Proof.
  unfold closed_phase. rewrite elem_of_app, list_elem_of_singleton.
  intros [H|H]; [by eapply call_in_open_phase_inv | done].
Qed.

(** Splits the membership of a completion call in a trace that is given
    phase by phase into the phases. *)
Ltac split_call H :=
  repeat match type of H with
  | _ ∈ _ ++ _ => apply elem_of_app in H as [H|H]
  | _ ∈ closed_phase _ _ _ _ _ _ =>
      apply call_in_closed_phase_inv in H as (-> & -> & ? & ->)
  | _ ∈ open_phase _ _ _ _ _ _ =>
      apply call_in_open_phase_inv in H as (-> & -> & ? & ->)
  | _ ∈ [_] => apply list_elem_of_singleton in H
  end.

(** Rewrites the actions of an agent in a trace that is given phase by
    phase. *)
Ltac read_actions :=
  rewrite ?agent_actions_app, ?agent_actions_closed, ?agent_actions_open;
  cbn [String.eqb Ascii.eqb Bool.eqb agent_actions List.filter concerns
       Graph.agent_name start_event complete_event workflow_event app].

Lemma yield_in_open_phase_inv name order sp um mc frags e :
  Graph.Yield e ∈ open_phase name order sp um mc frags ->
  Graph.agent_name e = name.
Proof.
  unfold open_phase. rewrite !elem_of_cons, list_elem_of_fmap.
  intros [H|[H|(c & H & _)]]; [by injection H as -> | done | by injection H as ->].
Qed.

Lemma yield_in_closed_phase_inv name order sp um mc frags e :
  Graph.Yield e ∈ closed_phase name order sp um mc frags ->
  Graph.agent_name e = name.
Proof.
  unfold closed_phase. rewrite elem_of_app, list_elem_of_singleton.
  intros [H|H]; [by eapply yield_in_open_phase_inv | by injection H as ->].
Qed.

(** Splits the membership of an event in a trace that is given phase by
    phase into the phases. *)
Ltac split_yield H :=
  repeat match type of H with
  | _ ∈ _ ++ _ => apply elem_of_app in H as [H|H]
  | _ ∈ closed_phase _ _ _ _ _ _ => apply yield_in_closed_phase_inv in H
  | _ ∈ open_phase _ _ _ _ _ _ => apply yield_in_open_phase_inv in H
  | _ ∈ [_] => apply list_elem_of_singleton in H
  end.

Lemma realist_message_ok r j c a rm :
  RealistAgent.format_user_message r j c a = Py.Return rm ->
  Py.blank c = false /\ Py.blank a = false.
Proof.
  unfold RealistAgent.format_user_message.
  by destruct (Py.blank r), (Py.blank j), (Py.blank c), (Py.blank a).
Qed.

(** Names the parts of the six kinds of run. *)
Ltac run_cases llm r j mc0 :=
  let HR := fresh "HR" in
  pose proof (execute_debate_Run llm r j mc0) as HR;
  destruct HR as
    [ e Hcm
    | cm sc err Hcm Hsc Hfc
    | cm sc am sa err Hcm Hsc Hfc Ham Hsa Hfa
    | cm sc am sa e Hcm Hsc Hfc Ham Hsa Hfa Hrm
    | cm sc am sa rm sr err Hcm Hsc Hfc Ham Hsa Hfa Hrm Hsr Hfr
    | cm sc am sa rm sr Hcm Hsc Hfc Ham Hsa Hfa Hrm Hsr Hfr ].

(* ================================================================== *)
(** * The prompt templates *)
(* ================================================================== *)

Lemma memory_header_text :
  memory_header = "

Based on previous feedback patterns:
".
Proof. reflexivity. Qed.

(** C9: each of the three templates returns its fixed base prompt, and,
    only when the memory context is not empty, appends to it the text
    "Based on previous feedback patterns:" (set off by a blank line)
    followed by the entries of the memory context joined by newlines;
    with an empty or absent memory context the result is exactly the
    base prompt. *)
Theorem system_prompt_memory_section (memory_context : list string) :
  let appended := "

Based on previous feedback patterns:
" +:+ Py.join Py.nl memory_context in
  ((memory_context <> [] ->
      CriticAgent.get_system_prompt (Some memory_context)
      = CriticAgent.base_prompt +:+ appended)
   /\ CriticAgent.get_system_prompt (Some []) = CriticAgent.base_prompt
   /\ CriticAgent.get_system_prompt None = CriticAgent.base_prompt)
  /\ ((memory_context <> [] ->
         AdvocateAgent.get_system_prompt (Some memory_context)
         = AdvocateAgent.base_prompt +:+ appended)
      /\ AdvocateAgent.get_system_prompt (Some []) = AdvocateAgent.base_prompt
      /\ AdvocateAgent.get_system_prompt None = AdvocateAgent.base_prompt)
  /\ ((memory_context <> [] ->
         RealistAgent.get_system_prompt (Some memory_context)
         = RealistAgent.base_prompt +:+ appended)
      /\ RealistAgent.get_system_prompt (Some []) = RealistAgent.base_prompt
      /\ RealistAgent.get_system_prompt None = RealistAgent.base_prompt).
Proof.
  intros appended. subst appended. rewrite <- memory_header_text.
  unfold CriticAgent.get_system_prompt, AdvocateAgent.get_system_prompt,
    RealistAgent.get_system_prompt.
  destruct memory_context as [|entry entries]; simpl; intuition congruence.
Qed.

(** The appended section for two remembered patterns. *)
Example system_prompt_two_patterns :
  CriticAgent.get_system_prompt (Some ["too vague"; "be concrete"])
  = CriticAgent.base_prompt +:+ "

Based on previous feedback patterns:
too vague
be concrete".
Proof. reflexivity. Qed.

(* ================================================================== *)
(** * The debate *)
(* ================================================================== *)

(** C1 (as amended): for non-blank [resume_text] and [job_description],
    when every completion call of the run delivers its fragments without
    failing and the texts accumulated for the Critic and for the
    Advocate are not blank, the run ends normally and its events come in
    the order Critic(1), Advocate(2), Realist(3), Workflow(4): the orders
    never decrease, the phases are exactly these four, and each agent
    has exactly one completion event, placed after all its other events
    and before every event of a later order. *)
Theorem debate_events_ordered llm r j mc0 :
  Py.blank r = false ->
  Py.blank j = false ->
  (forall sp um n mc,
     Graph.LLMCall sp um n mc ∈ Graph.trace (Graph.execute_debate llm r j mc0) ->
     LLMService.failure (LLMService.generate_agent_response llm sp um n mc) = None) ->
  Py.blank (streamed_text "Critic"
              (Graph.events (Graph.trace (Graph.execute_debate llm r j mc0)))) = false ->
  Py.blank (streamed_text "Advocate"
              (Graph.events (Graph.trace (Graph.execute_debate llm r j mc0)))) = false ->
  Graph.outcome (Graph.execute_debate llm r j mc0) = Py.Return tt
  /\ ordered_debate (Graph.events (Graph.trace (Graph.execute_debate llm r j mc0))).
Proof.
  intros Hr Hj. run_cases llm r j mc0; intros Hok Hc Ha.
  - destruct (critic_message_exists r j Hr Hj) as [cm Hcm']. congruence.
  - rewrite <- Hsc, Hok in Hfc; [done | find_call].
  - rewrite <- Hsa, Hok in Hfa; [done | find_call].
  - revert Hc Ha. read_events. intros Hc Ha.
    destruct (realist_message_exists r j _ _ Hr Hj Hc Ha) as [rm Hrm'].
    congruence.
  - rewrite <- Hsr, Hok in Hfr; [done | find_call].
  - split; [done|]. read_events. apply finished_ordered.
Qed.

Lemma debate_events_ordered_witness :
  Graph.outcome
    (Graph.execute_debate sample_llm
       "John Doe, Software Engineer, 5 years Python"
       "Senior Python Developer, 3+ years" (Some [])) = Py.Return tt
  /\ ordered_debate
       (Graph.events (Graph.trace
          (Graph.execute_debate sample_llm
             "John Doe, Software Engineer, 5 years Python"
             "Senior Python Developer, 3+ years" (Some [])))).
Proof.
  apply (debate_events_ordered sample_llm
           "John Doe, Software Engineer, 5 years Python"
           "Senior Python Developer, 3+ years" (Some [])).
  - reflexivity.
  - reflexivity.
  - intros sp um n mc _. reflexivity.
  - reflexivity.
  - reflexivity.
Defined.

(** C1 (as stated) fails when the Critic's stream ends without a
    fragment: the inputs are not blank and no stream fails, but the run
    stops at the Realist's validation, so that there is neither a
    Realist completion event nor a Workflow event. *)
Lemma debate_events_ordered_counterexample :
  Py.blank "John Doe, Software Engineer, 5 years Python" = false
  /\ Py.blank "Senior Python Developer, 3+ years" = false
  /\ (forall sp um n mc,
        LLMService.failure
          (LLMService.generate_agent_response silent_llm sp um n mc) = None)
  /\ Graph.outcome
       (Graph.execute_debate silent_llm
          "John Doe, Software Engineer, 5 years Python"
          "Senior Python Developer, 3+ years" (Some []))
     = Py.Raise (Py.ValueError "Critic response cannot be empty")
  /\ phases (Graph.events (Graph.trace
       (Graph.execute_debate silent_llm
          "John Doe, Software Engineer, 5 years Python"
          "Senior Python Developer, 3+ years" (Some []))))
     = [("Critic", 1%Z); ("Advocate", 2%Z); ("Realist", 3%Z)]
  /\ completions "Realist" (Graph.events (Graph.trace
       (Graph.execute_debate silent_llm
          "John Doe, Software Engineer, 5 years Python"
          "Senior Python Developer, 3+ years" (Some [])))) = 0%nat
  /\ ~ ordered_debate (Graph.events (Graph.trace
       (Graph.execute_debate silent_llm
          "John Doe, Software Engineer, 5 years Python"
          "Senior Python Developer, 3+ years" (Some [])))).
Proof.
  do 6 (split; [reflexivity || (intros; reflexivity)|]).
  intros (_ & Hphases & _). vm_compute in Hphases. discriminate.
Qed.

(** C6: blank inputs are refused before any completion call.  The
    Realist's template raises a [ValueError] with the message of the
    first blank field when the Critic's or the Advocate's text is blank;
    every template raises the [ValueError] of the field when
    [resume_text] or [job_description] is blank; and in a run of
    [execute_debate], blank inputs end the run with that error before any
    completion call, and a blank text of the Critic or of the Advocate
    ends it, once the Realist's turn has begun, with the error of that
    text and without a completion call for the Realist. *)
Theorem blank_inputs_fail_before_completion_call llm r j c a mc0 :
  let run := Graph.execute_debate llm r j mc0 in
  let evs := Graph.events (Graph.trace run) in
  (Py.blank c = true \/ Py.blank a = true ->
     RealistAgent.format_user_message r j c a
     = Py.Raise (Py.ValueError
         (if Py.blank r then "Resume text cannot be empty"
          else if Py.blank j then "Job description cannot be empty"
          else if Py.blank c then "Critic response cannot be empty"
          else "Advocate response cannot be empty")))
  /\ (Py.blank r = true \/ Py.blank j = true ->
        let e := Py.ValueError
                   (if Py.blank r then "Resume text cannot be empty"
                    else "Job description cannot be empty") in
        CriticAgent.format_user_message r j = Py.Raise e
        /\ AdvocateAgent.format_user_message r j = Py.Raise e
        /\ RealistAgent.format_user_message r j c a = Py.Raise e
        /\ Graph.outcome run = Py.Raise e
        /\ forall sp um n mc, Graph.LLMCall sp um n mc ∉ Graph.trace run)
  /\ (Py.blank (streamed_text "Critic" evs) = true
      \/ Py.blank (streamed_text "Advocate" evs) = true ->
        (forall sp um mc, Graph.LLMCall sp um "Realist" mc ∉ Graph.trace run)
        /\ (Graph.Yield (start_event "Realist" 3) ∈ Graph.trace run ->
              Graph.outcome run
              = Py.Raise (Py.ValueError
                  (if Py.blank (streamed_text "Critic" evs)
                   then "Critic response cannot be empty"
                   else "Advocate response cannot be empty")))).
Proof.
  intros run evs. subst evs run. split; [|split].
  - unfold RealistAgent.format_user_message.
    destruct (Py.blank r), (Py.blank j), (Py.blank c), (Py.blank a);
      intuition congruence.
  - intros Hblank ve.
    assert (CriticAgent.format_user_message r j = Py.Raise ve) as Hcritic.
    { subst ve. unfold CriticAgent.format_user_message.
      destruct (Py.blank r), (Py.blank j); intuition congruence. }
    split; [done|]. split; [|split].
    + subst ve. unfold AdvocateAgent.format_user_message.
      destruct (Py.blank r), (Py.blank j); intuition congruence.
    + subst ve. unfold RealistAgent.format_user_message.
      destruct (Py.blank r), (Py.blank j); intuition congruence.
    + run_cases llm r j mc0; try congruence.
      split; [congruence|]. intros sp um n mc Hin.
      apply list_elem_of_singleton in Hin. done.
  - run_cases llm r j mc0; read_events.
    + intros _. split; [intros sp um mc Hin | intros Hin];
        apply list_elem_of_singleton in Hin; done.
    + intros _. split; [intros sp um mc Hin | intros Hin].
      * by split_call Hin.
      * by split_yield Hin.
    + intros _. split; [intros sp um mc Hin | intros Hin].
      * by split_call Hin.
      * by split_yield Hin.
    + intros Hblank. split.
      * intros sp um mc Hin. by split_call Hin.
      * intros _. destruct (critic_message_ok _ _ _ Hcm) as [Hr Hj].
        revert Hrm. unfold RealistAgent.format_user_message.
        rewrite Hr, Hj.
        destruct (Py.blank (accumulate (LLMService.fragments sc))),
          (Py.blank (accumulate (LLMService.fragments sa)));
          intuition congruence.
    + intros Hblank. apply realist_message_ok in Hrm. intuition congruence.
    + intros Hblank. apply realist_message_ok in Hrm. intuition congruence.
Qed.

(** The Realist is not called when the Critic has said nothing. *)
Example realist_not_called_after_silent_critic :
  Graph.execute_debate silent_llm "resume" "job" None
  = Graph.mkGen
      (closed_phase "Critic" 1 CriticAgent.base_prompt
         (Py.lines [""; "JOB DESCRIPTION:"; "job"; ""; "RESUME TO CRITIQUE:";
                    "resume"; "";
                    "Provide your critical analysis focusing on what would prevent this resume from succeeding for this specific role.";
                    ""]) [] []
       ++ closed_phase "Advocate" 2 AdvocateAgent.base_prompt
            (Py.lines [""; "JOB DESCRIPTION:"; "job"; "";
                       "RESUME TO ADVOCATE FOR:"; "resume"; "";
                       "Identify and highlight all the strengths, achievements, and positive aspects that make this candidate attractive for this role.";
                       ""]) [] []
       ++ [Graph.Yield (start_event "Realist" 3)])
      (Py.Raise (Py.ValueError "Critic response cannot be empty")).
Proof. reflexivity. Qed.

(** C10: in every run and for each of the three agents, the first
    action that concerns the agent, if the run reaches the agent at all,
    is its event with an empty chunk and [is_complete = false], so that
    this event precedes the completion call made for the agent; the
    Critic is always reached; an agent that is reached has at least one
    such event, whatever its stream delivers; and the chunks of the
    agent are the empty chunk followed by the fragments of its stream,
    which add up to the same text as the fragments alone. *)
Theorem agent_stream_opens_with_empty_chunk llm r j mc0 :
  let tr := Graph.trace (Graph.execute_debate llm r j mc0) in
  let evs := Graph.events tr in
  agent_actions "Critic" tr <> []
  /\ Forall (fun ao : string * Z =>
       (agent_actions ao.1 tr = []
        \/ exists rest,
             agent_actions ao.1 tr = Graph.Yield (start_event ao.1 ao.2) :: rest)
       /\ (agent_actions ao.1 tr <> [] -> (1 <= length (chunks_of ao.1 evs))%nat)
       /\ (forall sp um mc, Graph.LLMCall sp um ao.1 mc ∈ tr ->
             let frags := LLMService.fragments
                            (LLMService.generate_agent_response llm sp um ao.1 mc) in
             chunks_of ao.1 evs = "" :: frags
             /\ streamed_text ao.1 evs = accumulate frags))
     agents.
Proof.
  intros tr evs. subst evs tr. run_cases llm r j mc0.
  all: split; [read_actions; done|].
  all: unfold agents; repeat apply Forall_cons_2; try apply Forall_nil_2.
  all: cbn [fst snd]; (split; [|split]).
  all: try (read_actions; unfold closed_phase, open_phase; simpl; eauto; fail).
  all: try (intros _; read_events; simpl; lia).
  all: try (intros sp um mc Hin; split_call Hin; try done; subst;
            read_events; done).
  all: intros Hne; exfalso; apply Hne; read_actions; reflexivity.
Qed.

(** With a stream that delivers nothing, the Critic still has its
    opening event, and no text. *)
Example silent_critic_has_one_chunk :
  let evs := Graph.events (Graph.trace
               (Graph.execute_debate silent_llm "resume" "job" None)) in
  chunks_of "Critic" evs = [""] /\ streamed_text "Critic" evs = "".
Proof. split; reflexivity. Qed.

(* ================================================================== *)
(** * The repository *)
(* ================================================================== *)

(** ** Queries *)

Lemma select_where_none {A} (p : A -> bool) (rows : list A) (n : nat) :
  (forall r, r ∈ rows -> p r = false) -> Db.select_where p rows n = [].
Proof.
  revert n. induction rows as [|r rows IH]; intros n Hnone; simpl; [done|].
  rewrite (Hnone r) by (apply elem_of_cons; auto).
  apply IH. intros r' Hr'. apply Hnone, elem_of_cons. auto.
Qed.

Lemma select_where_unique {A} (p : A -> bool) (rows : list A) (n i : nat) (l : A) :
  rows !! i = Some l -> p l = true ->
  (forall j l', rows !! j = Some l' -> p l' = true -> j = i) ->
  Db.select_where p rows n = [((n + i)%nat, l)].
Proof.
  revert n i. induction rows as [|r rows IH]; intros n i Hi Hp Huniq; [done|].
  simpl. destruct i as [|i].
  - injection Hi as ->. rewrite Hp, Nat.add_0_r. f_equal.
    apply select_where_none. intros r Hr.
    apply list_elem_of_lookup in Hr as [j Hj].
    destruct (p r) eqn:Hpr; [|done].
    by specialize (Huniq (S j) r Hj Hpr).
  - destruct (p r) eqn:Hpr.
    + by specialize (Huniq 0%nat r eq_refl Hpr).
    + rewrite (IH (S n) i Hi Hp).
      * do 2 f_equal. lia.
      * intros j l' Hj Hl'. specialize (Huniq (S j) l' Hj Hl'). lia.
Qed.

(** ** Comparisons of confidences *)

Lemma py_min_spec (a b : Q) :
  (Py.min a b <= a)%Q /\ (Py.min a b <= b)%Q
  /\ (Py.min a b = a \/ Py.min a b = b).
Proof.
  unfold Py.min. destruct (b ?= a)%Q eqn:E.
  - apply Qeq_alt in E. split; [apply Qle_refl|]. split; [|by left].
    rewrite E. apply Qle_refl.
  - apply Qlt_alt in E. split; [by apply Qlt_le_weak|].
    split; [apply Qle_refl | by right].
  - apply Qgt_alt in E. split; [apply Qle_refl|].
    split; [by apply Qlt_le_weak | by left].
Qed.

Lemma py_max_spec (a b : Q) :
  (a <= Py.max a b)%Q /\ (b <= Py.max a b)%Q
  /\ (Py.max a b = a \/ Py.max a b = b).
Proof.
  unfold Py.max. destruct (b ?= a)%Q eqn:E.
  - apply Qeq_alt in E. split; [apply Qle_refl|]. split; [|by left].
    rewrite E. apply Qle_refl.
  - apply Qlt_alt in E. split; [apply Qle_refl|].
    split; [by apply Qlt_le_weak | by left].
  - apply Qgt_alt in E. split; [by apply Qlt_le_weak|].
    split; [apply Qle_refl | by right].
Qed.

(** The new confidence of the update branch is the greater of the old
    one and of the capped one, as rationals. *)
Lemma updated_confidence_spec (old new : Q) :
  (Py.max old (Py.min new FeedbackRepository.confidence_cap)
   == Qmax old (Qmin new FeedbackRepository.confidence_cap))%Q.
Proof.
  assert (Py.min new FeedbackRepository.confidence_cap
          == Qmin new FeedbackRepository.confidence_cap)%Q as Hmin.
  { destruct (py_min_spec new FeedbackRepository.confidence_cap)
      as (H1 & H2 & H3).
    apply Qle_antisym.
    - apply Q.min_glb; assumption.
    - destruct H3 as [-> | ->]; [apply Q.le_min_l | apply Q.le_min_r]. }
  destruct (py_max_spec old (Py.min new FeedbackRepository.confidence_cap))
    as (H1 & H2 & H3).
  rewrite <- Hmin. apply Qle_antisym.
  - destruct H3 as [-> | ->]; [apply Q.le_max_l | apply Q.le_max_r].
  - apply Q.max_lub; assumption.
Qed.


(** ** Learning patterns *)

Lemma learning_matches_key pattern_type description agent_name l :
  FeedbackRepository.learning_matches pattern_type description agent_name l = true
  <-> learning_key l = (pattern_type, description, Py.lower agent_name).
Proof.
  unfold FeedbackRepository.learning_matches, learning_key.
  rewrite !andb_true_iff, !String.eqb_eq. split.
  - intros [[-> ->] ->]. done.
  - intros [= -> -> ->]. done.
Qed.

Lemma learning_matches_not_key pattern_type description agent_name l :
  learning_key l <> (pattern_type, description, Py.lower agent_name) ->
  FeedbackRepository.learning_matches pattern_type description agent_name l = false.
Proof.
  intros Hne. apply not_true_is_false. by rewrite learning_matches_key.
Qed.

Lemma upsert_existing st pattern_type description agent_name confidence_score now i l :
  aggregated_learnings st !! i = Some l ->
  learning_key l = (pattern_type, description, Py.lower agent_name) ->
  (forall j l', aggregated_learnings st !! j = Some l' ->
                learning_key l' = (pattern_type, description, Py.lower agent_name) ->
                j = i) ->
  run (FeedbackRepository.create_or_update_learning
         pattern_type description agent_name confidence_score now) st
  = (Py.Return (updated l confidence_score now),
     mkStore (feedback_sessions st) (agent_responses st)
       (<[i := updated l confidence_score now]> (aggregated_learnings st))
       (next_uuid st)).
Proof.
  intros Hi Hkey Huniq.
  unfold FeedbackRepository.create_or_update_learning. simpl.
  rewrite (select_where_unique _ _ 0 i l Hi).
  - reflexivity.
  - by apply learning_matches_key.
  - intros j l' Hj Hl'. apply (Huniq j l' Hj). by apply learning_matches_key.
Qed.

Lemma upsert_new st pattern_type description agent_name confidence_score now :
  (forall l, l ∈ aggregated_learnings st ->
             learning_key l <> (pattern_type, description, Py.lower agent_name)) ->
  let learning :=
    AggregatedLearning.mk (next_uuid st) pattern_type description 1
      confidence_score (Py.lower agent_name) now in
  run (FeedbackRepository.create_or_update_learning
         pattern_type description agent_name confidence_score now) st
  = (Py.Return learning,
     mkStore (feedback_sessions st) (agent_responses st)
       (aggregated_learnings st ++ [learning]) (next_uuid st + 1)).
Proof.
  intros Hnone learning.
  unfold FeedbackRepository.create_or_update_learning. simpl.
  rewrite select_where_none; [reflexivity|].
  intros l Hl. by apply learning_matches_not_key, Hnone.
Qed.

Lemma select_where_nil_inv {A} (p : A -> bool) (rows : list A) (n : nat) :
  Db.select_where p rows n = [] -> forall r, r ∈ rows -> p r = false.
Proof.
  revert n. induction rows as [|r rows IH]; intros n Hsel x Hx.
  - by apply elem_of_nil in Hx.
  - simpl in Hsel. destruct (p r) eqn:Hp; [done|].
    apply elem_of_cons in Hx as [->|Hx]; [done | by eapply IH].
Qed.

Lemma select_where_elem {A} (p : A -> bool) (rows : list A) (n i : nat) (x : A) :
  (i, x) ∈ Db.select_where p rows n ->
  (n <= i)%nat /\ rows !! (i - n)%nat = Some x.
Proof.
  revert n. induction rows as [|r rows IH]; intros n; simpl.
  - intros H. by apply elem_of_nil in H.
  - intros H.
    assert ((i, x) = (n, r) \/ (i, x) ∈ Db.select_where p rows (S n)) as [Heq|Hin].
    { destruct (p r); [by apply elem_of_cons in H | by right]. }
    + injection Heq as -> ->. split; [lia|]. by rewrite Nat.sub_diag.
    + apply IH in Hin as [Hle Hlook]. split; [lia|].
      replace (i - n)%nat with (S (i - S n)) by lia. done.
Qed.

Lemma select_where_sat {A} (p : A -> bool) (rows : list A) (n i : nat) (x : A) :
  (i, x) ∈ Db.select_where p rows n -> p x = true.
Proof.
  revert n. induction rows as [|r rows IH]; intros n; simpl.
  - intros H. by apply elem_of_nil in H.
  - destruct (p r) eqn:Hp; [|apply IH].
    intros [[= -> ->]|H]%elem_of_cons; [done | by eapply IH].
Qed.

(** The repository keeps the keys of the learning patterns distinct. *)
Lemma keys_unique_step op st :
  keys_unique (aggregated_learnings st) ->
  keys_unique (aggregated_learnings (apply_op st op)).
Proof.
  intros Huniq.
  destruct op as [resume_id now|session_id name text order now|session_id now
                 |response_id up ft|pt d a c now]; simpl.
  - by destruct resume_id.
  - unfold FeedbackRepository.add_agent_response.
    destruct session_id; simpl; [|done].
    destruct (Py.blank name); simpl; [done|].
    destruct (Py.blank text); simpl; [done|].
    by destruct (order <? 0)%Z.
  - unfold FeedbackRepository.complete_feedback_session,
      FeedbackRepository.get_feedback_session_by_id. simpl.
    by destruct (Db.select_where _ _ _) as [|[i0 s0] [|y rest]].
  - unfold FeedbackRepository.update_agent_feedback. simpl.
    by destruct (Db.select_where _ _ _) as [|[i0 r0] [|y rest]].
  - unfold FeedbackRepository.create_or_update_learning. simpl.
    destruct (Db.select_where _ _ _) as [|[i0 l0] [|y rest]] eqn:Hsel; simpl;
      [| |done].
    + pose proof (select_where_nil_inv _ _ _ Hsel) as Hnone.
      set (new := AggregatedLearning.mk _ _ _ _ _ _ _).
      assert (forall k x, aggregated_learnings st !! k = Some x ->
                          learning_key x <> learning_key new) as Hfresh.
      { intros k x Hk Hkey.
        assert (FeedbackRepository.learning_matches pt d a x = true) as Hm
          by by apply learning_matches_key.
        rewrite Hnone in Hm; [done | by eapply list_elem_of_lookup_2]. }
      intros i j l l' Hi Hj Hkey.
      apply lookup_app_Some in Hi as [Hi|[Hi Hi']];
        apply lookup_app_Some in Hj as [Hj|[Hj Hj']].
      * by eapply Huniq.
      * apply list_lookup_singleton_Some in Hj' as [_ <-].
        by apply Hfresh in Hi.
      * apply list_lookup_singleton_Some in Hi' as [_ <-].
        by apply Hfresh in Hj.
      * apply list_lookup_singleton_Some in Hi' as [Hi' _].
        apply list_lookup_singleton_Some in Hj' as [Hj' _]. lia.
    + assert ((i0, l0) ∈ Db.select_where
                (FeedbackRepository.learning_matches pt d a)
                (aggregated_learnings st) 0) as Hin
        by (rewrite Hsel; apply elem_of_cons; auto).
      apply select_where_elem in Hin as [_ Hi0]. rewrite Nat.sub_0_r in Hi0.
      set (new := AggregatedLearning.mk _ _ _ _ _ _ _).
      assert (learning_key new = learning_key l0) as Hsame by done.
      assert (forall k x, <[i0:=new]> (aggregated_learnings st) !! k = Some x ->
                exists y, aggregated_learnings st !! k = Some y
                          /\ learning_key y = learning_key x) as Hold.
      { intros k x Hk. destruct (decide (k = i0)) as [->|Hne].
        - rewrite list_lookup_insert_eq in Hk by (by eapply lookup_lt_Some).
          injection Hk as <-. eauto.
        - rewrite list_lookup_insert_ne in Hk by done. eauto. }
      intros i j l l' Hi Hj Hkey.
      apply Hold in Hi as (y & Hi & Hy). apply Hold in Hj as (y' & Hj & Hy').
      eapply Huniq; [exact Hi | exact Hj | congruence].
Qed.

Lemma keys_unique_reachable ops :
  keys_unique (aggregated_learnings (apply_ops empty_store ops)).
Proof.
  unfold apply_ops.
  assert (keys_unique (aggregated_learnings empty_store)) as Hinit
    by (intros i j l l' Hi; done).
  revert Hinit. generalize empty_store.
  induction ops as [|op ops IH]; intros st Hst; simpl; [done|].
  by apply IH, keys_unique_step.
Qed.

(** C3: [create_or_update_learning] looks the key up, the agent name in
    the lowercase form in which it is stored.  When the record with that
    key exists, the call adds 1 to its frequency, makes its confidence
    [max(existing, min(confidence, 0.95))], sets [last_updated] to the
    time of the call, and changes nothing else; when there is no record
    with that key, the call inserts one with frequency 1.  On a store
    that the repository has built, a record with the key is the only
    one, so that the first case applies to it. *)
Theorem upsert_learning st pattern_type description agent_name confidence_score now :
  let key := (pattern_type, description, Py.lower agent_name) in
  let call := FeedbackRepository.create_or_update_learning
                pattern_type description agent_name confidence_score now in
  let updates (st : Store) (i : nat) (l : AggregatedLearning.t) : Prop :=
    exists l',
      run call st
      = (Py.Return l',
         mkStore (feedback_sessions st) (agent_responses st)
           (<[i := l']> (aggregated_learnings st)) (next_uuid st))
      /\ AggregatedLearning.frequency l' = (AggregatedLearning.frequency l + 1)%Z
      /\ AggregatedLearning.confidence_score l'
         = Py.max (AggregatedLearning.confidence_score l)
                  (Py.min confidence_score (95 # 100))
      /\ (AggregatedLearning.confidence_score l'
          == Qmax (AggregatedLearning.confidence_score l)
                  (Qmin confidence_score (95 # 100)))%Q
      /\ AggregatedLearning.last_updated l' = now
      /\ AggregatedLearning.id l' = AggregatedLearning.id l
      /\ learning_key l' = key in
  (forall i l,
     aggregated_learnings st !! i = Some l ->
     learning_key l = key ->
     (forall j l', aggregated_learnings st !! j = Some l' ->
                   learning_key l' = key -> j = i) ->
     updates st i l)
  /\ (forall ops i l,
        aggregated_learnings (apply_ops empty_store ops) !! i = Some l ->
        learning_key l = key ->
        updates (apply_ops empty_store ops) i l)
  /\ ((forall l, l ∈ aggregated_learnings st -> learning_key l <> key) ->
      exists l',
        run call st
        = (Py.Return l',
           mkStore (feedback_sessions st) (agent_responses st)
             (aggregated_learnings st ++ [l']) (next_uuid st + 1))
        /\ AggregatedLearning.frequency l' = 1%Z
        /\ AggregatedLearning.last_updated l' = now
        /\ learning_key l' = key).
Proof.
  intros key call updates.
  assert (forall st i l,
            aggregated_learnings st !! i = Some l ->
            learning_key l = key ->
            (forall j l', aggregated_learnings st !! j = Some l' ->
                          learning_key l' = key -> j = i) ->
            updates st i l) as Hupdate.
  { intros st0 i l Hi Hkey Huniq. exists (updated l confidence_score now).
    split; [by apply upsert_existing|].
    repeat split; try done. apply updated_confidence_spec. }
  split; [apply Hupdate|]. split.
  - intros ops i l Hi Hkey. apply Hupdate; [done..|].
    intros j l' Hj Hkey'. symmetry.
    eapply (keys_unique_reachable ops); [exact Hi | exact Hj | congruence].
  - intros Hnone. eexists. split; [by apply upsert_new|]. done.
Qed.

(** A first call inserts, a second call with the same key updates. *)
Example upsert_twice :
  (run (_ ← FeedbackRepository.create_or_update_learning
              "negative_feedback" "too vague" "Critic" (3 # 10) 10;
        FeedbackRepository.create_or_update_learning
          "negative_feedback" "too vague" "critic" (99 # 100) 20)
       empty_store).2
  = mkStore [] []
      [AggregatedLearning.mk 1 "negative_feedback" "too vague" 2 (95 # 100)
         "critic" 20] 2.
Proof. reflexivity. Qed.

Lemma run_bind {A B} (m : DB A) (k : A -> DB B) st :
  run (m ≫= k) st
  = match run m st with
    | (Py.Raise e, st') => (Py.Raise e, st')
    | (Py.Return a, st') => run (k a) st'
    end.
Proof. reflexivity. Qed.





(** C4: the claim fails on the code at the inserting call.  The update
    branch caps the confidence it is given at 0.95, the insert branch
    stores it as it is: a first call with confidence 1 leaves a record
    whose confidence is 1, outside [0, 0.95], and later calls with the
    same key keep it there; the same later calls after a first call
    with confidence 0.5 leave 0.95. *)
Theorem insert_skips_confidence_cap :
  let learning := AggregatedLearning.mk 1 "positive_feedback" "clear and direct" in
  run (FeedbackRepository.create_or_update_learning
         "positive_feedback" "clear and direct" "critic" 1 10) empty_store
  = (Py.Return (learning 1%Z 1%Q "critic" 10%Z),
     mkStore [] [] [learning 1%Z 1%Q "critic" 10%Z] 2)
  /\ ~ in_range 1
  /\ run (upserts "positive_feedback" "clear and direct" "critic"
            [(1%Q, 10%Z); (1%Q, 20%Z); (1%Q, 30%Z)]) empty_store
     = (Py.Return [learning 1%Z 1%Q "critic" 10%Z;
                   learning 2%Z 1%Q "critic" 20%Z;
                   learning 3%Z 1%Q "critic" 30%Z],
        mkStore [] [] [learning 3%Z 1%Q "critic" 30%Z] 2)
  /\ run (upserts "positive_feedback" "clear and direct" "critic"
            [(1 # 2, 10%Z); (1%Q, 20%Z); (1%Q, 30%Z)]) empty_store
     = (Py.Return [learning 1%Z (1 # 2) "critic" 10%Z;
                   learning 2%Z (95 # 100) "critic" 20%Z;
                   learning 3%Z (95 # 100) "critic" 30%Z],
        mkStore [] [] [learning 3%Z (95 # 100) "critic" 30%Z] 2).
Proof.
  split; [reflexivity|]. split; [intros [_ Hhi]; by vm_compute in Hhi|].
  split; reflexivity.
Qed.

(** ** Recorded turns *)

Lemma add_agent_response_valid st session_id agent_name response_text order now :
  Py.blank agent_name = false ->
  Py.blank response_text = false ->
  (0 <= order)%Z ->
  let response := AgentResponse.mk (next_uuid st) session_id (Py.lower agent_name)
                    response_text order None None now in
  run (FeedbackRepository.add_agent_response (Some session_id) agent_name
         response_text order now) st
  = (Py.Return response,
     mkStore (feedback_sessions st) (agent_responses st ++ [response])
       (aggregated_learnings st) (next_uuid st + 1)).
Proof.
  intros Hname Htext Horder response.
  unfold FeedbackRepository.add_agent_response.
  rewrite Hname, Htext.
  destruct (order <? 0)%Z eqn:E; [apply Z.ltb_lt in E; lia|].
  reflexivity.
Qed.

(** C5 (as amended): [add_agent_response] does not look for a turn that
    is already recorded.  Every call that passes its validation inserts
    one new row, for the lowercase agent name, after the rows that are
    there, so that the number of turns recorded for the session and the
    agent grows by one with each such call. *)
Theorem add_agent_response_appends st session_id agent_name response_text order now :
  Py.blank agent_name = false ->
  Py.blank response_text = false ->
  (0 <= order)%Z ->
  exists response st',
    run (FeedbackRepository.add_agent_response (Some session_id) agent_name
           response_text order now) st = (Py.Return response, st')
    /\ agent_responses st' = agent_responses st ++ [response]
    /\ AgentResponse.session_id response = session_id
    /\ AgentResponse.agent_name response = Py.lower agent_name
    /\ AgentResponse.response_text response = response_text
    /\ AgentResponse.order response = order
    /\ turns_of session_id (Py.lower agent_name) st'
       = S (turns_of session_id (Py.lower agent_name) st).
Proof.
  intros Hname Htext Horder. eexists _, _.
  split; [by apply add_agent_response_valid|].
  repeat split. unfold turns_of. simpl.
  rewrite List.filter_app, length_app. simpl.
  rewrite Z.eqb_refl, String.eqb_refl. simpl. lia.
Qed.

Lemma add_agent_response_appends_witness :
  exists response st',
    run (FeedbackRepository.add_agent_response (Some 1%Z) "Critic"
           "Too vague" 1 20)
        (mkStore [FeedbackSession.mk 1 7 "in_progress" 10 None] [] [] 2)
    = (Py.Return response, st')
    /\ agent_responses st' = [] ++ [response]
    /\ AgentResponse.session_id response = 1%Z
    /\ AgentResponse.agent_name response = Py.lower "Critic"
    /\ AgentResponse.response_text response = "Too vague"
    /\ AgentResponse.order response = 1%Z
    /\ turns_of 1 (Py.lower "Critic") st'
       = S (turns_of 1 (Py.lower "Critic")
              (mkStore [FeedbackSession.mk 1 7 "in_progress" 10 None] [] [] 2)).
Proof.
  apply (add_agent_response_appends
           (mkStore [FeedbackSession.mk 1 7 "in_progress" 10 None] [] [] 2)
           1%Z "Critic" "Too vague" 1%Z 20%Z).
  - reflexivity.
  - reflexivity.
  - lia.
Defined.

(** C5 (as stated) fails: a second call for an agent that is already
    recorded in the session returns normally and leaves two rows for the
    session and the agent. *)
Lemma add_agent_response_counterexample :
  let st0 := mkStore [FeedbackSession.mk 1 7 "in_progress" 10 None] [] [] 2 in
  let st2 :=
    mkStore [FeedbackSession.mk 1 7 "in_progress" 10 None]
      [AgentResponse.mk 2 1 "critic" "Too vague" 1 None None 20;
       AgentResponse.mk 3 1 "critic" "Too vague" 1 None None 30] [] 4 in
  run (_ ← FeedbackRepository.add_agent_response (Some 1%Z) "Critic" "Too vague" 1 20;
       FeedbackRepository.add_agent_response (Some 1%Z) "Critic" "Too vague" 1 30)
      st0
  = (Py.Return (AgentResponse.mk 3 1 "critic" "Too vague" 1 None None 30), st2)
  /\ turns_of 1 "critic" st0 = 0%nat
  /\ turns_of 1 "critic" st2 = 2%nat
  /\ ~ at_most_one_turn st2.
Proof.
  intros st0 st2. do 3 (split; [reflexivity|]).
  intros H. specialize (H 1%Z "critic"). vm_compute in H. lia.
Qed.

(** ** Sessions *)

Lemma sessions_forward_step op st i s :
  feedback_sessions st !! i = Some s ->
  exists s', feedback_sessions (apply_op st op) !! i = Some s' /\ forward s s'.
Proof.
  intros Hi.
  assert (forward s s) as Hrefl by (split; auto).
  destruct op as [resume_id now|session_id name text order now|session_id now
                 |response_id up ft|pt d a c now]; simpl.
  - destruct resume_id as [resume_id|]; simpl; [|eauto].
    exists s. split; [|done]. by apply lookup_app_l_Some.
  - unfold FeedbackRepository.add_agent_response.
    destruct session_id; simpl; [|eauto].
    destruct (Py.blank name); simpl; [eauto|].
    destruct (Py.blank text); simpl; [eauto|].
    destruct (order <? 0)%Z; simpl; eauto.
  - unfold FeedbackRepository.complete_feedback_session,
      FeedbackRepository.get_feedback_session_by_id. simpl.
    destruct (Db.select_where _ _ _) as [|[i0 s0] [|y rest]] eqn:Hsel; simpl;
      [eauto| |eauto].
    assert ((i0, s0) ∈ Db.select_where
              (fun s => (FeedbackSession.id s =? session_id)%Z)
              (feedback_sessions st) 0) as Hin
      by (rewrite Hsel; apply elem_of_cons; auto).
    apply select_where_elem in Hin as [_ Hi0]. rewrite Nat.sub_0_r in Hi0.
    destruct (decide (i = i0)) as [->|Hne].
    + rewrite list_lookup_insert_eq by (by eapply lookup_lt_Some).
      eexists. split; [done|].
      assert (s0 = s) as -> by congruence. split; auto.
    + rewrite list_lookup_insert_ne by done. eauto.
  - unfold FeedbackRepository.update_agent_feedback. simpl.
    destruct (Db.select_where _ _ _) as [|[i0 r0] [|y rest]]; simpl; eauto.
  - unfold FeedbackRepository.create_or_update_learning. simpl.
    destruct (Db.select_where _ _ _) as [|[i0 l0] [|y rest]]; simpl; eauto.
Qed.

Lemma sessions_written_step op st :
  Forall (fun s => written_status (FeedbackSession.status s)) (feedback_sessions st) ->
  Forall (fun s => written_status (FeedbackSession.status s))
         (feedback_sessions (apply_op st op)).
Proof.
  intros Hall.
  destruct op as [resume_id now|session_id name text order now|session_id now
                 |response_id up ft|pt d a c now]; simpl.
  - destruct resume_id as [resume_id|]; simpl; [|done].
    apply Forall_app. split; [done|]. constructor; [by left | done].
  - unfold FeedbackRepository.add_agent_response.
    destruct session_id; simpl; [|done].
    destruct (Py.blank name); simpl; [done|].
    destruct (Py.blank text); simpl; [done|].
    by destruct (order <? 0)%Z.
  - unfold FeedbackRepository.complete_feedback_session,
      FeedbackRepository.get_feedback_session_by_id. simpl.
    destruct (Db.select_where _ _ _) as [|[i0 s0] [|y rest]]; simpl;
      [done| |done].
    apply Forall_insert; [done | by right].
  - unfold FeedbackRepository.update_agent_feedback. simpl.
    by destruct (Db.select_where _ _ _) as [|[i0 r0] [|y rest]].
  - unfold FeedbackRepository.create_or_update_learning. simpl.
    by destruct (Db.select_where _ _ _) as [|[i0 l0] [|y rest]].
Qed.

(** C8 (as amended): [create_feedback_session] returns, and stores, a
    session whose status is [in_progress]; the repository writes no
    status but [in_progress] and [completed], so that every session of a
    store that the repository has built has one of these two; and the
    status only moves forward: whatever the operation, a session keeps
    its status or becomes [completed]. *)
Theorem session_status_lifecycle :
  (forall st resume_id now,
     exists session,
       run (FeedbackRepository.create_feedback_session (Some resume_id) now) st
       = (Py.Return session,
          mkStore (feedback_sessions st ++ [session]) (agent_responses st)
            (aggregated_learnings st) (next_uuid st + 1))
       /\ FeedbackSession.status session = "in_progress"
       /\ FeedbackSession.completed_at session = None)
  /\ (forall ops,
        Forall (fun s => written_status (FeedbackSession.status s))
               (feedback_sessions (apply_ops empty_store ops)))
  /\ (forall op st i s,
        feedback_sessions st !! i = Some s ->
        exists s',
          feedback_sessions (apply_op st op) !! i = Some s' /\ forward s s').
Proof.
  split; [|split].
  - intros st resume_id now. eexists. split; [reflexivity|]. done.
  - intros ops. unfold apply_ops.
    assert (Forall (fun s => written_status (FeedbackSession.status s))
                   (feedback_sessions empty_store)) as Hinit by constructor.
    revert Hinit. generalize empty_store.
    induction ops as [|op ops IH]; intros st Hst; simpl; [done|].
    by apply IH, sessions_written_step.
  - intros op st i s. apply sessions_forward_step.
Qed.

(** A session that is created, then completed, then completed again. *)
Example session_completed_stays_completed :
  map FeedbackSession.status
    (feedback_sessions
       (apply_ops empty_store
          [CreateFeedbackSession (Some 7%Z) 10;
           CompleteFeedbackSession 1 20;
           CompleteFeedbackSession 1 30]))
  = ["completed"].
Proof. reflexivity. Qed.

(** C8 (as stated) fails: the status of a session that has just been
    created is [in_progress], which is not [pending] and is none of the
    four statuses of the claim. *)
Lemma session_status_counterexample :
  run (FeedbackRepository.create_feedback_session (Some 7%Z) 10) empty_store
  = (Py.Return (FeedbackSession.mk 1 7 "in_progress" 10 None),
     mkStore [FeedbackSession.mk 1 7 "in_progress" 10 None] [] [] 2)
  /\ "in_progress" <> "pending"
  /\ ~ spec_status "in_progress".
Proof.
  split; [reflexivity|]. split; [done|].
  unfold spec_status. rewrite !elem_of_cons, elem_of_nil.
  intros [H|[H|[H|[H|[]]]]]; discriminate.
Qed.

(* ================================================================== *)
(** * The stream consumer *)
(* ================================================================== *)

Lemma consume_cons session_id now e rest ar st :
  Routes.consume session_id now (e :: rest) ar st
  = match run (Routes.on_event session_id now e ar) st with
    | (Py.Raise err, st') => ([], Py.Raise err, st')
    | (Py.Return ar', st') =>
        prepend [Routes.Data e] (Routes.consume session_id now rest ar' st')
    end.
Proof.
  cbn [Routes.consume].
  destruct (run (Routes.on_event session_id now e ar) st) as [[err|ar'] st'];
    [done|].
  by destruct (Routes.consume session_id now rest ar' st') as [[out r] st''].
Qed.

Lemma prepend_prepend sent1 sent2 rest :
  prepend sent1 (prepend sent2 rest) = prepend (sent1 ++ sent2) rest.
Proof. unfold prepend. simpl. by rewrite app_assoc. Qed.

(** An event that is not a completion only adds its chunk to the text of
    its agent. *)
Lemma on_event_chunk session_id now name order c (ar : gmap string string) st :
  run (Routes.on_event session_id now (chunk_event name order c) ar) st
  = (Py.Return (<[name := default "" (ar !! name) +:+ c]> ar), st).
Proof.
  unfold Routes.on_event. simpl.
  destruct (ar !! name) as [t|] eqn:E; simpl.
  - by rewrite E.
  - by rewrite lookup_insert_eq, insert_insert_eq.
Qed.

Lemma consume_chunks session_id now name order frags rest (ar : gmap string string) t st :
  ar !! name = Some t ->
  Routes.consume session_id now (map (chunk_event name order) frags ++ rest) ar st
  = prepend (map Routes.Data (map (chunk_event name order) frags))
      (Routes.consume session_id now rest
         (<[name := t +:+ accumulate frags]> ar) st).
Proof.
  revert ar t. induction frags as [|c frags IH]; intros ar t Hname.
  - simpl accumulate. rewrite str_app_nil_r, insert_id by done.
    unfold prepend. simpl.
    by destruct (Routes.consume _ _ _ _ _) as [[out r] st''].
  - cbn [map fmap list_fmap app]. rewrite consume_cons, on_event_chunk, Hname.
    cbn [default]. rewrite (IH _ (t +:+ c)) by apply lookup_insert_eq.
    rewrite prepend_prepend, insert_insert_eq. simpl accumulate.
    by rewrite str_app_assoc.
Qed.

(** The events of a phase that has not completed add up the text of its
    agent and leave the store as it is. *)
Lemma consume_open session_id now name order frags rest (ar : gmap string string) st :
  ar !! name = None ->
  Routes.consume session_id now (open_events name order frags ++ rest) ar st
  = prepend (map Routes.Data (open_events name order frags))
      (Routes.consume session_id now rest (<[name := accumulate frags]> ar) st).
Proof.
  intros Hname. unfold open_events. rewrite <- app_comm_cons.
  rewrite consume_cons.
  change (start_event name order) with (chunk_event name order "").
  rewrite on_event_chunk, Hname. cbn [default].
  rewrite (consume_chunks _ _ _ _ _ _ _ ("" +:+ "")) by apply lookup_insert_eq.
  by rewrite prepend_prepend, insert_insert_eq.
Qed.

(** At the completion event of a phase the text of the agent is
    recorded, unless it is blank: then the loop stops there. *)
Lemma consume_closed session_id now name order frags rest (ar : gmap string string) st :
  ar !! name = None ->
  String.eqb name "Workflow" = false ->
  Py.blank name = false ->
  (0 <= order)%Z ->
  Routes.consume session_id now (closed_events name order frags ++ rest) ar st
  = if Py.blank (accumulate frags) then
      (map Routes.Data (open_events name order frags),
       Py.Raise (Py.ValueError "Response text is required"), st)
    else
      prepend (map Routes.Data (closed_events name order frags))
        (Routes.consume session_id now rest (<[name := accumulate frags]> ar)
           (mkStore (feedback_sessions st)
              (agent_responses st
               ++ [turn_row (next_uuid st) session_id (name, order)
                     (accumulate frags) now])
              (aggregated_learnings st) (next_uuid st + 1))).
Proof.
  intros Hname Hwf Hblank Horder. unfold closed_events.
  rewrite <- app_assoc, consume_open by done.
  cbn [app]. rewrite consume_cons.
  unfold Routes.on_event.
  cbn [Graph.is_complete Graph.agent_name Graph.order complete_event andb negb].
  rewrite Hwf. cbn [negb]. rewrite lookup_insert_eq.
  rewrite !run_bind.
  destruct (Py.blank (accumulate frags)) eqn:Htext.
  - unfold FeedbackRepository.add_agent_response. rewrite Hblank, Htext.
    simpl. unfold prepend. simpl. by rewrite app_nil_r.
  - rewrite add_agent_response_valid by done. simpl.
    rewrite prepend_prepend. by rewrite map_app.
Qed.

(** The Workflow event and the end of the events change nothing. *)
Lemma consume_workflow session_id now res (ar : gmap string string) st :
  Routes.consume session_id now [workflow_event res] ar st
  = ([Routes.Data (workflow_event res)], Py.Return tt, st).
Proof. reflexivity. Qed.

Lemma consume_nil session_id now (ar : gmap string string) st :
  Routes.consume session_id now [] ar st = ([], Py.Return tt, st).
Proof. reflexivity. Qed.

(** Completing the session leaves the recorded turns as they are. *)
Lemma complete_keeps_responses session_id now st :
  agent_responses
    (run (FeedbackRepository.complete_feedback_session session_id now) st).2
  = agent_responses st.
Proof.
  unfold FeedbackRepository.complete_feedback_session,
    FeedbackRepository.get_feedback_session_by_id. simpl.
  by destruct (Db.select_where _ _ _) as [|[i0 s0] [|y rest]].
Qed.

Lemma generate_stream_responses llm session_id r j mc now st :
  agent_responses (Routes.generate_stream llm session_id r j mc now st).2
  = agent_responses
      (Routes.consume session_id now
         (Graph.events (Graph.trace (Graph.execute_debate llm r j (Some mc))))
         ∅ st).2.
Proof.
  unfold Routes.generate_stream.
  destruct (Routes.consume _ _ _ _ _) as [[out res] st1].
  cbv beta iota. cbn [fst snd].
  destruct res as [e|[]]; [reflexivity|].
  destruct (Graph.outcome _) as [e|[]]; [reflexivity|].
  pose proof (complete_keeps_responses session_id now st1) as H.
  destruct (run _ st1) as [[e|s] st2]; exact H.
Qed.

Lemma events_yield e : Graph.events [Graph.Yield e] = [e].
Proof. reflexivity. Qed.

Lemma prepend_store sent rest : (prepend sent rest).2 = rest.2.
Proof. reflexivity. Qed.

(** The side conditions of [consume_closed] for the three agents. *)
Ltac closed_side :=
  first [ reflexivity | lia
        | rewrite ?lookup_insert_ne by done; apply lookup_empty ].

Lemma completed_in_app evs1 evs2 name :
  completed_in (evs1 ++ evs2) name
  = completed_in evs1 name || completed_in evs2 name.
Proof. apply existsb_app. Qed.

Lemma completed_in_open name' order frags name :
  completed_in (open_events name' order frags) name = false.
Proof.
  unfold completed_in, open_events. simpl.
  induction frags as [|c frags IH]; simpl; done.
Qed.

Lemma completed_in_closed name' order frags name :
  completed_in (closed_events name' order frags) name = String.eqb name' name.
Proof.
  unfold closed_events. rewrite completed_in_app, completed_in_open.
  unfold completed_in. simpl. by rewrite orb_false_r.
Qed.

(** Rewrites the rows that the consumer records for a run that is given
    phase by phase. *)
Ltac read_rows :=
  unfold recorded_rows, recorded, agents; cbn [fst snd];
  rewrite ?events_app, ?events_closed_phase, ?events_open_phase, ?events_yield;
  rewrite ?completed_in_app, ?completed_in_closed, ?completed_in_open;
  read_events;
  cbn [completed_in existsb Graph.is_complete Graph.agent_name start_event
       workflow_event String.eqb Ascii.eqb Bool.eqb orb andb negb].

(** Compares two lists of recorded rows. *)
Ltac same_rows :=
  cbn [snd fst agent_responses rows_from app negb andb];
  try read_events;
  rewrite <- ?app_assoc, ?app_nil_r; cbn [app];
  repeat first [reflexivity | lia | f_equal].

(** C2: the chunks of an agent's events with [is_complete = false],
    concatenated in emission order, are the final text of the agent.
    The three texts that the Workflow event carries are these
    concatenations, and a run that ends normally has emitted the
    Workflow event.  And the stream consumer passes these
    concatenations to [add_agent_response]: the rows that it adds to
    the recorded turns are exactly one row for each agent whose
    completion event has been emitted, in the order of the debate and
    up to the first agent whose text is blank (which
    [add_agent_response] refuses); the row of an agent is in the
    session, under the agent's name and order, and its text is the
    concatenation of the chunks of that agent. *)
Theorem streamed_chunks_rebuild_text llm session_id r j mc now st :
  let debate := Graph.execute_debate llm r j (Some mc) in
  let evs := Graph.events (Graph.trace debate) in
  (forall res,
     Graph.Yield (workflow_event res) ∈ Graph.trace debate ->
     Graph.critic_response res = streamed_text "Critic" evs
     /\ Graph.advocate_response res = streamed_text "Advocate" evs
     /\ Graph.realist_response res = streamed_text "Realist" evs)
  /\ (Graph.outcome debate = Py.Return tt ->
      exists res, Graph.Yield (workflow_event res) ∈ Graph.trace debate)
  /\ agent_responses (Routes.generate_stream llm session_id r j mc now st).2
     = agent_responses st
       ++ recorded_rows session_id now evs (next_uuid st).
Proof.
  intros debate evs. subst evs debate.
  rewrite generate_stream_responses.
  run_cases llm r j (Some mc); (split; [|split]).
  all: try (intros res Hin; split_yield Hin; done).
  all: try done.
  - read_rows. done.
  - read_rows. rewrite <- (app_nil_r (open_events _ _ _)).
    by rewrite consume_open, prepend_store, consume_nil by apply lookup_empty.
  - read_rows. rewrite consume_closed by closed_side.
    destruct (Py.blank (accumulate (LLMService.fragments sc))); [same_rows|].
    rewrite prepend_store, <- (app_nil_r (open_events _ _ _)).
    rewrite consume_open, prepend_store, consume_nil by closed_side.
    same_rows.
  - read_rows. rewrite consume_closed by closed_side.
    destruct (Py.blank (accumulate (LLMService.fragments sc))); [same_rows|].
    rewrite prepend_store, consume_closed by closed_side.
    destruct (Py.blank (accumulate (LLMService.fragments sa))); [same_rows|].
    rewrite prepend_store.
    change [start_event "Realist" 3] with (open_events "Realist" 3 [] ++ []).
    rewrite consume_open, prepend_store, consume_nil by closed_side.
    same_rows.
  - destruct (realist_message_ok _ _ _ _ _ Hrm) as [Hc Ha].
    read_rows. rewrite consume_closed, Hc by closed_side.
    rewrite prepend_store, consume_closed, Ha by closed_side.
    rewrite prepend_store, <- (app_nil_r (open_events _ _ _)).
    rewrite consume_open, prepend_store, consume_nil by closed_side.
    same_rows.
  - intros res Hin. split_yield Hin; try done.
    injection Hin as ->. read_events. done.
  - intros _. eexists. find_call. apply list_elem_of_singleton. reflexivity.
  - destruct (realist_message_ok _ _ _ _ _ Hrm) as [Hc Ha].
    read_rows. rewrite consume_closed, Hc by closed_side.
    rewrite prepend_store, consume_closed, Ha by closed_side.
    rewrite prepend_store, consume_closed by closed_side.
    destruct (Py.blank (accumulate (LLMService.fragments sr))); [same_rows|].
    rewrite prepend_store, consume_workflow. same_rows.
Qed.

(** A whole stream: the three turns are recorded with the texts that
    the chunks add up to, and the session is completed. *)
Example generate_stream_records_turns :
  (Routes.generate_stream sample_llm 1 "resume" "job" [] 20
     (mkStore [FeedbackSession.mk 1 7 "in_progress" 10 None] [] [] 2)).2
  = mkStore [FeedbackSession.mk 1 7 "completed" 10 (Some 20%Z)]
      [AgentResponse.mk 2 1 "critic" "Too vague" 1 None None 20;
       AgentResponse.mk 3 1 "advocate" "Strong" 2 None None 20;
       AgentResponse.mk 4 1 "realist" "Fix the summary" 3 None None 20]
      [] 5.
Proof. reflexivity. Qed.

(* ================================================================== *)
(** * Feedback *)
(* ================================================================== *)

Lemma select_where_complete {A} (p : A -> bool) (rows : list A) (n i : nat) (x : A) :
  rows !! i = Some x -> p x = true ->
  ((n + i)%nat, x) ∈ Db.select_where p rows n.
Proof.
  revert n i. induction rows as [|r rows IH]; intros n i Hi Hp; [done|].
  simpl. destruct i as [|i].
  - injection Hi as ->. rewrite Hp, Nat.add_0_r. apply elem_of_cons. auto.
  - replace (n + S i)%nat with (S n + i)%nat by lia.
    destruct (p r); [apply elem_of_cons; right|]; by apply IH.
Qed.

Lemma upsert_returns_key st pattern_type description agent_name confidence_score
    now l st' :
  run (FeedbackRepository.create_or_update_learning
         pattern_type description agent_name confidence_score now) st
  = (Py.Return l, st') ->
  learning_key l = (pattern_type, description, Py.lower agent_name).
Proof.
  unfold FeedbackRepository.create_or_update_learning. simpl.
  destruct (Db.select_where _ _ _) as [|[i0 l0] [|y rest]] eqn:Hsel; simpl;
    [| |done].
  - by intros [= <- _].
  - intros [= <- _].
    assert (FeedbackRepository.learning_matches pattern_type description
              agent_name l0 = true) as Hm.
    { eapply (select_where_sat _ _ 0 i0). rewrite Hsel. apply elem_of_cons. auto. }
    by apply learning_matches_key in Hm.
Qed.

Lemma slice_to_length n s : (String.length (Py.slice_to n s) <= n)%nat.
Proof.
  revert s. induction n as [|n IH]; intros [|c s]; simpl; try lia.
  specialize (IH s). lia.
Qed.

Lemma slice_to_short n s : (String.length s <= n)%nat -> Py.slice_to n s = s.
Proof.
  revert s. induction n as [|n IH]; intros [|c s]; simpl; try done; try lia.
  intros H. rewrite IH; [done | lia].
Qed.

(** A successful submission has called [create_or_update_learning] with
    the learning that the feedback turns into, for the stored name of
    the agent. *)
Lemma submit_feedback_upserts feedback_request now st response_id st' :
  Routes.submit_feedback feedback_request now st = (inr response_id, st') ->
  exists st1,
    aggregated_learnings st1 = aggregated_learnings st
    /\ exists learning,
         run (FeedbackRepository.create_or_update_learning
                (Routes.pattern_type_of (Routes.thumbs_up feedback_request))
                (Routes.description_of (Routes.thumbs_up feedback_request)
                   (Routes.feedback_text feedback_request))
                (Py.lower (Routes.agent_name feedback_request))
                (Routes.confidence_score_of (Routes.thumbs_up feedback_request))
                now) st1
         = (Py.Return learning, st').
Proof.
  unfold Routes.submit_feedback,
    FeedbackRepository.get_agent_response_by_session_and_name,
    FeedbackRepository.update_agent_feedback.
  remember FeedbackRepository.create_or_update_learning as upsert eqn:Hupsert.
  simpl.
  destruct (Db.select_where _ (agent_responses st) 0)
    as [|[i0 r0] [|y rest]] eqn:Hsel; simpl; [done| |done].
  assert ((i0, r0) ∈ Db.select_where
            (fun r => (AgentResponse.session_id r
                       =? Routes.session_id feedback_request)%Z
                      && String.eqb (AgentResponse.agent_name r)
                           (Py.lower (Routes.agent_name feedback_request)))
            (agent_responses st) 0) as Hin
    by (rewrite Hsel; apply elem_of_cons; auto).
  clear Hsel.
  assert (AgentResponse.agent_name r0
          = Py.lower (Routes.agent_name feedback_request)) as Hname.
  { apply select_where_sat in Hin.
    apply andb_true_iff in Hin as [_ Hin]. by apply String.eqb_eq. }
  apply select_where_elem in Hin as [_ Hi0]. rewrite Nat.sub_0_r in Hi0.
  pose proof (select_where_complete
                (fun r => (AgentResponse.id r =? AgentResponse.id r0)%Z)
                _ 0 i0 r0 Hi0 (Z.eqb_refl _)) as Hin1.
  destruct (Db.select_where _ (agent_responses st) 0)
    as [|[i1 r1] [|y rest]]; simpl; [done| |done].
  apply list_elem_of_singleton in Hin1. simplify_eq.
  rewrite Hname.
  match goal with
  | |- context [run ?call ?s1] =>
      destruct (run call s1) as [[e|learning] st2] eqn:Hrun; simpl; [done|]
  end.
  intros [= <- <-]. eexists. split; [|exists learning; exact Hrun].
  reflexivity.
Qed.

(** C7: a feedback that is submitted successfully is turned into a
    learning with pattern type [positive_feedback] when [thumbs_up] and
    [negative_feedback] otherwise, with the first 200 characters of the
    feedback text as its description when a text is given and is not
    empty, and one of two fixed sentences otherwise, upserted with
    confidence 0.8 when [thumbs_up] and 0.3 otherwise, for the lowercase
    name of the agent.  In particular, submitting (Critic, thumbs down,
    "too vague") twice leaves one record: negative_feedback, "too vague",
    agent critic, frequency 2, confidence 0.3. *)
Theorem feedback_becomes_learning :
  (forall feedback_request now st response_id st',
     Routes.submit_feedback feedback_request now st = (inr response_id, st') ->
     let thumbs_up := Routes.thumbs_up feedback_request in
     let pattern_type :=
       if thumbs_up then "positive_feedback" else "negative_feedback" in
     let generic :=
       if thumbs_up then "User gave positive feedback"
       else "User gave negative feedback" in
     let description :=
       match Routes.feedback_text feedback_request with
       | Some text => if Py.truthy text then Py.slice_to 200 text else generic
       | None => generic
       end in
     let confidence := if thumbs_up then 8 # 10 else 3 # 10 in
     (String.length description <= 200)%nat
     /\ (forall text,
           Routes.feedback_text feedback_request = Some text ->
           text <> "" -> (String.length text <= 200)%nat ->
           description = text)
     /\ exists st1 learning,
          aggregated_learnings st1 = aggregated_learnings st
          /\ run (FeedbackRepository.create_or_update_learning pattern_type
                    description (Py.lower (Routes.agent_name feedback_request))
                    confidence now) st1
             = (Py.Return learning, st')
          /\ AggregatedLearning.pattern_type learning = pattern_type
          /\ AggregatedLearning.description learning = description
          /\ AggregatedLearning.agent_name learning
             = Py.lower (Routes.agent_name feedback_request))
  /\ (let st0 :=
        apply_ops empty_store
          [CreateFeedbackSession (Some 7%Z) 10;
           AddAgentResponse (Some 1%Z) "Critic" "Too generic" 1 20] in
      let feedback_request :=
        Routes.mkAgentFeedbackRequest 1 "Critic" false (Some "too vague") in
      let first := Routes.submit_feedback feedback_request 30 st0 in
      let second := Routes.submit_feedback feedback_request 40 first.2 in
      first.1 = inr 2%Z
      /\ second.1 = inr 2%Z
      /\ aggregated_learnings second.2
         = [AggregatedLearning.mk 3 "negative_feedback" "too vague" 2
              (3 # 10) "critic" 40]).
Proof.
  split; [|by vm_compute].
  intros req now st response_id st' Hsubmit
    thumbs_up pattern_type generic description confidence.
  apply submit_feedback_upserts in Hsubmit as (st1 & Hst1 & learning & Hrun).
  assert (Routes.description_of thumbs_up (Routes.feedback_text req)
          = description) as Hdesc.
  { subst description generic. unfold Routes.description_of.
    destruct (Routes.feedback_text req) as [text|];
      [destruct (Py.truthy text)|]; by destruct thumbs_up. }
  assert (Routes.pattern_type_of thumbs_up = pattern_type) as Hpt by done.
  assert (Routes.confidence_score_of thumbs_up = confidence) as Hconf by done.
  fold thumbs_up in Hrun. rewrite Hdesc, Hpt, Hconf in Hrun.
  split; [|split].
  - subst description generic.
    destruct (Routes.feedback_text req) as [text|];
      [destruct (Py.truthy text); [apply slice_to_length|]|];
      destruct thumbs_up; simpl; lia.
  - intros text Htext Hne Hlen. subst description. rewrite Htext.
    destruct text as [|c text]; [done|]. simpl Py.truthy. cbv iota.
    by apply slice_to_short.
  - exists st1, learning. split; [done|]. split; [done|].
    apply upsert_returns_key in Hrun. unfold learning_key in Hrun.
    rewrite lower_idemp in Hrun. by injection Hrun as -> -> ->.
Qed.

(* ================================================================== *)
(** * Further properties of the repository *)
(* ================================================================== *)

(** ** What each operation does to the store *)

Lemma isspace_lower_char c : Py.isspace (Py.lower_char c) = Py.isspace c.
Proof. by destruct c as [[] [] [] [] [] [] [] []]. Qed.

Lemma all_space_lower s : all_space (Py.lower s) = all_space s.
Proof.
  induction s as [|c s IH]; simpl; [done|].
  by rewrite isspace_lower_char, IH.
Qed.

Lemma blank_lower s : Py.blank (Py.lower s) = Py.blank s.
Proof. by rewrite !blank_spec, all_space_lower. Qed.

(** A query by primary key on a table with distinct keys. *)
Lemma select_by_id {A} (key : A -> Z) (rows : list A) (k : Z) :
  NoDup (map key rows) ->
  (Db.select_where (fun r => (key r =? k)%Z) rows 0 = []
   /\ forall r, r ∈ rows -> key r <> k)
  \/ (exists i r, rows !! i = Some r /\ key r = k
      /\ Db.select_where (fun r => (key r =? k)%Z) rows 0 = [(i, r)]).
Proof.
  intros Hnodup.
  destruct (Db.select_where (fun r => (key r =? k)%Z) rows 0)
    as [|[i r] rest] eqn:Hsel.
  - left. split; [done|]. intros r Hr.
    pose proof (select_where_nil_inv _ _ _ Hsel r Hr) as H.
    by apply Z.eqb_neq in H.
  - right. exists i, r.
    assert ((i, r) ∈ Db.select_where (fun r => (key r =? k)%Z) rows 0) as Hin
      by (rewrite Hsel; apply elem_of_cons; auto).
    pose proof (select_where_sat _ _ _ _ _ Hin) as Hk. apply Z.eqb_eq in Hk.
    apply select_where_elem in Hin as [_ Hi]. rewrite Nat.sub_0_r in Hi.
    split; [done|]. split; [done|].
    rewrite <- Hsel.
    apply (select_where_unique _ _ 0 i r); [done | by apply Z.eqb_eq|].
    intros j r' Hj Hr'. apply Z.eqb_eq in Hr'.
    eapply NoDup_lookup; [exact Hnodup | |].
    + rewrite list_lookup_fmap, Hj. simpl. by rewrite Hr'.
    + rewrite list_lookup_fmap, Hi. simpl. by rewrite Hk.
Qed.

Lemma select_head {A} (p : A -> bool) (rows : list A) i r rest :
  Db.select_where p rows 0 = (i, r) :: rest ->
  rows !! i = Some r /\ p r = true.
Proof.
  intros Hsel.
  assert ((i, r) ∈ Db.select_where p rows 0) as Hin
    by (rewrite Hsel; apply elem_of_cons; auto).
  split; [|by eapply select_where_sat].
  apply select_where_elem in Hin as [_ Hi]. by rewrite Nat.sub_0_r in Hi.
Qed.

Lemma keys_after_insert {A} (key : A -> Z) (rows : list A) i r r' :
  rows !! i = Some r -> key r' = key r ->
  map key (<[i := r']> rows) = map key rows.
Proof.
  intros Hi Hkey. rewrite list_fmap_insert, Hkey.
  apply list_insert_id. by rewrite list_lookup_fmap, Hi.
Qed.

Lemma keys_after_append {A} (key : A -> Z) (rows : list A) (x : A) (n : Z) :
  NoDup (map key rows) ->
  Forall (fun r => (key r < n)%Z) rows ->
  key x = n ->
  NoDup (map key (rows ++ [x])).
Proof.
  intros Hnodup Hfresh Hx. rewrite map_app. apply NoDup_app.
  split; [done|]. split; [|apply NoDup_singleton].
  intros k Hk Hk'. apply list_elem_of_singleton in Hk'. subst k.
  apply list_elem_of_fmap in Hk as (r & Hr & Hin).
  rewrite Forall_forall in Hfresh. specialize (Hfresh r Hin). simpl in *. lia.
Qed.

Lemma fresh_after_append {A} (key : A -> Z) (rows : list A) (x : A) (n : Z) :
  Forall (fun r => (key r < n)%Z) rows ->
  key x = n ->
  Forall (fun r => (key r < n + 1)%Z) (rows ++ [x]).
Proof.
  intros Hfresh Hx. apply Forall_app. split.
  - eapply Forall_impl; [exact Hfresh|]. simpl. intros; lia.
  - repeat constructor. lia.
Qed.

Lemma fresh_weaken {A} (key : A -> Z) (rows : list A) (n : Z) :
  Forall (fun r => (key r < n)%Z) rows ->
  Forall (fun r => (key r < n + 1)%Z) rows.
Proof. intros H. eapply Forall_impl; [exact H|]. simpl. intros; lia. Qed.

Lemma fresh_after_insert {A} (key : A -> Z) (rows : list A) i r r' (n : Z) :
  Forall (fun r => (key r < n)%Z) rows ->
  rows !! i = Some r -> key r' = key r ->
  Forall (fun r => (key r < n)%Z) (<[i := r']> rows).
Proof.
  intros Hfresh Hi Hkey. apply Forall_insert; [done|].
  rewrite Forall_forall in Hfresh. rewrite Hkey.
  apply Hfresh. by eapply list_elem_of_lookup_2.
Qed.

(** Every operation keeps what holds of a store that the repository has
    built. *)
Lemma store_inv_step op st : store_inv st -> store_inv (apply_op st op).
Proof.
  intros Hinv. pose proof (keys_unique_step op st (inv_keys st Hinv)) as Hkeys.
  destruct Hinv as [Hs Hr Hl Hsf Hrf Hlf Hro Hlo _].
  destruct op as [resume_id now|session_id name text order now|session_id now
                 |response_id up ft|pt d a c now]; simpl in *.
  - destruct resume_id as [resume_id|]; simpl in *; [|by constructor].
    constructor; simpl; try done.
    + by eapply keys_after_append.
    + by eapply fresh_after_append.
    + by apply fresh_weaken.
    + by apply fresh_weaken.
  - unfold FeedbackRepository.add_agent_response in *.
    destruct session_id as [session_id|]; simpl in *; [|by constructor].
    destruct (Py.blank name) eqn:Hname; simpl in *; [by constructor|].
    destruct (Py.blank text) eqn:Htext; simpl in *; [by constructor|].
    destruct (order <? 0)%Z eqn:Horder; simpl in *; [by constructor|].
    constructor; simpl; try done.
    + by eapply keys_after_append.
    + by apply fresh_weaken.
    + by eapply fresh_after_append.
    + by apply fresh_weaken.
    + apply Forall_app. split; [done|]. constructor; [|done].
      apply Z.ltb_ge in Horder.
      repeat split; simpl; [by rewrite blank_lower | apply lower_idemp | done | lia].
  - unfold FeedbackRepository.complete_feedback_session,
      FeedbackRepository.get_feedback_session_by_id in *. simpl in *.
    destruct (Db.select_where _ _ _) as [|[i0 s0] [|y rest]] eqn:Hsel;
      simpl in *; [by constructor| |by constructor].
    apply select_head in Hsel as [Hi0 _].
    constructor; simpl; try done.
    + by rewrite (keys_after_insert _ _ _ s0).
    + by eapply fresh_after_insert.
  - unfold FeedbackRepository.update_agent_feedback in *. simpl in *.
    destruct (Db.select_where _ _ _) as [|[i0 r0] [|y rest]] eqn:Hsel;
      simpl in *; [by constructor| |by constructor].
    apply select_head in Hsel as [Hi0 _].
    constructor; simpl; try done.
    + by rewrite (keys_after_insert _ _ _ r0).
    + by eapply fresh_after_insert.
    + apply Forall_insert; [done|].
      rewrite Forall_forall in Hro. apply (Hro r0).
      by eapply list_elem_of_lookup_2.
  - unfold FeedbackRepository.create_or_update_learning in *. simpl in *.
    destruct (Db.select_where _ _ _) as [|[i0 l0] [|y rest]] eqn:Hsel;
      simpl in *; [| |by constructor].
    + constructor; simpl; try done.
      * by eapply keys_after_append.
      * by apply fresh_weaken.
      * by apply fresh_weaken.
      * by eapply fresh_after_append.
      * apply Forall_app. split; [done|]. constructor; [|done].
        split; simpl; [lia | apply lower_idemp].
    + apply select_head in Hsel as [Hi0 _].
      constructor; simpl; try done.
      * by rewrite (keys_after_insert _ _ _ l0).
      * by eapply fresh_after_insert.
      * apply Forall_insert; [done|].
        rewrite Forall_forall in Hlo.
        destruct (Hlo l0) as [Hf Hn]; [by eapply list_elem_of_lookup_2|].
        split; simpl; [lia | done].
Qed.

Lemma store_inv_empty : store_inv empty_store.
Proof.
  constructor; simpl; try constructor.
  intros i j l l' Hi. done.
Qed.

Lemma store_inv_steps ops st : store_inv st -> store_inv (apply_ops st ops).
Proof.
  revert st. unfold apply_ops.
  induction ops as [|op ops IH]; intros st Hst; simpl; [done|].
  by apply IH, store_inv_step.
Qed.

(** ** Sound stores *)

(** X1: in every store that the repository has built, the primary keys
    of each table are distinct and no two learning patterns have the
    same key (pattern type, description, agent name). *)
Theorem repository_keys_distinct ops :
  let st := apply_ops empty_store ops in
  NoDup (map FeedbackSession.id (feedback_sessions st))
  /\ NoDup (map AgentResponse.id (agent_responses st))
  /\ NoDup (map AggregatedLearning.id (aggregated_learnings st))
  /\ keys_unique (aggregated_learnings st).
Proof.
  intros st. destruct (store_inv_steps ops empty_store store_inv_empty).
  by repeat split.
Qed.

(** X2: in every store that the repository has built, each recorded
    turn has a text and an agent name that are not blank, an agent name
    in lowercase and an order that is not negative, and each learning
    pattern has a frequency of at least 1 and an agent name in
    lowercase. *)
Theorem repository_rows_valid ops :
  let st := apply_ops empty_store ops in
  Forall (fun r =>
            Py.blank (AgentResponse.agent_name r) = false
            /\ Py.lower (AgentResponse.agent_name r) = AgentResponse.agent_name r
            /\ Py.blank (AgentResponse.response_text r) = false
            /\ (0 <= AgentResponse.order r)%Z)
         (agent_responses st)
  /\ Forall (fun l =>
               (1 <= AggregatedLearning.frequency l)%Z
               /\ Py.lower (AggregatedLearning.agent_name l)
                  = AggregatedLearning.agent_name l)
            (aggregated_learnings st).
Proof.
  intros st. destruct (store_inv_steps ops empty_store store_inv_empty).
  by split.
Qed.

(** ** Sessions *)

Lemma get_session_cases st session_id :
  store_inv st ->
  (run (FeedbackRepository.get_feedback_session_by_id session_id) st
   = (Py.Return None, st)
   /\ forall s, s ∈ feedback_sessions st -> FeedbackSession.id s <> session_id)
  \/ (exists i s,
        feedback_sessions st !! i = Some s
        /\ FeedbackSession.id s = session_id
        /\ run (FeedbackRepository.get_feedback_session_by_id session_id) st
           = (Py.Return (Some (i, s)), st)).
Proof.
  intros Hinv.
  unfold FeedbackRepository.get_feedback_session_by_id. simpl.
  destruct (select_by_id FeedbackSession.id (feedback_sessions st) session_id
              (inv_session_ids st Hinv))
    as [[Hsel Hnone]|(i & s & Hi & Hid & Hsel)]; rewrite Hsel.
  - by left.
  - right. by exists i, s.
Qed.

(** X3: on a store that the repository has built, looking a session up
    by its id never raises and changes nothing: it returns the stored
    session with that id, or [None] when no stored session has it; and
    the session that [create_feedback_session] has just returned is the
    one that a lookup of its id finds. *)
Theorem session_lookup ops :
  let st := apply_ops empty_store ops in
  (forall session_id,
     (run (FeedbackRepository.get_feedback_session_by_id session_id) st
      = (Py.Return None, st)
      /\ forall s, s ∈ feedback_sessions st -> FeedbackSession.id s <> session_id)
     \/ (exists i s,
           feedback_sessions st !! i = Some s
           /\ FeedbackSession.id s = session_id
           /\ run (FeedbackRepository.get_feedback_session_by_id session_id) st
              = (Py.Return (Some (i, s)), st)))
  /\ (forall resume_id now,
        exists session st',
          run (FeedbackRepository.create_feedback_session (Some resume_id) now) st
          = (Py.Return session, st')
          /\ run (FeedbackRepository.get_feedback_session_by_id
                    (FeedbackSession.id session)) st'
             = (Py.Return (Some (length (feedback_sessions st), session)), st')).
Proof.
  intros st.
  pose proof (store_inv_steps ops empty_store store_inv_empty) as Hinv.
  fold st in Hinv. split.
  - intros session_id. by apply get_session_cases.
  - intros resume_id now. eexists _, _. split; [reflexivity|].
    unfold FeedbackRepository.get_feedback_session_by_id. simpl.
    rewrite (select_where_unique _ _ 0 (length (feedback_sessions st))
               (FeedbackSession.mk (next_uuid st) resume_id "in_progress" now None)).
    + reflexivity.
    + by apply list_lookup_middle.
    + simpl. apply Z.eqb_refl.
    + intros j s Hj Hs. simpl in Hs. apply Z.eqb_eq in Hs.
      destruct (decide (j < length (feedback_sessions st))%nat) as [Hlt|Hge].
      * rewrite lookup_app_l in Hj by done.
        pose proof (inv_session_fresh st Hinv) as Hfresh.
        rewrite Forall_forall in Hfresh.
        specialize (Hfresh s (list_elem_of_lookup_2 _ _ _ Hj)). simpl in Hfresh. lia.
      * apply lookup_lt_Some in Hj. rewrite length_app in Hj. simpl in Hj. lia.
Qed.

Lemma complete_session_cases st session_id now :
  store_inv st ->
  (run (FeedbackRepository.complete_feedback_session session_id now) st
   = (Py.Return None, st)
   /\ forall s, s ∈ feedback_sessions st -> FeedbackSession.id s <> session_id)
  \/ (exists i s,
        feedback_sessions st !! i = Some s
        /\ FeedbackSession.id s = session_id
        /\ run (FeedbackRepository.complete_feedback_session session_id now) st
           = (Py.Return (Some (completed s now)),
              mkStore (<[i := completed s now]> (feedback_sessions st))
                (agent_responses st) (aggregated_learnings st) (next_uuid st))).
Proof.
  intros Hinv. unfold FeedbackRepository.complete_feedback_session.
  rewrite run_bind.
  destruct (get_session_cases st session_id Hinv)
    as [[Hrun Hnone]|(i & s & Hi & Hid & Hrun)]; rewrite Hrun.
  - by left.
  - right. by exists i, s.
Qed.

(** X4: on a store that the repository has built,
    [complete_feedback_session] for an id that no session has returns
    [None] and changes nothing; for the id of a stored session it sets
    the status to [completed] and [completed_at] to the time of the call,
    whatever the status was, and touches nothing else, so that
    completing a session again only replaces its [completed_at]. *)
Theorem complete_session_behaviour ops session_id now :
  let st := apply_ops empty_store ops in
  let call := FeedbackRepository.complete_feedback_session session_id now in
  (run call st = (Py.Return None, st)
   /\ forall s, s ∈ feedback_sessions st -> FeedbackSession.id s <> session_id)
  \/ (exists i s,
        feedback_sessions st !! i = Some s
        /\ FeedbackSession.id s = session_id
        /\ run call st
           = (Py.Return (Some (FeedbackSession.mk session_id
                                 (FeedbackSession.resume_id s) "completed"
                                 (FeedbackSession.created_at s) (Some now))),
              mkStore
                (<[i := FeedbackSession.mk session_id
                          (FeedbackSession.resume_id s) "completed"
                          (FeedbackSession.created_at s) (Some now)]>
                   (feedback_sessions st))
                (agent_responses st) (aggregated_learnings st) (next_uuid st))
        /\ forall later,
             run (FeedbackRepository.complete_feedback_session session_id later)
                 (run call st).2
             = (Py.Return (Some (FeedbackSession.mk session_id
                                   (FeedbackSession.resume_id s) "completed"
                                   (FeedbackSession.created_at s) (Some later))),
                mkStore
                  (<[i := FeedbackSession.mk session_id
                            (FeedbackSession.resume_id s) "completed"
                            (FeedbackSession.created_at s) (Some later)]>
                     (feedback_sessions st))
                  (agent_responses st) (aggregated_learnings st) (next_uuid st))).
Proof.
  intros st call.
  pose proof (store_inv_steps ops empty_store store_inv_empty) as Hinv.
  fold st in Hinv.
  destruct (complete_session_cases st session_id now Hinv)
    as [Hnone|(i & s & Hi & Hid & Hrun)]; [by left|].
  right. exists i, s. split; [done|]. split; [done|].
  unfold completed in Hrun. rewrite Hid in Hrun. subst call.
  split; [done|]. intros later.
  assert (store_inv
            (run (FeedbackRepository.complete_feedback_session session_id now)
                 st).2) as Hinv'
    by apply (store_inv_step (CompleteFeedbackSession session_id now) st Hinv).
  rewrite Hrun in Hinv' |- *. cbn [snd] in Hinv' |- *.
  destruct (complete_session_cases _ session_id later Hinv')
    as [[_ Hnone]|(i' & s' & Hi' & Hid' & Hrun')].
  - exfalso. simpl in Hnone.
    eapply (Hnone (FeedbackSession.mk session_id _ _ _ _)); [|done].
    eapply list_elem_of_lookup_2.
    apply list_lookup_insert_eq. by eapply lookup_lt_Some.
  - cbn [feedback_sessions] in Hi'. rewrite Hrun'.
    assert (i' = i) as ->.
    { destruct (decide (i' = i)) as [|Hne]; [done|].
      rewrite list_lookup_insert_ne in Hi' by done.
      pose proof (inv_session_ids st Hinv) as Hnodup.
      eapply NoDup_lookup; [exact Hnodup| |].
      - rewrite list_lookup_fmap, Hi'. simpl. by rewrite Hid'.
      - rewrite list_lookup_fmap, Hi. simpl. by rewrite Hid. }
    rewrite list_lookup_insert_eq in Hi' by (by eapply lookup_lt_Some).
    injection Hi' as <-. unfold completed. simpl.
    by rewrite list_insert_insert_eq.
Qed.

(** ** Turns and feedback *)

Lemma select_where_length {A} (p : A -> bool) (rows : list A) (n : nat) :
  length (Db.select_where p rows n) = length (List.filter p rows).
Proof.
  revert n. induction rows as [|r rows IH]; intros n; simpl; [done|].
  destruct (p r); simpl; by rewrite IH.
Qed.

Lemma turns_length session_id agent_name st :
  length (turns session_id agent_name st)
  = turns_of session_id (Py.lower agent_name) st.
Proof. apply select_where_length. Qed.

Lemma select_where_increasing {A} (p : A -> bool) (rows : list A) (n : nat) i x rest :
  Db.select_where p rows n = (i, x) :: rest ->
  forall j y, (j, y) ∈ rest -> (i < j)%nat.
Proof.
  revert n. induction rows as [|r rows IH]; intros n; simpl; [done|].
  destruct (p r).
  - intros [= <- <- <-] j y Hin.
    apply select_where_elem in Hin as [Hle _]. lia.
  - apply IH.
Qed.

(** With distinct keys, at most one learning pattern answers the query
    of [create_or_update_learning]. *)
Lemma upsert_returns st pattern_type description agent_name confidence_score now :
  keys_unique (aggregated_learnings st) ->
  exists l st',
    run (FeedbackRepository.create_or_update_learning
           pattern_type description agent_name confidence_score now) st
    = (Py.Return l, st')
    /\ feedback_sessions st' = feedback_sessions st
    /\ agent_responses st' = agent_responses st.
Proof.
  intros Hkeys.
  unfold FeedbackRepository.create_or_update_learning. simpl.
  destruct (Db.select_where _ _ _) as [|[i0 l0] [|[i1 l1] rest]] eqn:Hsel; simpl.
  - eauto.
  - eauto.
  - exfalso.
    pose proof (select_where_increasing _ _ _ _ _ _ Hsel i1 l1) as Hlt.
    assert ((i0, l0) ∈ Db.select_where
              (FeedbackRepository.learning_matches pattern_type description agent_name)
              (aggregated_learnings st) 0) as H0
      by (rewrite Hsel; apply elem_of_cons; auto).
    assert ((i1, l1) ∈ Db.select_where
              (FeedbackRepository.learning_matches pattern_type description agent_name)
              (aggregated_learnings st) 0) as H1
      by (rewrite Hsel; apply elem_of_cons; right; apply elem_of_cons; auto).
    pose proof (select_where_sat _ _ _ _ _ H0) as Hk0.
    pose proof (select_where_sat _ _ _ _ _ H1) as Hk1.
    apply learning_matches_key in Hk0, Hk1.
    apply select_where_elem in H0 as [_ H0], H1 as [_ H1].
    rewrite Nat.sub_0_r in H0, H1.
    assert (i0 = i1) by (eapply Hkeys; [exact H0 | exact H1 | congruence]).
    specialize (Hlt ltac:(apply elem_of_cons; auto)). lia.
Qed.

Lemma update_feedback_cases st response_id thumbs_up feedback_text :
  store_inv st ->
  (run (FeedbackRepository.update_agent_feedback response_id thumbs_up
          feedback_text) st = (Py.Return None, st)
   /\ forall r, r ∈ agent_responses st -> AgentResponse.id r <> response_id)
  \/ (exists i r,
        agent_responses st !! i = Some r
        /\ AgentResponse.id r = response_id
        /\ run (FeedbackRepository.update_agent_feedback response_id thumbs_up
                  feedback_text) st
           = (Py.Return (Some (with_feedback r thumbs_up feedback_text)),
              mkStore (feedback_sessions st)
                (<[i := with_feedback r thumbs_up feedback_text]>
                   (agent_responses st))
                (aggregated_learnings st) (next_uuid st))).
Proof.
  intros Hinv. unfold FeedbackRepository.update_agent_feedback. simpl.
  destruct (select_by_id AgentResponse.id (agent_responses st) response_id
              (inv_response_ids st Hinv))
    as [[Hsel Hnone]|(i & r & Hi & Hid & Hsel)]; rewrite Hsel.
  - by left.
  - right. by exists i, r.
Qed.

(** X5: on a store that the repository has built,
    [update_agent_feedback] for an id that no turn has returns [None] and
    changes nothing; for the id of a stored turn it sets [thumbs_up] and
    [feedback_text] on that turn and changes nothing else: the text, the
    agent, the order and all the other rows stay as they are. *)
Theorem update_feedback_behaviour ops response_id thumbs_up feedback_text :
  let st := apply_ops empty_store ops in
  let call := FeedbackRepository.update_agent_feedback response_id thumbs_up
                feedback_text in
  (run call st = (Py.Return None, st)
   /\ forall r, r ∈ agent_responses st -> AgentResponse.id r <> response_id)
  \/ (exists i r,
        agent_responses st !! i = Some r
        /\ AgentResponse.id r = response_id
        /\ run call st
           = (Py.Return
                (Some (AgentResponse.mk response_id (AgentResponse.session_id r)
                         (AgentResponse.agent_name r)
                         (AgentResponse.response_text r)
                         (AgentResponse.order r) (Some thumbs_up) feedback_text
                         (AgentResponse.created_at r))),
              mkStore (feedback_sessions st)
                (<[i := AgentResponse.mk response_id (AgentResponse.session_id r)
                          (AgentResponse.agent_name r)
                          (AgentResponse.response_text r)
                          (AgentResponse.order r) (Some thumbs_up) feedback_text
                          (AgentResponse.created_at r)]>
                   (agent_responses st))
                (aggregated_learnings st) (next_uuid st))).
Proof.
  intros st call.
  pose proof (store_inv_steps ops empty_store store_inv_empty) as Hinv.
  fold st in Hinv.
  destruct (update_feedback_cases st response_id thumbs_up feedback_text Hinv)
    as [Hnone|(i & r & Hi & Hid & Hrun)]; [by left|].
  right. exists i, r. unfold with_feedback in Hrun. rewrite Hid in Hrun. done.
Qed.

Lemma submit_feedback_body_eq feedback_request now st :
  Routes.submit_feedback feedback_request now st
  = match turns (Routes.session_id feedback_request)
            (Routes.agent_name feedback_request) st with
    | [] =>
        (inl (Routes.mkHTTPException 404
                (Routes.AgentResponseNotFound
                   (Routes.agent_name feedback_request)
                   (Routes.session_id feedback_request))), st)
    | [(_, agent_response)] =>
        match run (FeedbackRepository.update_agent_feedback
                     (AgentResponse.id agent_response)
                     (Routes.thumbs_up feedback_request)
                     (Routes.feedback_text feedback_request)) st with
        | (Py.Raise e, st1) =>
            (inl (Routes.mkHTTPException 500
                    (Routes.FeedbackSubmissionError (Py.str_of_exn e))), st1)
        | (Py.Return None, st1) =>
            (inl (Routes.mkHTTPException 404 Routes.FailedToUpdateAgentResponse), st1)
        | (Py.Return (Some updated_response), st1) =>
            match run (FeedbackRepository.create_or_update_learning
                         (Routes.pattern_type_of (Routes.thumbs_up feedback_request))
                         (Routes.description_of (Routes.thumbs_up feedback_request)
                            (Routes.feedback_text feedback_request))
                         (AgentResponse.agent_name updated_response)
                         (Routes.confidence_score_of
                            (Routes.thumbs_up feedback_request)) now) st1 with
            | (Py.Raise e, st2) =>
                (inl (Routes.mkHTTPException 500
                        (Routes.FeedbackSubmissionError (Py.str_of_exn e))), st2)
            | (Py.Return _, st2) => (inr (AgentResponse.id updated_response), st2)
            end
        end
    | _ :: _ :: _ =>
        (inl (Routes.mkHTTPException 500
                (Routes.FeedbackSubmissionError
                   (Py.str_of_exn Py.MultipleResultsFound))), st)
    end.
Proof.
  unfold Routes.submit_feedback, turns,
    FeedbackRepository.get_agent_response_by_session_and_name.
  rewrite !run_bind. cbn [Db.get run].
  destruct (Db.select_where _ (agent_responses st) 0)
    as [|[i0 r0] [|y rest]]; [reflexivity| |reflexivity].
  cbn [Db.scalar_one_or_none mret db_ret run]. rewrite run_bind.
  destruct (run (FeedbackRepository.update_agent_feedback _ _ _) st)
    as [[e|[updated|]] st1]; [reflexivity| |reflexivity].
  rewrite run_bind.
  by destruct (run (FeedbackRepository.create_or_update_learning _ _ _ _ _) st1)
    as [[e|l] st2].
Qed.

(** X6: on a store that the repository has built, the outcome of
    [submit_feedback] is decided by the turns recorded for the session
    and the agent.  With none, the answer is 404 and nothing changes;
    with exactly one, the call succeeds, the feedback is set on that
    turn, the other turns and the sessions stay as they are, and the
    learning patterns are those left by [create_or_update_learning];
    with two or more, the answer is 500 and nothing changes. *)
Theorem submit_feedback_outcomes ops feedback_request now :
  let st := apply_ops empty_store ops in
  let session_id := Routes.session_id feedback_request in
  let agent_name := Routes.agent_name feedback_request in
  let thumbs_up := Routes.thumbs_up feedback_request in
  let feedback_text := Routes.feedback_text feedback_request in
  match turns session_id agent_name st with
  | [] =>
      Routes.submit_feedback feedback_request now st
      = (inl (Routes.mkHTTPException 404
                (Routes.AgentResponseNotFound agent_name session_id)), st)
  | [(i, turn)] =>
      exists learning st',
        Routes.submit_feedback feedback_request now st
        = (inr (AgentResponse.id turn), st')
        /\ feedback_sessions st' = feedback_sessions st
        /\ agent_responses st'
           = <[i := AgentResponse.mk (AgentResponse.id turn)
                      (AgentResponse.session_id turn)
                      (AgentResponse.agent_name turn)
                      (AgentResponse.response_text turn)
                      (AgentResponse.order turn) (Some thumbs_up) feedback_text
                      (AgentResponse.created_at turn)]> (agent_responses st)
        /\ run (FeedbackRepository.create_or_update_learning
                  (if thumbs_up then "positive_feedback" else "negative_feedback")
                  (Routes.description_of thumbs_up feedback_text)
                  (AgentResponse.agent_name turn)
                  (if thumbs_up then 8 # 10 else 3 # 10) now) st
           = (Py.Return learning,
              mkStore (feedback_sessions st) (agent_responses st)
                (aggregated_learnings st') (next_uuid st'))
  | _ :: _ :: _ =>
      Routes.submit_feedback feedback_request now st
      = (inl (Routes.mkHTTPException 500
                (Routes.FeedbackSubmissionError
                   "Multiple rows were found when one or none was required")), st)
  end.
Proof.
  intros st session_id agent_name thumbs_up feedback_text.
  pose proof (store_inv_steps ops empty_store store_inv_empty) as Hinv.
  fold st in Hinv.
  rewrite submit_feedback_body_eq.
  fold session_id agent_name thumbs_up feedback_text.
  destruct (turns session_id agent_name st) as [|[i turn] [|y rest]] eqn:Hturns;
    [reflexivity| |reflexivity].
  apply select_head in Hturns as [Hi _].
  destruct (update_feedback_cases st (AgentResponse.id turn) thumbs_up
              feedback_text Hinv) as [[_ Hnone]|(i' & r & Hi' & Hid & Hrun)].
  { exfalso. eapply Hnone; [|done]. by eapply list_elem_of_lookup_2. }
  assert (i' = i) as ->.
  { eapply NoDup_lookup; [exact (inv_response_ids st Hinv)| |].
    - rewrite list_lookup_fmap, Hi'. simpl. by rewrite Hid.
    - by rewrite list_lookup_fmap, Hi. }
  assert (r = turn) as -> by congruence.
  rewrite Hrun. set (st1 := mkStore _ _ _ _).
  destruct (upsert_returns st1 (Routes.pattern_type_of thumbs_up)
              (Routes.description_of thumbs_up feedback_text)
              (AgentResponse.agent_name turn)
              (Routes.confidence_score_of thumbs_up) now)
    as (l & st' & Hup & Hs' & Hr'); [exact (inv_keys st Hinv)|].
  cbn [with_feedback AgentResponse.agent_name AgentResponse.id]. rewrite Hup.
  exists l, st'. split; [done|]. split; [done|]. split; [done|].
  revert Hup. unfold FeedbackRepository.create_or_update_learning.
  change (if thumbs_up then "positive_feedback" else "negative_feedback")
    with (Routes.pattern_type_of thumbs_up).
  change (if thumbs_up then 8 # 10 else 3 # 10)
    with (Routes.confidence_score_of thumbs_up).
  simpl.
  destruct (Db.select_where _ _ _) as [|[i0 l0] [|z rest]]; simpl;
    [| |done]; by intros [= <- <-].
Qed.

(** X7: whatever the store, once two turns are recorded for a session
    and an agent, [submit_feedback] for that agent answers 500 and
    changes nothing: the feedback is not stored and no learning pattern
    is made. *)
Theorem duplicate_turns_block_feedback st feedback_request now :
  (2 <= turns_of (Routes.session_id feedback_request)
          (Py.lower (Routes.agent_name feedback_request)) st)%nat ->
  Routes.submit_feedback feedback_request now st
  = (inl (Routes.mkHTTPException 500
            (Routes.FeedbackSubmissionError
               "Multiple rows were found when one or none was required")), st).
Proof.
  rewrite <- turns_length, submit_feedback_body_eq.
  destruct (turns _ _ st) as [|[i r] [|y rest]]; simpl; [lia | lia |].
  intros _. reflexivity.
Qed.

Lemma duplicate_turns_block_feedback_witness :
  Routes.submit_feedback
    (Routes.mkAgentFeedbackRequest 1 "Critic" true None) 40
    (mkStore [FeedbackSession.mk 1 7 "in_progress" 10 None]
       [AgentResponse.mk 2 1 "critic" "Too vague" 1 None None 20;
        AgentResponse.mk 3 1 "critic" "Too vague" 1 None None 30] [] 4)
  = (inl (Routes.mkHTTPException 500
            (Routes.FeedbackSubmissionError
               "Multiple rows were found when one or none was required")),
     mkStore [FeedbackSession.mk 1 7 "in_progress" 10 None]
       [AgentResponse.mk 2 1 "critic" "Too vague" 1 None None 20;
        AgentResponse.mk 3 1 "critic" "Too vague" 1 None None 30] [] 4).
Proof.
  apply (duplicate_turns_block_feedback
           (mkStore [FeedbackSession.mk 1 7 "in_progress" 10 None]
              [AgentResponse.mk 2 1 "critic" "Too vague" 1 None None 20;
               AgentResponse.mk 3 1 "critic" "Too vague" 1 None None 30] [] 4)
           (Routes.mkAgentFeedbackRequest 1 "Critic" true None) 40).
  vm_compute. lia.
Defined.

(** X8: a turn that [add_agent_response] has recorded for an agent that
    had none in the session is the turn that
    [get_agent_response_by_session_and_name] finds for the session,
    under any spelling of the agent's name that differs only in case. *)
Theorem recorded_turn_is_found st session_id agent_name response_text order now
    spelling :
  Py.blank agent_name = false ->
  Py.blank response_text = false ->
  (0 <= order)%Z ->
  turns_of session_id (Py.lower agent_name) st = 0%nat ->
  Py.lower spelling = Py.lower agent_name ->
  exists turn st',
    run (FeedbackRepository.add_agent_response (Some session_id) agent_name
           response_text order now) st = (Py.Return turn, st')
    /\ run (FeedbackRepository.get_agent_response_by_session_and_name
              session_id spelling) st'
       = (Py.Return (Some (length (agent_responses st), turn)), st').
Proof.
  intros Hname Htext Horder Hnone Hspelling. eexists _, _.
  split; [by apply add_agent_response_valid|].
  unfold FeedbackRepository.get_agent_response_by_session_and_name.
  rewrite run_bind. cbn [Db.get run agent_responses].
  rewrite Hspelling.
  rewrite (select_where_unique _ _ 0 (length (agent_responses st))
             (AgentResponse.mk (next_uuid st) session_id (Py.lower agent_name)
                response_text order None None now)).
  - reflexivity.
  - by apply list_lookup_middle.
  - simpl. by rewrite Z.eqb_refl, String.eqb_refl.
  - intros j r Hj Hr.
    destruct (decide (j < length (agent_responses st))%nat) as [Hlt|Hge].
    + rewrite lookup_app_l in Hj by done. exfalso.
      unfold turns_of in Hnone. apply length_zero_iff_nil in Hnone.
      assert (r ∈ List.filter
                (fun r => (AgentResponse.session_id r =? session_id)%Z
                          && String.eqb (AgentResponse.agent_name r)
                               (Py.lower agent_name))
                (agent_responses st)) as Hin.
      { apply list_elem_of_In, List.filter_In. split; [|done].
        apply list_elem_of_In. by eapply list_elem_of_lookup_2. }
      rewrite Hnone in Hin. by apply elem_of_nil in Hin.
    + apply lookup_lt_Some in Hj. rewrite length_app in Hj. simpl in Hj. lia.
Qed.

Lemma recorded_turn_is_found_witness :
  exists turn st',
    run (FeedbackRepository.add_agent_response (Some 1%Z) "Critic"
           "Too vague" 1 20)
        (mkStore [FeedbackSession.mk 1 7 "in_progress" 10 None] [] [] 2)
    = (Py.Return turn, st')
    /\ run (FeedbackRepository.get_agent_response_by_session_and_name
              1 "CRITIC") st'
       = (Py.Return (Some (length (@nil AgentResponse.t), turn)), st').
Proof.
  apply (recorded_turn_is_found
           (mkStore [FeedbackSession.mk 1 7 "in_progress" 10 None] [] [] 2)
           1%Z "Critic" "Too vague" 1%Z 20%Z "CRITIC").
  - reflexivity.
  - reflexivity.
  - lia.
  - reflexivity.
  - reflexivity.
Defined.

(* ================================================================== *)
(** * Further properties of the routes *)
(* ================================================================== *)

Lemma apply_ops_app st ops1 ops2 :
  apply_ops st (ops1 ++ ops2) = apply_ops (apply_ops st ops1) ops2.
Proof. apply foldl_app. Qed.

(** The body of the consumer's loop writes, if at all, through
    [add_agent_response], and raises nothing but its [ValueError]. *)
Lemma on_event_effect session_id now e (ar : gmap string string) st :
  exists ops,
    (run (Routes.on_event session_id now e ar) st).2 = apply_ops st ops
    /\ Forall (stream_op session_id now) ops
    /\ feedback_sessions (apply_ops st ops) = feedback_sessions st
    /\ (forall err,
          (run (Routes.on_event session_id now e ar) st).1 = Py.Raise err ->
          apply_ops st ops = st).
Proof.
  unfold Routes.on_event. rewrite run_bind.
  destruct (Graph.is_complete e
            && negb (String.eqb (Graph.agent_name e) "Workflow")) eqn:Hc.
  - destruct (ar !! Graph.agent_name e) as [text|] eqn:Har.
    + rewrite run_bind.
      exists [AddAgentResponse (Some session_id) (Graph.agent_name e) text
                (Graph.order e) now].
      assert (apply_ops st
                [AddAgentResponse (Some session_id) (Graph.agent_name e) text
                   (Graph.order e) now]
              = (run (FeedbackRepository.add_agent_response (Some session_id)
                        (Graph.agent_name e) text (Graph.order e) now) st).2)
        as Happly by reflexivity.
      rewrite Happly.
      unfold FeedbackRepository.add_agent_response.
      destruct (Py.blank (Graph.agent_name e)), (Py.blank text),
        (Graph.order e <? 0)%Z, (Graph.is_complete e); simpl;
        (split; [reflexivity|]);
        (split; [apply List.Forall_cons; [left; eauto | apply List.Forall_nil]|]);
        (split; [done|]);
        try done; intros err; discriminate.
    + exists []. destruct (Graph.is_complete e); simpl;
        (split; [reflexivity|]); (split; [constructor|]); (split; [done|]); done.
  - exists []. destruct (Graph.is_complete e); simpl;
      (split; [reflexivity|]); (split; [constructor|]); (split; [done|]); done.
Qed.

(** The loop sends the events it has handled and stops at the first
    whose body raises; it writes only through [add_agent_response], and
    leaves the sessions as they are. *)
Lemma consume_effect session_id now evs :
  forall (ar : gmap string string) st,
  exists sent ops,
    (Routes.consume session_id now evs ar st).1.1 = map Routes.Data sent
    /\ sent `prefix_of` evs
    /\ ((Routes.consume session_id now evs ar st).1.2 = Py.Return tt ->
        sent = evs)
    /\ (Routes.consume session_id now evs ar st).2 = apply_ops st ops
    /\ Forall (stream_op session_id now) ops
    /\ feedback_sessions (apply_ops st ops) = feedback_sessions st.
Proof.
  induction evs as [|e evs IH]; intros ar st.
  - exists [], []. simpl. by repeat split.
  - rewrite consume_cons.
    destruct (on_event_effect session_id now e ar st)
      as (ops1 & Hst & Hops1 & Hsess1 & Hraise).
    destruct (run (Routes.on_event session_id now e ar) st) as [[err|ar'] st1].
    + exists [], ops1. simpl in *. repeat split; try done.
      apply prefix_nil.
    + destruct (IH ar' st1) as (sent & ops2 & Hout & Hpre & Hall & Hst2 & Hops2 & Hsess2).
      exists (e :: sent), (ops1 ++ ops2). simpl in Hst. subst st1.
      unfold prepend. cbn [fst snd]. rewrite Hout. repeat split.
      * by apply prefix_cons.
      * intros Hret. f_equal. by apply Hall.
      * by rewrite apply_ops_app.
      * by apply Forall_app.
      * rewrite apply_ops_app. congruence.
Qed.

Lemma data_not_error sent message :
  Routes.Error message ∉ map Routes.Data sent.
Proof. intros (e & He & _)%list_elem_of_fmap. discriminate. Qed.

(** X9: the stream of a session.  The events sent are events of the
    debate, in order and from the first on, followed by at most one
    error event, which is then the last.  When there is an error event
    no session is changed: the session is not completed, and its status
    is not set to failed either.  When there is none, every event of
    the debate has been sent, the debate has ended normally, and the
    store is the one that [complete_feedback_session] leaves after the
    turns have been recorded. *)
Theorem stream_shape llm session_id r j mc now st :
  let debate := Graph.execute_debate llm r j (Some mc) in
  let evs := Graph.events (Graph.trace debate) in
  let out := (Routes.generate_stream llm session_id r j mc now st).1 in
  let st' := (Routes.generate_stream llm session_id r j mc now st).2 in
  (exists sent tail,
     out = map Routes.Data sent ++ tail
     /\ sent `prefix_of` evs
     /\ (tail = [] \/ exists message, tail = [Routes.Error message]))
  /\ (has_error out -> feedback_sessions st' = feedback_sessions st)
  /\ (~ has_error out ->
      out = map Routes.Data evs
      /\ Graph.outcome debate = Py.Return tt
      /\ exists completed_session,
           run (FeedbackRepository.complete_feedback_session session_id now)
               (Routes.consume session_id now evs ∅ st).2
           = (Py.Return completed_session, st')).
Proof.
  intros debate evs out st'. subst out st'.
  unfold Routes.generate_stream. fold debate. fold evs.
  destruct (consume_effect session_id now evs ∅ st)
    as (sent & ops & Hout & Hpre & Hall & Hst & Hops & Hsess).
  destruct (Routes.consume session_id now evs ∅ st) as [[out res] st1].
  cbn [fst snd] in *. subst out.
  assert (forall sent' message,
            has_error (map Routes.Data sent' ++ [Routes.Error message]))
    as Herr.
  { intros sent' message. exists message. apply elem_of_app. right.
    by apply list_elem_of_singleton. }
  destruct res as [e|[]].
  { cbn [fst snd]. split; [|split].
    - exists sent, [Routes.Error (Py.str_of_exn e)]. eauto.
    - intros _. congruence.
    - intros Hno. exfalso. by apply Hno, Herr. }
  specialize (Hall eq_refl). subst sent.
  destruct (Graph.outcome debate) as [e|[]].
  { cbn [fst snd]. split; [|split].
    - exists evs, [Routes.Error (Py.str_of_exn e)]. eauto.
    - intros _. congruence.
    - intros Hno. exfalso. by apply Hno, Herr. }
  destruct (run (FeedbackRepository.complete_feedback_session session_id now) st1)
    as [[e|completed_session] st2] eqn:Hcomplete; cbn [fst snd].
  - split; [|split].
    + exists evs, [Routes.Error (Py.str_of_exn e)]. eauto.
    + intros _.
      assert (st2 = st1) as ->; [|congruence].
      revert Hcomplete.
      unfold FeedbackRepository.complete_feedback_session,
        FeedbackRepository.get_feedback_session_by_id. simpl.
      destruct (Db.select_where _ _ _) as [|[i0 s0] [|y rest]]; simpl;
        congruence.
    + intros Hno. exfalso. by apply Hno, Herr.
  - split; [|split].
    + exists evs, []. rewrite app_nil_r. eauto.
    + intros [message Hin]. by apply data_not_error in Hin.
    + intros _. eauto.
Qed.

(** X10: the routes write to the store only through the operations of
    the repository.  What [generate_stream] leaves is what a sequence of
    [add_agent_response] calls for the session, followed or not by
    [complete_feedback_session], leaves; what [submit_feedback] leaves is
    what [update_agent_feedback] and [create_or_update_learning] calls
    for the request leave. *)
Theorem routes_write_through_repository st :
  (forall llm session_id r j mc now,
     exists ops,
       (Routes.generate_stream llm session_id r j mc now st).2 = apply_ops st ops
       /\ Forall (stream_op session_id now) ops)
  /\ (forall feedback_request now,
        exists ops,
          (Routes.submit_feedback feedback_request now st).2 = apply_ops st ops
          /\ Forall (feedback_op feedback_request now) ops).
Proof.
  split.
  - intros llm session_id r j mc now. unfold Routes.generate_stream.
    set (evs := Graph.events _).
    destruct (consume_effect session_id now evs ∅ st)
      as (sent & ops & _ & _ & _ & Hst & Hops & _).
    destruct (Routes.consume session_id now evs ∅ st) as [[out res] st1].
    cbn [fst snd] in *.
    destruct res as [e|[]]; [by exists ops|].
    destruct (Graph.outcome _) as [e|[]]; [by exists ops|].
    exists (ops ++ [CompleteFeedbackSession session_id now]).
    split.
    + rewrite apply_ops_app, <- Hst.
      change (apply_ops st1 [CompleteFeedbackSession session_id now])
        with (run (FeedbackRepository.complete_feedback_session session_id now)
                  st1).2.
      by destruct (run _ st1) as [[e|s] st2].
    + apply Forall_app. split; [done|].
      apply List.Forall_cons; [by right | apply List.Forall_nil].
  - intros feedback_request now. rewrite submit_feedback_body_eq.
    destruct (turns _ _ st) as [|[i turn] [|y rest]];
      [by exists [] | | by exists []].
    set (update := UpdateAgentFeedback (AgentResponse.id turn)
                     (Routes.thumbs_up feedback_request)
                     (Routes.feedback_text feedback_request)).
    assert (feedback_op feedback_request now update) as Hupdate
      by (left; eauto).
    assert ((run (FeedbackRepository.update_agent_feedback
                    (AgentResponse.id turn) (Routes.thumbs_up feedback_request)
                    (Routes.feedback_text feedback_request)) st).2
            = apply_ops st [update]) as Hst1 by reflexivity.
    destruct (run (FeedbackRepository.update_agent_feedback _ _ _) st)
      as [[e|[updated|]] st1]; cbn [snd] in Hst1.
    + exists [update]. split; [done|].
      apply List.Forall_cons; [done | apply List.Forall_nil].
    + set (upsert := CreateOrUpdateLearning
                       (Routes.pattern_type_of (Routes.thumbs_up feedback_request))
                       (Routes.description_of (Routes.thumbs_up feedback_request)
                          (Routes.feedback_text feedback_request))
                       (AgentResponse.agent_name updated)
                       (Routes.confidence_score_of
                          (Routes.thumbs_up feedback_request)) now).
      exists [update; upsert]. split.
      * change [update; upsert] with ([update] ++ [upsert]).
        rewrite apply_ops_app, <- Hst1.
        change (apply_ops st1 [upsert])
          with (run (FeedbackRepository.create_or_update_learning
                       (Routes.pattern_type_of (Routes.thumbs_up feedback_request))
                       (Routes.description_of (Routes.thumbs_up feedback_request)
                          (Routes.feedback_text feedback_request))
                       (AgentResponse.agent_name updated)
                       (Routes.confidence_score_of
                          (Routes.thumbs_up feedback_request)) now) st1).2.
        by destruct (run _ st1) as [[e|l] st2].
      * apply List.Forall_cons; [done|].
        apply List.Forall_cons; [right; by eexists | apply List.Forall_nil].
    + exists [update]. split; [done|].
      apply List.Forall_cons; [done | apply List.Forall_nil].
Qed.

(* ================================================================== *)
(** * Further properties of the debate and of the templates *)
(* ================================================================== *)

Lemma calls_app tr1 tr2 : calls (tr1 ++ tr2) = calls tr1 ++ calls tr2.
Proof. apply List.filter_app. Qed.

Lemma calls_open_phase name order sp um mc frags :
  calls (open_phase name order sp um mc frags) = [Graph.LLMCall sp um name mc].
Proof.
  unfold calls, open_phase. simpl. f_equal.
  induction frags as [|c frags IH]; simpl; done.
Qed.

Lemma calls_closed_phase name order sp um mc frags :
  calls (closed_phase name order sp um mc frags) = [Graph.LLMCall sp um name mc].
Proof.
  unfold closed_phase. by rewrite calls_app, calls_open_phase.
Qed.

(** Rewrites the completion calls of a trace that is given phase by
    phase. *)
Ltac read_calls :=
  rewrite ?calls_app, ?calls_closed_phase, ?calls_open_phase;
  cbn [calls List.filter is_call app omap called_agent].

(** X11: the completion calls of a run of [execute_debate].  They are
    made for the Critic, the Advocate and the Realist, in this order and
    at most once each; each carries the system prompt of its agent for
    the memory context of the run, that memory context, and the user
    message that the agent's template makes of the inputs, which for the
    Realist include the texts streamed for the Critic and for the
    Advocate.  A call whose stream fails is the last call of the run,
    and the run ends with the [RuntimeError] of that failure; and a run
    that ends normally has made the three calls. *)
Theorem debate_calls llm r j mc0 :
  let debate := Graph.execute_debate llm r j mc0 in
  let tr := Graph.trace debate in
  let evs := Graph.events tr in
  let mc := default [] mc0 in
  omap called_agent (calls tr) `prefix_of` ["Critic"; "Advocate"; "Realist"]
  /\ (forall sp um n mc',
        Graph.LLMCall sp um n mc' ∈ tr ->
        mc' = mc
        /\ (n = "Critic" /\ sp = CriticAgent.get_system_prompt (Some mc)
            /\ CriticAgent.format_user_message r j = Py.Return um
            \/ n = "Advocate" /\ sp = AdvocateAgent.get_system_prompt (Some mc)
               /\ AdvocateAgent.format_user_message r j = Py.Return um
            \/ n = "Realist" /\ sp = RealistAgent.get_system_prompt (Some mc)
               /\ RealistAgent.format_user_message r j
                    (streamed_text "Critic" evs) (streamed_text "Advocate" evs)
                  = Py.Return um))
  /\ (forall sp um n mc' err,
        Graph.LLMCall sp um n mc' ∈ tr ->
        LLMService.failure (LLMService.generate_agent_response llm sp um n mc')
        = Some err ->
        Graph.outcome debate = Py.Raise (Py.RuntimeError err)
        /\ last (calls tr) = Some (Graph.LLMCall sp um n mc'))
  /\ (Graph.outcome debate = Py.Return tt ->
      omap called_agent (calls tr) = ["Critic"; "Advocate"; "Realist"]).
Proof.
  intros debate tr evs mc. subst evs tr debate mc.
  run_cases llm r j mc0; read_calls.
  all: split; [by (eexists; reflexivity)|].
  all: split; [|split].
  all: try (intros; discriminate).
  all: try reflexivity.
  all: try (intros sp um n mc' Hin; split_call Hin; try done; subst;
            (split; [reflexivity|]); read_events; tauto).
  all: intros sp um n mc' err' Hin Hfail; split_call Hin; try done; subst;
    rewrite ?Hsc, ?Hsa, ?Hsr in Hfail; try congruence.
  all: split; [congruence | reflexivity].
Qed.

(** X12: each of the three templates accepts its inputs exactly when
    each of them has a character that is not whitespace; otherwise it
    raises a [ValueError].  The Critic's and the Advocate's templates
    accept the same inputs. *)
Theorem templates_accept_nonblank r j c a :
  ((exists m, CriticAgent.format_user_message r j = Py.Return m)
   <-> all_space r = false /\ all_space j = false)
  /\ ((exists m, AdvocateAgent.format_user_message r j = Py.Return m)
      <-> all_space r = false /\ all_space j = false)
  /\ ((exists m, RealistAgent.format_user_message r j c a = Py.Return m)
      <-> all_space r = false /\ all_space j = false
          /\ all_space c = false /\ all_space a = false)
  /\ ((exists m, CriticAgent.format_user_message r j = Py.Return m)
      \/ exists msg, CriticAgent.format_user_message r j
                     = Py.Raise (Py.ValueError msg))
  /\ ((exists m, AdvocateAgent.format_user_message r j = Py.Return m)
      \/ exists msg, AdvocateAgent.format_user_message r j
                     = Py.Raise (Py.ValueError msg))
  /\ ((exists m, RealistAgent.format_user_message r j c a = Py.Return m)
      \/ exists msg, RealistAgent.format_user_message r j c a
                     = Py.Raise (Py.ValueError msg)).
Proof.
  unfold CriticAgent.format_user_message, AdvocateAgent.format_user_message,
    RealistAgent.format_user_message.
  rewrite <- !blank_spec.
  destruct (Py.blank r), (Py.blank j), (Py.blank c), (Py.blank a);
    repeat match goal with
    | |- _ /\ _ => split
    | |- _ <-> _ => split
    | |- _ -> _ => intros
    | H : exists _, _ |- _ => destruct H
    | H : _ /\ _ |- _ => destruct H
    end; try discriminate; eauto.
Qed.

(* ================================================================== *)
(** * The query for the learning patterns *)
(* ================================================================== *)

#[local] Instance learning_precedes_trans :
  Transitive FeedbackRepository.learning_precedes.
Proof. intros x y z. unfold FeedbackRepository.learning_precedes. lia. Qed.

#[local] Instance learning_precedes_total :
  Total FeedbackRepository.learning_precedes.
Proof. intros x y. unfold FeedbackRepository.learning_precedes. lia. Qed.

#[local] Instance uploaded_after_trans :
  Transitive ResumeRepository.uploaded_after.
Proof. intros x y z. unfold ResumeRepository.uploaded_after. lia. Qed.

#[local] Instance uploaded_after_total : Total ResumeRepository.uploaded_after.
Proof. intros x y. unfold ResumeRepository.uploaded_after. lia. Qed.

Lemma take_sorted_top_ranked {A} (R : relation A)
  `{!RelDecision R, !Transitive R, !Total R} (k : nat) (rows : list A) :
  top_ranked R k rows (take k (merge_sort R rows)).
Proof.
  exists (drop k (merge_sort R rows)).
  pose proof (StronglySorted_merge_sort R rows) as Hs.
  rewrite <- (take_drop k (merge_sort R rows)) in Hs.
  split; [by rewrite take_drop; apply merge_sort_Permutation|].
  split; [by rewrite length_take, (Permutation_length (merge_sort_Permutation R rows))|].
  split; [by apply StronglySorted_app_1_l in Hs|].
  intros x y Hx Hy. by apply (StronglySorted_app_1_elem_of R _ _ x y Hs).
Qed.

Lemma filter_true {A} (l : list A) : List.filter (fun _ => true) l = l.
Proof. induction l; simpl; congruence. Qed.

Lemma get_learnings_top_ranked agent_name limit st :
  exists result,
    run (FeedbackRepository.get_aggregated_learnings agent_name limit) st
    = (Py.Return result, st)
    /\ top_ranked FeedbackRepository.learning_precedes limit
         (List.filter (wanted_by agent_name) (aggregated_learnings st)) result.
Proof.
  eexists. split; [reflexivity|].
  destruct agent_name as [name|]; simpl.
  - unfold wanted_by. destruct (Py.truthy name).
    + apply take_sorted_top_ranked; apply _.
    + rewrite filter_true. apply take_sorted_top_ranked; apply _.
  - unfold wanted_by. rewrite filter_true. apply take_sorted_top_ranked; apply _.
Qed.


(* ================================================================== *)
(** * The resumes *)
(* ================================================================== *)

Lemma rstrip_idemp s : Py.rstrip (Py.rstrip s) = Py.rstrip s.
Proof.
  induction s as [|c s IH]; simpl; [done|].
  destruct (Py.rstrip s) as [|d r] eqn:Er.
  - destruct (Py.isspace c) eqn:Ec; simpl; [done | by rewrite Ec].
  - remember (String d r) as t. simpl. rewrite IH. by subst t.
Qed.

Lemma rstrip_head c t :
  Py.isspace c = false -> exists u, Py.rstrip (String c t) = String c u.
Proof.
  intros Hc. simpl. destruct (Py.rstrip t); [rewrite Hc|]; eauto.
Qed.

Lemma strip_cases s :
  (all_space s = true /\ Py.strip s = "")
  \/ (all_space s = false
      /\ exists c u, Py.strip s = String c u /\ Py.isspace c = false).
Proof.
  unfold Py.strip. destruct (all_space s) eqn:E.
  - left. by rewrite (lstrip_all_space s E).
  - right. split; [done|].
    destruct (lstrip_not_all_space s E) as (c & t & -> & Hc).
    destruct (rstrip_head c t Hc) as [u Hu]. eauto.
Qed.

Lemma strip_idemp s : Py.strip (Py.strip s) = Py.strip s.
Proof.
  destruct (strip_cases s) as [[_ ->]|[_ (c & u & Hs & Hc)]]; [done|].
  unfold Py.strip at 1. rewrite Hs. simpl Py.lstrip. rewrite Hc.
  rewrite <- Hs. unfold Py.strip. apply rstrip_idemp.
Qed.

Lemma blank_strip s : Py.blank (Py.strip s) = Py.blank s.
Proof.
  rewrite !blank_spec.
  destruct (strip_cases s) as [[-> ->]|[-> (c & u & -> & Hc)]]; [done|].
  simpl. by rewrite Hc.
Qed.

Lemma strip_trimmed s : Py.blank s = false -> trimmed (Py.strip s).
Proof. intros H. split; [by rewrite blank_strip | apply strip_idemp]. Qed.

(** ** What each operation does to the database *)

Lemma next_uuid_step op st :
  store_inv st -> (next_uuid st <= next_uuid (apply_op st op))%Z.
Proof.
  intros Hinv. destruct op; unfold apply_op.
  - destruct resume_id; simpl; lia.
  - unfold FeedbackRepository.add_agent_response.
    destruct session_id; simpl; [|lia].
    repeat (match goal with |- context [if ?b then _ else _] => destruct b end;
            simpl; try lia).
  - destruct (complete_session_cases st session_id now Hinv)
      as [[-> _]|(i & s & _ & _ & ->)]; simpl; lia.
  - destruct (update_feedback_cases st response_id thumbs_up feedback_text Hinv)
      as [[-> _]|(i & r & _ & _ & ->)]; simpl; lia.
  - unfold FeedbackRepository.create_or_update_learning. simpl.
    destruct (Db.select_where _ _ _) as [|[i0 l0] [|[i1 l1] rest]]; simpl; lia.
Qed.

Lemma filter_sublist {A} (p : A -> bool) (l : list A) :
  List.filter p l `sublist_of` l.
Proof.
  induction l as [|x l IH]; simpl; [constructor|].
  destruct (p x); by constructor.
Qed.

Lemma sublist_keys {A} (key : A -> Z) (l l' : list A) :
  l' `sublist_of` l -> NoDup (map key l) -> NoDup (map key l').
Proof.
  intros Hsub Hnodup. eapply sublist_NoDup; [exact Hnodup|].
  by apply fmap_sublist.
Qed.

Lemma sublist_all {A} (P : A -> Prop) (l l' : list A) :
  l' `sublist_of` l -> Forall P l -> Forall P l'.
Proof.
  intros Hsub Hall. rewrite Forall_forall in *. intros x Hx.
  apply Hall. by eapply elem_of_sublist.
Qed.

Lemma create_resume_run filename text_content s3_url job_description now db :
  run_tx (ResumeRepository.create_resume filename text_content s3_url
            job_description now) db
  = if Py.blank filename then
      (Py.Raise (Py.ValueError "Filename is required"), db)
    else if Py.blank text_content then
      (Py.Raise (Py.ValueError "Text content is required"), db)
    else if Py.blank s3_url then
      (Py.Raise (Py.ValueError "S3 URL is required"), db)
    else if Py.blank job_description then
      (Py.Raise (Py.ValueError "Job description is required"), db)
    else
      let resume := created_resume filename text_content s3_url job_description
                      now db in
      (Py.Return resume, with_resume resume db).
Proof.
  unfold ResumeRepository.create_resume.
  destruct (Py.blank filename); [done|].
  destruct (Py.blank text_content); [done|].
  destruct (Py.blank s3_url); [done|].
  destruct (Py.blank job_description); [done|].
  by destruct db.
Qed.

Lemma get_resume_cases db resume_id :
  NoDup (map Resume.id (resumes db)) ->
  (run_tx (ResumeRepository.get_resume_by_id resume_id) db = (Py.Return None, db)
   /\ forall r, r ∈ resumes db -> Resume.id r <> resume_id)
  \/ (exists i r,
        resumes db !! i = Some r
        /\ Resume.id r = resume_id
        /\ run_tx (ResumeRepository.get_resume_by_id resume_id) db
           = (Py.Return (Some (i, r)), db)).
Proof.
  intros Hnodup. unfold ResumeRepository.get_resume_by_id.
  destruct db as [rs st]. simpl in *.
  destruct (select_by_id Resume.id rs resume_id Hnodup)
    as [[Hsel Hnone]|(i & r & Hi & Hid & Hsel)]; rewrite Hsel.
  - by left.
  - right. by exists i, r.
Qed.

Lemma delete_resume_cases db resume_id :
  NoDup (map Resume.id (resumes db)) ->
  (run_tx (ResumeRepository.delete_resume resume_id) db = (Py.Return false, db)
   /\ forall r, r ∈ resumes db -> Resume.id r <> resume_id)
  \/ (exists i r,
        resumes db !! i = Some r
        /\ Resume.id r = resume_id
        /\ run_tx (ResumeRepository.delete_resume resume_id) db
           = (Py.Return true, without_resume i resume_id db)).
Proof.
  intros Hnodup. unfold ResumeRepository.delete_resume.
  change (run_tx (?m ≫= ?k) db)
    with (match run_tx m db with
          | (Py.Raise e, db') => (Py.Raise e, db')
          | (Py.Return a, db') => run_tx (k a) db'
          end).
  destruct (get_resume_cases db resume_id Hnodup)
    as [[Hrun Hnone]|(i & r & Hi & Hid & Hrun)]; rewrite Hrun.
  - by left.
  - right. exists i, r. split; [done|]. split; [done|].
    subst resume_id. by destruct db.
Qed.

Lemma store_inv_weaken st :
  store_inv st ->
  store_inv (mkStore (feedback_sessions st) (agent_responses st)
               (aggregated_learnings st) (next_uuid st + 1)).
Proof.
  intros [Hs Hr Hl Hsf Hrf Hlf Hro Hlo Hk].
  split; simpl; try done; by apply fresh_weaken.
Qed.

(** Every operation keeps what holds of a database that the
    repositories have built. *)
Lemma db_inv_step op db : db_inv db -> db_inv (apply_db_op db op).
Proof.
  intros [Hst Hids Hfresh Hok]. destruct op as [f t u j now|resume_id|op];
    unfold apply_db_op.
  - rewrite create_resume_run.
    destruct (Py.blank f) eqn:Ef; [by split|].
    destruct (Py.blank t) eqn:Et; [by split|].
    destruct (Py.blank u) eqn:Eu; [by split|].
    destruct (Py.blank j) eqn:Ej; [by split|].
    cbn [snd with_resume]. split; cbn [feedback resumes next_uuid].
    + by apply store_inv_weaken.
    + by apply (keys_after_append Resume.id _ _ (next_uuid (feedback db))).
    + by apply (fresh_after_append Resume.id).
    + apply Forall_app. split; [done|].
      apply List.Forall_cons; [|apply List.Forall_nil].
      repeat split; simpl; (by rewrite blank_strip) || apply strip_idemp.
  - destruct (delete_resume_cases db resume_id Hids)
      as [[-> _]|(i & r & Hi & Hid & ->)]; [by split|].
    cbn [snd without_resume]. split; cbn [feedback resumes next_uuid].
    + destruct Hst as [Hs Hr Hl Hsf Hrf Hlf Hro Hlo Hk].
      split; simpl; try done.
      * eapply sublist_keys; [apply filter_sublist | done].
      * eapply sublist_keys; [apply filter_sublist | done].
      * eapply sublist_all; [apply filter_sublist | done].
      * eapply sublist_all; [apply filter_sublist | done].
      * eapply sublist_all; [apply filter_sublist | done].
    + eapply sublist_keys; [apply sublist_delete | done].
    + eapply sublist_all; [apply sublist_delete | done].
    + eapply sublist_all; [apply sublist_delete | done].
  - split; cbn [feedback resumes].
    + by apply store_inv_step.
    + done.
    + pose proof (next_uuid_step op _ Hst).
      eapply Forall_impl; [exact Hfresh|]. simpl. intros; lia.
    + done.
Qed.

Lemma db_inv_empty : db_inv empty_database.
Proof.
  split; simpl; [apply store_inv_empty | constructor ..].
Qed.

Lemma db_inv_steps ops db : db_inv db -> db_inv (apply_db_ops db ops).
Proof.
  revert db. induction ops as [|op ops IH]; intros db Hinv; [done|].
  simpl. apply IH. by apply db_inv_step.
Qed.

(** ** The resumes in the databases that the repositories build *)

(** X14: In every database that the operations of the two
    repositories have built, deletions included, the resumes have
    distinct ids and fields that are neither blank nor padded with
    white space, and the tables of the feedback are as the feedback
    repository keeps them: distinct ids, distinct learning keys, valid
    turns and learning patterns. *)
Theorem database_rows_valid ops :
  let db := apply_db_ops empty_database ops in
  NoDup (map Resume.id (resumes db))
  /\ Forall resume_ok (resumes db)
  /\ store_inv (feedback db).
Proof.
  intros db.
  destruct (db_inv_steps ops empty_database db_inv_empty) as [Hst Hids _ Hok].
  done.
Qed.

(** X13: On a database that the repositories have built,
    [get_aggregated_learnings] never raises and never writes.  It
    returns the [limit] best of the learning patterns of the agent,
    whatever the case of the letters of the name given (of all agents
    when no name or an empty one is given), best meaning most
    frequent, and latest updated among equally frequent ones: as many
    as there are up to [limit], in that order, and each of them before
    every pattern left out. *)
Theorem learnings_query_top_ranked ops agent_name limit :
  let st := feedback (apply_db_ops empty_database ops) in
  exists result,
    run (FeedbackRepository.get_aggregated_learnings agent_name limit) st
    = (Py.Return result, st)
    /\ top_ranked FeedbackRepository.learning_precedes limit
         (List.filter (of_agent agent_name) (aggregated_learnings st)) result.
Proof.
  intros st.
  destruct (get_learnings_top_ranked agent_name limit st)
    as (result & Hrun & Htop).
  exists result. split; [done|].
  replace (List.filter (of_agent agent_name) (aggregated_learnings st))
    with (List.filter (wanted_by agent_name) (aggregated_learnings st)); [done|].
  apply filter_ext_in. intros l Hl.
  pose proof (inv_learnings st
                (inv_feedback _ (db_inv_steps ops empty_database db_inv_empty)))
    as Hok.
  rewrite Forall_forall in Hok. apply list_elem_of_In in Hl.
  destruct (Hok l Hl) as [_ Hlower].
  unfold wanted_by, of_agent. by rewrite Hlower.
Qed.

Lemma blank_fields_cases (f t u j : string) :
  Py.blank f || Py.blank t || Py.blank u || Py.blank j = false ->
  Py.blank f = false /\ Py.blank t = false /\ Py.blank u = false
  /\ Py.blank j = false.
Proof. destruct (Py.blank f), (Py.blank t), (Py.blank u), (Py.blank j); done. Qed.

(** X15: On a database that the repositories have built,
    [create_resume] with a blank field raises a [ValueError] and
    changes nothing.  With no blank field it appends one resume, whose
    fields are the arguments without the white space at their ends and
    whose id no other resume has, and changes no other table; looking
    that id up afterwards with [get_resume_by_id] gives the resume
    back. *)
Theorem create_resume_round_trip ops filename text_content s3_url
  job_description now :
  let db := apply_db_ops empty_database ops in
  let call := ResumeRepository.create_resume filename text_content s3_url
                job_description now in
  let blank := Py.blank filename || Py.blank text_content || Py.blank s3_url
               || Py.blank job_description in
  (blank = true ->
   exists message, run_tx call db = (Py.Raise (Py.ValueError message), db))
  /\ (blank = false ->
      exists resume db',
        run_tx call db = (Py.Return resume, db')
        /\ resumes db' = resumes db ++ [resume]
        /\ feedback_sessions (feedback db') = feedback_sessions (feedback db)
        /\ agent_responses (feedback db') = agent_responses (feedback db)
        /\ aggregated_learnings (feedback db') = aggregated_learnings (feedback db)
        /\ Resume.filename resume = Py.strip filename
        /\ Resume.text_content resume = Py.strip text_content
        /\ Resume.s3_url resume = Py.strip s3_url
        /\ Resume.job_description resume = Py.strip job_description
        /\ Resume.uploaded_at resume = now
        /\ (forall r, r ∈ resumes db -> Resume.id r <> Resume.id resume)
        /\ run_tx (ResumeRepository.get_resume_by_id (Resume.id resume)) db'
           = (Py.Return (Some (length (resumes db), resume)), db')).
Proof.
  intros db call blank.
  pose proof (db_inv_steps ops empty_database db_inv_empty) as Hinv.
  fold db in Hinv.
  pose proof (db_inv_step
                (CreateResume filename text_content s3_url job_description now)
                db Hinv) as Hinv'.
  unfold apply_db_op in Hinv'. subst call blank.
  rewrite create_resume_run in *.
  split.
  - intros Hb.
    destruct (Py.blank filename); [eauto|].
    destruct (Py.blank text_content); [eauto|].
    destruct (Py.blank s3_url); [eauto|].
    destruct (Py.blank job_description); [eauto|done].
  - intros Hb. apply blank_fields_cases in Hb as (Hf & Ht & Hu & Hj).
    rewrite Hf, Ht, Hu, Hj in *. cbn [snd] in Hinv'.
    set (resume := created_resume _ _ _ _ _ _) in *.
    exists resume, (with_resume resume db).
    repeat (split; [done|]).
    split.
    { intros r Hr Heq.
      pose proof (inv_resume_fresh db Hinv) as Hfresh.
      rewrite Forall_forall in Hfresh. specialize (Hfresh r Hr).
      rewrite Heq in Hfresh. simpl in Hfresh. lia. }
    assert (resumes (with_resume resume db) !! length (resumes db) = Some resume)
      as Hlast by (simpl; by rewrite lookup_app_r, Nat.sub_diag).
    destruct (get_resume_cases (with_resume resume db) (Resume.id resume)
                (inv_resume_ids _ Hinv'))
      as [[_ Hnone]|(i & r & Hi & Hid & ->)].
    + exfalso. eapply Hnone; [|done]. by eapply list_elem_of_lookup_2.
    + assert (i = length (resumes db)) as ->.
      { eapply NoDup_lookup; [exact (inv_resume_ids _ Hinv') | |].
        - rewrite list_lookup_fmap, Hi. simpl. by rewrite Hid.
        - by rewrite list_lookup_fmap, Hlast. }
      rewrite Hlast in Hi. by injection Hi as <-.
Qed.

Lemma filter_all {A} (p : A -> bool) (l : list A) :
  (forall x, x ∈ l -> p x = true) -> List.filter p l = l.
Proof.
  induction l as [|x l IH]; intros Hall; simpl; [done|].
  rewrite (Hall x) by (apply elem_of_cons; auto).
  f_equal. apply IH. intros y Hy. apply Hall, elem_of_cons. auto.
Qed.

(** On a table with distinct keys, deleting the row at a position is
    deleting the rows with its key. *)
Lemma delete_by_key {A} (key : A -> Z) (l : list A) i r :
  NoDup (map key l) -> l !! i = Some r ->
  delete i l = List.filter (fun x => negb (key x =? key r)%Z) l.
Proof.
  revert i. induction l as [|x l IH]; intros i Hnodup Hi; [done|].
  simpl in Hnodup. apply NoDup_cons in Hnodup as [Hx Hnodup].
  destruct i as [|i]; simpl in *.
  - injection Hi as ->. rewrite Z.eqb_refl. simpl.
    symmetry. apply filter_all. intros y Hy.
    apply negb_true_iff, Z.eqb_neq. intros Heq. apply Hx.
    rewrite <- Heq. apply list_elem_of_fmap. eauto.
  - assert (key x <> key r) as Hne.
    { intros Heq. apply Hx. rewrite Heq. apply list_elem_of_fmap.
      exists r. split; [done|]. by eapply list_elem_of_lookup_2. }
    apply Z.eqb_neq in Hne. rewrite Hne. simpl. f_equal. by apply IH.
Qed.

Lemma elem_of_filter {A} (p : A -> bool) (l : list A) x :
  x ∈ List.filter p l <-> x ∈ l /\ p x = true.
Proof. rewrite !list_elem_of_In. apply filter_In. Qed.

Lemma gone_with_spec resume_id sessions r :
  gone_with resume_id sessions r = true
  <-> turn_of_resume resume_id sessions r.
Proof.
  unfold gone_with, turn_of_resume, session_of. rewrite existsb_exists.
  split.
  - intros (s & Hs & Hb). apply andb_true_iff in Hb as [H1 H2].
    apply Z.eqb_eq in H1, H2. exists s. by rewrite list_elem_of_In.
  - intros (s & Hs & H1 & H2). exists s. rewrite <- list_elem_of_In.
    split; [done|]. apply andb_true_iff. by rewrite !Z.eqb_eq.
Qed.

(** X16: On a database that the repositories have built,
    [delete_resume] for an id that no resume has returns [False] and
    changes nothing.  For the id of a stored resume it returns [True];
    it removes that resume, the feedback sessions of the resume and the
    agent responses of those sessions, and nothing else: the other
    rows stay, in their order, and the learning patterns are
    untouched.  In both cases no resume has the id afterwards. *)
Theorem delete_resume_cascade ops resume_id :
  let db := apply_db_ops empty_database ops in
  let call := ResumeRepository.delete_resume resume_id in
  let db' := (run_tx call db).2 in
  ((forall r, r ∈ resumes db -> Resume.id r <> resume_id) ->
   run_tx call db = (Py.Return false, db))
  /\ ((exists r, r ∈ resumes db /\ Resume.id r = resume_id) ->
      (run_tx call db).1 = Py.Return true
      /\ resumes db'
         = List.filter (fun r => negb (Resume.id r =? resume_id)%Z) (resumes db)
      /\ feedback_sessions (feedback db')
         = List.filter (fun s => negb (FeedbackSession.resume_id s =? resume_id)%Z)
             (feedback_sessions (feedback db))
      /\ agent_responses (feedback db') `sublist_of` agent_responses (feedback db)
      /\ (forall t, t ∈ agent_responses (feedback db')
                    <-> t ∈ agent_responses (feedback db)
                        /\ ~ turn_of_resume resume_id
                               (feedback_sessions (feedback db)) t)
      /\ aggregated_learnings (feedback db') = aggregated_learnings (feedback db))
  /\ run_tx (ResumeRepository.get_resume_by_id resume_id) db'
     = (Py.Return None, db').
Proof.
  intros db call db'.
  pose proof (db_inv_steps ops empty_database db_inv_empty) as Hinv.
  fold db in Hinv.
  pose proof (db_inv_step (DeleteResume resume_id) db Hinv) as Hinv'.
  unfold apply_db_op in Hinv'. fold call db' in Hinv'.
  assert (forall r, r ∈ resumes db' -> Resume.id r <> resume_id) as Hgone.
  { subst db' call.
    destruct (delete_resume_cases db resume_id (inv_resume_ids db Hinv))
      as [[-> Hnone]|(i & r & Hi & Hid & ->)]; [done|].
    cbn [snd without_resume resumes]. subst resume_id.
    rewrite (delete_by_key Resume.id _ _ _ (inv_resume_ids db Hinv) Hi).
    intros x Hx. apply elem_of_filter in Hx as [_ Hx].
    by apply negb_true_iff, Z.eqb_neq in Hx. }
  split; [|split].
  - intros Hnone. subst call.
    destruct (delete_resume_cases db resume_id (inv_resume_ids db Hinv))
      as [[-> _]|(i & r & Hi & Hid & _)]; [done|].
    exfalso. eapply Hnone; [|done]. by eapply list_elem_of_lookup_2.
  - intros (r0 & Hr0 & Hid0). subst db' call.
    destruct (delete_resume_cases db resume_id (inv_resume_ids db Hinv))
      as [[_ Hnone]|(i & r & Hi & Hid & ->)]; [by destruct (Hnone r0 Hr0)|].
    cbn [fst snd without_resume resumes feedback feedback_sessions
         agent_responses aggregated_learnings].
    split; [done|]. split.
    { rewrite <- Hid. by apply delete_by_key; [apply (inv_resume_ids db Hinv)|]. }
    split; [done|]. split; [apply filter_sublist|]. split; [|done].
    intros t. rewrite elem_of_filter, negb_true_iff, <- not_true_iff_false.
    by rewrite gone_with_spec.
  - destruct (get_resume_cases db' resume_id (inv_resume_ids db' Hinv'))
      as [[-> _]|(i & r & Hi & Hid & _)]; [done|].
    exfalso. eapply Hgone; [|done]. by eapply list_elem_of_lookup_2.
Qed.

(** X17: [get_recent_resumes] raises a [ValueError] and reads nothing
    for a limit below 1 or above 100.  For a limit in that range it
    returns the [limit] most recently uploaded resumes: as many as
    there are up to [limit], latest first, each of them uploaded no
    earlier than every resume left out.  It never writes. *)
Theorem recent_resumes_newest_first limit db :
  let call := ResumeRepository.get_recent_resumes limit in
  ((limit < 1 \/ 100 < limit)%Z ->
   run_tx call db
   = (Py.Raise (Py.ValueError "Limit must be between 1 and 100"), db))
  /\ ((1 <= limit <= 100)%Z ->
      exists result,
        run_tx call db = (Py.Return result, db)
        /\ top_ranked ResumeRepository.uploaded_after (Z.to_nat limit)
             (resumes db) result).
Proof.
  intros call. subst call. unfold ResumeRepository.get_recent_resumes.
  split.
  - intros H.
    assert ((limit <? 1)%Z || (100 <? limit)%Z = true) as ->; [|done].
    apply orb_true_iff. rewrite !Z.ltb_lt. lia.
  - intros H.
    assert ((limit <? 1)%Z || (100 <? limit)%Z = false) as ->.
    { apply orb_false_iff. rewrite !Z.ltb_ge. lia. }
    eexists. split; [reflexivity|].
    apply take_sorted_top_ranked; apply _.
Qed.

(* ================================================================== *)
(** * The handler of the analysis stream *)
(* ================================================================== *)

Lemma run_tx_bind {A B} (m : Tx A) (k : A -> Tx B) db :
  run_tx (m ≫= k) db
  = match run_tx m db with
    | (Py.Raise e, db') => (Py.Raise e, db')
    | (Py.Return a, db') => run_tx (k a) db'
    end.
Proof. reflexivity. Qed.

Lemma run_tx_lift {A} (m : DB A) db :
  run_tx (Txn.lift m) db
  = ((run m (feedback db)).1, mkDatabase (resumes db) (run m (feedback db)).2).
Proof. unfold Txn.lift. simpl. by destruct (run m (feedback db)). Qed.

Lemma database_eta db : mkDatabase (resumes db) (feedback db) = db.
Proof. by destruct db. Qed.

(** X18: On a database that the repositories have built,
    [stream_analysis] answers in one of three ways, and never with
    status 500.  For an id that no feedback session has: 404
    [Feedback session not found].  For a session whose resume is not
    stored: 404 [Resume not found].  Neither changes anything.
    Otherwise the answer is the stream that the debate on the text and
    the job description of the session's resume produces, with the
    descriptions of the ten best learning patterns of all agents (see
    X13) as memory context; the resumes stay as they are. *)
Theorem stream_analysis_outcomes llm ops session_id now :
  let db := apply_db_ops empty_database ops in
  let answer := Routes.stream_analysis llm session_id now db in
  ((forall s, s ∈ feedback_sessions (feedback db) ->
              FeedbackSession.id s <> session_id) ->
   answer = (inl (Routes.mkHTTPError 404 "Feedback session not found"), db))
  /\ (forall s,
        s ∈ feedback_sessions (feedback db) ->
        FeedbackSession.id s = session_id ->
        (forall r, r ∈ resumes db -> Resume.id r <> FeedbackSession.resume_id s) ->
        answer = (inl (Routes.mkHTTPError 404 "Resume not found"), db))
  /\ (forall s r,
        s ∈ feedback_sessions (feedback db) ->
        FeedbackSession.id s = session_id ->
        r ∈ resumes db ->
        Resume.id r = FeedbackSession.resume_id s ->
        exists learnings,
          top_ranked FeedbackRepository.learning_precedes 10
            (aggregated_learnings (feedback db)) learnings
          /\ let stream :=
               Routes.generate_stream llm session_id (Resume.text_content r)
                 (Resume.job_description r)
                 (map AggregatedLearning.description learnings) now
                 (feedback db) in
             answer = (inr stream.1, mkDatabase (resumes db) stream.2)).
Proof.
  intros db answer.
  pose proof (db_inv_steps ops empty_database db_inv_empty) as Hinv.
  fold db in Hinv. destruct Hinv as [Hst Hids _ _].
  pose proof (inv_session_ids _ Hst) as Hsids.
  (* the session with a given id, and the resume with a given id, are
     the ones that the lookups find *)
  assert (forall s, s ∈ feedback_sessions (feedback db) ->
                    FeedbackSession.id s = session_id ->
                    exists i,
                      run (FeedbackRepository.get_feedback_session_by_id
                             session_id) (feedback db)
                      = (Py.Return (Some (i, s)), feedback db)) as Hsession.
  { intros s Hs Hid.
    destruct (get_session_cases (feedback db) session_id Hst)
      as [[_ Hnone]|(i & s' & Hi & Hid' & Hrun)]; [by destruct (Hnone s Hs)|].
    exists i. rewrite Hrun. repeat f_equal.
    apply list_elem_of_lookup_1 in Hs as [j Hj].
    assert (i = j) as ->; [|congruence].
    eapply NoDup_lookup; [exact Hsids | |].
    - rewrite list_lookup_fmap, Hi. simpl. by rewrite Hid'.
    - rewrite list_lookup_fmap, Hj. simpl. by rewrite Hid. }
  assert (forall r resume_id, r ∈ resumes db -> Resume.id r = resume_id ->
            exists i,
              run_tx (ResumeRepository.get_resume_by_id resume_id) db
              = (Py.Return (Some (i, r)), db)) as Hresume.
  { intros r resume_id Hr Hid.
    destruct (get_resume_cases db resume_id Hids)
      as [[_ Hnone]|(i & r' & Hi & Hid' & Hrun)]; [by destruct (Hnone r Hr)|].
    exists i. rewrite Hrun. repeat f_equal.
    apply list_elem_of_lookup_1 in Hr as [j Hj].
    assert (i = j) as ->; [|congruence].
    eapply NoDup_lookup; [exact Hids | |].
    - rewrite list_lookup_fmap, Hi. simpl. by rewrite Hid'.
    - rewrite list_lookup_fmap, Hj. simpl. by rewrite Hid. }
  subst answer. unfold Routes.stream_analysis. cbv zeta.
  rewrite run_tx_bind, run_tx_lift.
  split; [|split].
  - intros Hnone.
    destruct (get_session_cases (feedback db) session_id Hst)
      as [[-> _]|(i & s & Hi & Hid & _)].
    + cbn [fst snd]. by rewrite database_eta.
    + exfalso. eapply Hnone; [|done]. by eapply list_elem_of_lookup_2.
  - intros s Hs Hid Hnone.
    destruct (Hsession s Hs Hid) as [i ->]. cbn [fst snd].
    rewrite database_eta, run_tx_bind.
    destruct (get_resume_cases db (FeedbackSession.resume_id s) Hids)
      as [[-> _]|(j & r & Hj & Hrid & _)]; [done|].
    exfalso. eapply Hnone; [|done]. by eapply list_elem_of_lookup_2.
  - intros s r Hs Hid Hr Hrid.
    destruct (Hsession s Hs Hid) as [i ->]. cbn [fst snd].
    rewrite database_eta, run_tx_bind.
    destruct (Hresume r _ Hr Hrid) as [j ->].
    rewrite run_tx_bind, run_tx_lift.
    destruct (get_learnings_top_ranked None 10 (feedback db))
      as (learnings & -> & Htop).
    simpl wanted_by in Htop. rewrite filter_true in Htop.
    exists learnings. split; [done|].
    cbn [fst snd]. rewrite database_eta. cbn [run_tx mret tx_ret feedback resumes].
    by destruct (Routes.generate_stream _ _ _ _ _ _ _).
Qed.

(* ================================================================== *)
(** * From the stored resume to the debate *)
(* ================================================================== *)

Lemma realist_message_error r j c a e :
  Py.blank r = false -> Py.blank j = false ->
  RealistAgent.format_user_message r j c a = Py.Raise e ->
  (e = Py.ValueError "Critic response cannot be empty" /\ all_space c = true)
  \/ (e = Py.ValueError "Advocate response cannot be empty"
      /\ all_space a = true).
Proof.
  intros Hr Hj. unfold RealistAgent.format_user_message.
  rewrite Hr, Hj, <- !blank_spec.
  destruct (Py.blank c); [intros [= <-]; by left|].
  destruct (Py.blank a); [intros [= <-]; by right|done].
Qed.

(** X19: The checks of [create_resume] are those of the debate: for
    every resume of a database that the repositories have built, a
    debate on its text and its job description passes the validation
    of the Critic's inputs, so that the first completion call, the
    Critic's, is made with the Critic's template filled in; and the
    only [ValueError]s with which such a debate can end are those of
    the Realist's template for an empty or blank text streamed by the
    Critic or by the Advocate. *)
Theorem stored_resumes_pass_validation llm ops mc :
  let db := apply_db_ops empty_database ops in
  Forall
    (fun r =>
       let debate := Graph.execute_debate llm (Resume.text_content r)
                       (Resume.job_description r) (Some mc) in
       let evs := Graph.events (Graph.trace debate) in
       (exists um rest,
          CriticAgent.format_user_message (Resume.text_content r)
            (Resume.job_description r) = Py.Return um
          /\ calls (Graph.trace debate)
             = Graph.LLMCall (CriticAgent.get_system_prompt (Some mc)) um
                 "Critic" mc :: rest)
       /\ (forall message,
             Graph.outcome debate = Py.Raise (Py.ValueError message) ->
             (message = "Critic response cannot be empty"
              /\ all_space (streamed_text "Critic" evs) = true)
             \/ (message = "Advocate response cannot be empty"
                 /\ all_space (streamed_text "Advocate" evs) = true)))
    (resumes db).
Proof.
  intros db.
  pose proof (inv_resumes db (db_inv_steps ops empty_database db_inv_empty))
    as Hok.
  eapply Forall_impl; [exact Hok|]. clear Hok.
  intros r (_ & [Ht _] & _ & [Hj _]). cbv zeta.
  set (text := Resume.text_content r) in *.
  set (jd := Resume.job_description r) in *.
  assert (forall e, CriticAgent.format_user_message text jd <> Py.Raise e)
    as Hvalid.
  { intros e. unfold CriticAgent.format_user_message. by rewrite Ht, Hj. }
  run_cases llm text jd (Some mc); cbn [default] in *;
    try (by destruct (Hvalid _ Hcm)); read_calls.
  all: split; [by eauto|].
  all: intros message; try discriminate.
  intros [= ->]. read_events.
  destruct (realist_message_error _ _ _ _ _ Ht Hj Hrm) as [[[= ->] H]|[[= ->] H]];
    [left | right]; by subst.
Qed.

(* ================================================================== *)
(** * The completion service over the client *)
(* ================================================================== *)

Lemma yielded_truthy chunk c :
  AzureLLMService.yielded chunk = Some c -> Py.truthy c = true /\ chunk_text chunk = c.
Proof.
  unfold AzureLLMService.yielded, chunk_text.
  destruct (OpenAI.choices chunk) as [[|choice ?]|]; try done.
  destruct (OpenAI.delta choice) as [d|]; try done.
  destruct (OpenAI.delta_content d) as [s|]; try done.
  simpl. destruct (Py.truthy s) eqn:E; [|done]. by intros [= <-].
Qed.

Lemma yielded_none chunk :
  AzureLLMService.yielded chunk = None -> chunk_text chunk = "".
Proof.
  unfold AzureLLMService.yielded, chunk_text.
  destruct (OpenAI.choices chunk) as [[|choice ?]|]; try done.
  destruct (OpenAI.delta choice) as [d|]; try done.
  destruct (OpenAI.delta_content d) as [s|]; try done.
  simpl. by destruct s.
Qed.

Lemma fragments_truthy chunks :
  Forall (fun c => Py.truthy c = true) (omap AzureLLMService.yielded chunks).
Proof.
  induction chunks as [|chunk chunks IH]; simpl; [constructor|].
  destruct (AzureLLMService.yielded chunk) as [c|] eqn:E; [|done].
  constructor; [|done]. by apply yielded_truthy in E as [? _].
Qed.

Lemma fragments_text chunks :
  accumulate (omap AzureLLMService.yielded chunks)
  = accumulate (map chunk_text chunks).
Proof.
  unfold accumulate.
  induction chunks as [|chunk chunks IH]; simpl; [done|].
  destruct (AzureLLMService.yielded chunk) as [c|] eqn:E; simpl.
  - apply yielded_truthy in E as [_ ->]. f_equal. exact IH.
  - apply yielded_none in E. rewrite E. exact IH.
Qed.

(** X20: What [generate_agent_response] makes of what the client
    delivers.  It yields no empty fragment, and the fragments add up
    to the contents that the chunks carry in the delta of their first
    choice; chunks without such a content are passed over.  If the
    client does not fail, neither does the stream.  If the client
    fails, the stream fails after the fragments that came before, with
    a text made of one of four wordings, the name of the agent and the
    text of the client's exception; an exception that is an [APIError]
    always gets the first wording, whatever other classes it belongs
    to, and the wording for the unexpected is kept for the exceptions
    of none of the three classes. *)
Theorem azure_stream_of_client client system_prompt user_message agent_name
  memory_context :
  let stream := AzureLLMService.generate_agent_response client system_prompt
                  user_message agent_name memory_context in
  let response := client (AzureLLMService.messages system_prompt user_message
                            memory_context) in
  Forall (fun c => Py.truthy c = true) (LLMService.fragments stream)
  /\ accumulate (LLMService.fragments stream)
     = accumulate (map chunk_text (OpenAI.chunks response))
  /\ (OpenAI.error response = None -> LLMService.failure stream = None)
  /\ (forall e,
        OpenAI.error response = Some e ->
        exists wording,
          wording ∈ failure_wordings
          /\ LLMService.failure stream
             = Some (wording +:+ " for " +:+ agent_name +:+ ": "
                     +:+ OpenAI.message e)
          /\ (OpenAI.is_api_error e = true -> wording = "OpenAI API error")
          /\ (wording = "Unexpected error with OpenAI" ->
              OpenAI.is_api_error e = false
              /\ OpenAI.is_rate_limit_error e = false
              /\ OpenAI.is_authentication_error e = false)).
Proof.
  intros stream response. subst stream.
  unfold AzureLLMService.generate_agent_response. fold response.
  cbn [LLMService.fragments LLMService.failure].
  split; [apply fragments_truthy|]. split; [apply fragments_text|].
  split; [by intros ->|].
  intros e ->. cbn [fmap option_fmap option_map]. unfold AzureLLMService.handle.
  destruct (OpenAI.is_api_error e);
    [exists "OpenAI API error"
    |destruct (OpenAI.is_rate_limit_error e);
     [exists "OpenAI rate limit exceeded"
     |destruct (OpenAI.is_authentication_error e);
      [exists "OpenAI authentication error"
      |exists "Unexpected error with OpenAI"]]].
  all: split; [unfold failure_wordings; set_solver|].
  all: split; [reflexivity|]. all: split; [done|]. all: done.
Qed.

Lemma empty_chunks_open name order frags :
  Forall (fun c => Py.truthy c = true) frags ->
  List.filter empty_chunk (open_events name order frags) = [start_event name order].
Proof.
  intros H. unfold open_events. simpl. f_equal.
  induction H as [|c frags Hc _ IH]; simpl; [done|].
  unfold empty_chunk at 1. simpl. by rewrite Hc.
Qed.

Lemma empty_chunks_closed name order frags :
  Forall (fun c => Py.truthy c = true) frags ->
  List.filter empty_chunk (closed_events name order frags)
  = [start_event name order].
Proof.
  intros H. unfold closed_events.
  by rewrite List.filter_app, empty_chunks_open.
Qed.

Lemma azure_fragments_truthy client sp um n mc :
  Forall (fun c => Py.truthy c = true)
    (LLMService.fragments
       (LLMService.generate_agent_response (AzureLLMService.service client)
          sp um n mc)).
Proof. apply fragments_truthy. Qed.

Lemma azure_fragments_text client sp um n mc :
  accumulate
    (LLMService.fragments
       (LLMService.generate_agent_response (AzureLLMService.service client)
          sp um n mc))
  = accumulate
      (map chunk_text (OpenAI.chunks (client (AzureLLMService.messages sp um mc)))).
Proof. apply fragments_text. Qed.

(** X21: A debate run over the client.  The only events with an empty
    chunk that are not completion events are the opening events of the
    agents, at most one per agent and in the order of the debate: no
    text event of a stream can be taken for an opening event.  And the
    text streamed for an agent is what the chunks that the client
    delivered for the messages of that agent's call carry. *)
Theorem azure_debate_chunks client r j mc0 :
  let debate := Graph.execute_debate (AzureLLMService.service client) r j mc0 in
  let tr := Graph.trace debate in
  let evs := Graph.events tr in
  List.filter empty_chunk evs
    `prefix_of` map (fun ao => start_event ao.1 ao.2) agents
  /\ (forall sp um n mc,
        Graph.LLMCall sp um n mc ∈ tr ->
        streamed_text n evs
        = accumulate
            (map chunk_text
               (OpenAI.chunks (client (AzureLLMService.messages sp um mc))))).
Proof.
  intros debate tr evs. subst evs tr debate.
  run_cases (AzureLLMService.service client) r j mc0.
  all: try subst sc; try subst sa; try subst sr.
  all: split.
  all: rewrite ?events_app, ?events_closed_phase, ?events_open_phase, ?events_yield.
  all: rewrite ?List.filter_app, ?empty_chunks_closed, ?empty_chunks_open
         by apply azure_fragments_truthy.
  all: try (simpl; by eexists).
  all: intros sp um n mc Hin; split_call Hin; try done; subst.
  all: match goal with
       | |- streamed_text ?n _ = _ =>
           rewrite <- (azure_fragments_text client _ _ n)
       end.
  all: read_events.
  all: try reflexivity.
Qed.

(* ================================================================== *)
(** * File names *)
(* ================================================================== *)

Lemma chars_app s1 s2 : chars (s1 +:+ s2) = chars s1 ++ chars s2.
Proof.
  induction s1 as [|c s1 IH]; [done|].
  change (String c s1 +:+ s2) with (String c (s1 +:+ s2)). simpl. by rewrite IH.
Qed.

Lemma length_str_app s1 s2 :
  String.length (s1 +:+ s2) = (String.length s1 + String.length s2)%nat.
Proof.
  induction s1 as [|c s1 IH]; [done|].
  change (String c s1 +:+ s2) with (String c (s1 +:+ s2)). simpl. by rewrite IH.
Qed.

Lemma chars_slice_to n s : chars (Py.slice_to n s) `sublist_of` chars s.
Proof.
  revert s. induction n as [|n IH]; intros [|c s]; simpl;
    try apply sublist_nil_l. by constructor.
Qed.

Lemma rsplit1_found sep s :
  Py.contains_char sep s = true ->
  exists before after,
    Py.rsplit1 sep s = [before; after]
    /\ s = before +:+ String sep after
    /\ Py.contains_char sep after = false.
Proof.
  induction s as [|c s IH]; [done|]. simpl.
  destruct (Py.contains_char sep s) eqn:Es.
  - intros _. destruct (IH eq_refl) as (before & after & -> & -> & Hafter).
    exists (String c before), after. by rewrite Hafter.
  - rewrite orb_false_r. intros Hc.
    assert (Py.rsplit1 sep s = [s]) as ->.
    { clear IH Hc. induction s as [|d s IH]; [done|]. simpl in *.
      apply orb_false_iff in Es as [Hd Es]. rewrite (IH Es).
      rewrite Ascii.eqb_sym in Hd. by rewrite Hd. }
    rewrite Ascii.eqb_sym, Hc. apply Ascii.eqb_eq in Hc as ->.
    by exists "", s.
Qed.

Lemma safe_replaced c : safe (if safe c then c else "_"%char) = true.
Proof. destruct (safe c) eqn:E; [done | reflexivity]. Qed.

Lemma chars_replaced s :
  Forall (fun c => safe c = true)
    (chars (Py.map_chars (fun c => if safe c then c else "_"%char) s)).
Proof.
  induction s as [|c s IH]; simpl; constructor; [apply safe_replaced | done].
Qed.

Lemma map_chars_safe s :
  Forall (fun c => safe c = true) (chars s) ->
  Py.map_chars (fun c => if safe c then c else "_"%char) s = s.
Proof.
  induction s as [|c s IH]; simpl; [done|].
  intros H. apply Forall_cons in H as [-> H]. by rewrite IH.
Qed.

(** X22: [_sanitize_filename] never raises: the unpacking of the
    split name is guarded.  The name it returns is not empty, is made
    of letters, digits, dots, dashes and underscores only, and begins
    with neither a dot nor a dash.  It has at most 100 characters, or
    else it is a stem of at most 95 characters followed by a dot and
    an extension without a dot, which is kept whole, however long it
    is.  A name that already is as described, and has at most 100
    characters, is returned as it is. *)
Theorem sanitized_filename_safe filename :
  exists name,
    S3Service._sanitize_filename filename = Py.Return name
    /\ Py.truthy name = true
    /\ Forall (fun c => safe c = true) (chars name)
    /\ plain_start name = true
    /\ ((String.length name <= 100)%nat
        \/ exists stem ext,
             name = stem +:+ "." +:+ ext
             /\ (String.length stem <= 95)%nat
             /\ Py.truthy ext = true
             /\ Py.contains_char "." ext = false)
    /\ (Py.truthy filename = true ->
        Forall (fun c => safe c = true) (chars filename) ->
        plain_start filename = true ->
        (String.length filename <= 100)%nat ->
        name = filename).
Proof.
  unfold S3Service._sanitize_filename. fold safe.
  set (s0 := Py.map_chars _ filename).
  assert (Forall (fun c => safe c = true) (chars s0)) as Hs0
    by apply chars_replaced.
  set (s1 := if Py.startswith s0 "." || Py.startswith s0 "-"
             then "file_" +:+ s0 else s0).
  assert (Forall (fun c => safe c = true) (chars s1)
          /\ plain_start s1 = true) as [Hs1 Hp1].
  { subst s1. unfold plain_start.
    assert (Forall (fun c => safe c = true) (chars ("file_" +:+ s0))) as Hpre.
    { rewrite chars_app. apply Forall_app. split; [|done].
      by repeat (apply List.Forall_cons; [reflexivity|]). }
    destruct (Py.startswith s0 ".") eqn:E1; cbn [orb]; [by split|].
    destruct (Py.startswith s0 "-") eqn:E2; [by split|].
    by rewrite E1, E2. }
  assert (Py.truthy filename = true ->
          Forall (fun c => safe c = true) (chars filename) ->
          plain_start filename = true -> s1 = filename) as Hsame.
  { intros _ Hsafe Hplain. subst s1 s0.
    pose proof (map_chars_safe _ Hsafe) as Hm. unfold safe in Hm. rewrite Hm.
    unfold plain_start in Hplain. apply andb_true_iff in Hplain as [H1 H2].
    apply negb_true_iff in H1, H2. by rewrite H1, H2. }
  assert (Py.truthy filename = true -> Py.truthy s1 = true) as Htruthy.
  { intros Hf. subst s1 s0. destruct filename as [|c f]; [done|]. simpl.
    by destruct (_ || _). }
  clearbody s1. clear s0 Hs0.
  destruct (100 <? String.length s1)%nat eqn:Elen.
  2:{ apply Nat.ltb_ge in Elen. cbn [mbind Py.result_bind mret Py.result_ret].
      destruct s1 as [|c t] eqn:Es1.
      - exists "resume.pdf". simpl. repeat split; try done.
        + by repeat (apply List.Forall_cons; [reflexivity|]).
        + left. lia.
        + intros Hf. by specialize (Htruthy Hf).
      - exists (String c t). cbn [Py.truthy]. repeat split; try done.
        + by left.
        + intros. by apply Hsame. }
  apply Nat.ltb_lt in Elen.
  assert (exists c t, s1 = String c t) as (c & t & Hs1eq)
    by (destruct s1; [simpl in Elen; lia | eauto]).
  destruct (Py.contains_char "." s1) eqn:Edot.
  - destruct (rsplit1_found _ _ Edot) as (before & after & -> & Heq & Hafter).
    cbn [mbind Py.result_bind mret Py.result_ret].
    assert (exists b, before = String c b) as [b ->].
    { destruct before as [|c' b].
      - exfalso. rewrite Heq in Hp1.
        change (plain_start (String "." after) = true) in Hp1. done.
      - rewrite Heq in Hs1eq.
        change (String c' b +:+ String "." after)
          with (String c' (b +:+ String "." after)) in Hs1eq.
        injection Hs1eq as -> _. eauto. }
    assert (Forall (fun c => safe c = true) (chars after)) as Hsa.
    { rewrite Heq, chars_app in Hs1. apply Forall_app in Hs1 as [_ H].
      simpl in H. by apply Forall_cons in H as [_ H]. }
    assert (Forall (fun c => safe c = true)
              (chars (Py.slice_to 95 (String c b)))) as Hsb.
    { eapply sublist_all; [apply chars_slice_to|].
      rewrite Heq, chars_app in Hs1. by apply Forall_app in Hs1 as [H _]. }
    assert (plain_start (String c t) = true) as Hpc by (by rewrite <- Hs1eq).
    eexists. split; [reflexivity|].
    change (Py.slice_to 95 (String c b))
      with (String c (Py.slice_to 94 b)) in *.
    change (String c (Py.slice_to 94 b) +:+ ?x)
      with (String c (Py.slice_to 94 b +:+ x)).
    cbn [Py.truthy]. split; [done|]. split.
    { change (String c (Py.slice_to 94 b +:+ ?x))
        with (String c (Py.slice_to 94 b) +:+ x).
      rewrite chars_app. apply Forall_app. split; [done|].
      destruct after; simpl; [done|].
      constructor; [reflexivity | done]. }
    split; [exact Hpc|]. split.
    { destruct after as [|a ext] eqn:Ea.
      - left. cbn [Py.truthy]. rewrite str_app_nil_r.
        pose proof (slice_to_length 94 b). cbn [String.length]. lia.
      - right. exists (String c (Py.slice_to 94 b)), (String a ext).
        split; [done|]. split; [|done].
        pose proof (slice_to_length 94 b). cbn [String.length]. lia. }
    intros Hf Hsafe Hplain Hlen. specialize (Hsame Hf Hsafe Hplain).
    rewrite <- Hsame in Hlen. lia.
  - cbn [mbind Py.result_bind mret Py.result_ret]. subst s1.
    eexists. split; [reflexivity|].
    change (Py.slice_to 95 (String c t)) with (String c (Py.slice_to 94 t)).
    cbn [Py.truthy]. rewrite str_app_nil_r.
    cbn [Py.truthy]. split; [done|]. split.
    { eapply sublist_all; [apply (chars_slice_to 95 (String c t))|done]. }
    split; [exact Hp1|]. split.
    { left. pose proof (slice_to_length 94 t). cbn [String.length]. lia. }
    intros Hf Hsafe Hplain Hlen. specialize (Hsame Hf Hsafe Hplain).
    rewrite <- Hsame in Hlen. lia.
Qed.

(** ** The names of the files that an upload lets through *)

Lemma endswith_app s suffix : Py.endswith (s +:+ suffix) suffix = true.
Proof.
  induction s as [|c s IH].
  - change ("" +:+ suffix) with suffix.
    destruct suffix as [|d suffix]; [done|].
    cbn [Py.endswith]. by rewrite String.eqb_refl.
  - change (String c s +:+ suffix) with (String c (s +:+ suffix)).
    simpl. rewrite IH. apply orb_true_r.
Qed.

Lemma endswith_split s suffix :
  Py.endswith s suffix = true -> exists p, s = p +:+ suffix.
Proof.
  induction s as [|c s IH]; cbn [Py.endswith].
  - intros H. apply String.eqb_eq in H as ->. by exists "".
  - intros H. apply orb_true_iff in H as [H|H].
    + apply String.eqb_eq in H as <-. by exists "".
    + destruct (IH H) as [p ->]. by exists (String c p).
Qed.

Lemma lower_app s1 s2 : Py.lower (s1 +:+ s2) = Py.lower s1 +:+ Py.lower s2.
Proof.
  induction s1 as [|c s1 IH]; [done|].
  change (String c s1 +:+ s2) with (String c (s1 +:+ s2)). simpl.
  by rewrite IH.
Qed.

Lemma lower_split s p q :
  Py.lower s = p +:+ q ->
  exists p' q', s = p' +:+ q' /\ Py.lower p' = p /\ Py.lower q' = q.
Proof.
  revert s. induction p as [|c p IH]; intros s H.
  - by exists "", s.
  - change (String c p +:+ q) with (String c (p +:+ q)) in H.
    destruct s as [|d s]; [done|]. simpl in H. injection H as Hd Hs.
    destruct (IH s Hs) as (p' & q' & -> & <- & <-).
    exists (String d p'), q'. simpl. by rewrite Hd.
Qed.

Lemma map_chars_app f s1 s2 :
  Py.map_chars f (s1 +:+ s2) = Py.map_chars f s1 +:+ Py.map_chars f s2.
Proof.
  induction s1 as [|c s1 IH]; [done|].
  change (String c s1 +:+ s2) with (String c (s1 +:+ s2)). simpl.
  by rewrite IH.
Qed.

Lemma lower_char_dot a : Py.lower_char a = "."%char -> a = "."%char.
Proof.
  destruct a as [[] [] [] [] [] [] [] []]; vm_compute; intros H;
    try discriminate H; reflexivity.
Qed.

Lemma lower_char_letter a x :
  (x = "p" \/ x = "d" \/ x = "f")%char -> Py.lower_char a = x ->
  safe a = true /\ (a =? ".")%char = false.
Proof.
  intros [-> | [-> | ->]] Ha.
  all: destruct a as [[] [] [] [] [] [] [] []]; vm_compute in Ha;
    try discriminate Ha; by vm_compute.
Qed.

(** The last four characters of a name that ends in [.pdf], in any
    case of the letters: a dot and an extension of three letters that
    the sanitizer keeps. *)
Lemma pdf_suffix q :
  Py.lower q = ".pdf" ->
  exists ext,
    q = String "." ext
    /\ String.length ext = 3%nat
    /\ Py.contains_char "." ext = false
    /\ Py.map_chars (fun c => if safe c then c else "_"%char) q = q.
Proof.
  destruct q as [|a [|b [|c [|d [|]]]]]; try done. simpl.
  intros [= Ha Hb Hc Hd]. apply lower_char_dot in Ha as ->.
  destruct (lower_char_letter b "p") as [Sb Nb]; [tauto | done |].
  destruct (lower_char_letter c "d") as [Sc Nc]; [tauto | done |].
  destruct (lower_char_letter d "f") as [Sd Nd]; [tauto | done |].
  eexists. split; [reflexivity|]. split; [done|].
  rewrite Sb, Sc, Sd. split; [|reflexivity].
  cbn [Py.contains_char].
  rewrite (Ascii.eqb_sym _ b), (Ascii.eqb_sym _ c), (Ascii.eqb_sym _ d).
  by rewrite Nb, Nc, Nd.
Qed.

Lemma rsplit1_absent sep s :
  Py.contains_char sep s = false -> Py.rsplit1 sep s = [s].
Proof.
  induction s as [|d s IH]; [done|]. simpl. intros H.
  apply orb_false_iff in H as [Hd Hs]. rewrite (IH Hs).
  rewrite Ascii.eqb_sym in Hd. by rewrite Hd.
Qed.

Lemma rsplit1_last sep p after :
  Py.contains_char sep after = false ->
  Py.rsplit1 sep (p +:+ String sep after) = [p; after].
Proof.
  intros Hafter. induction p as [|c p IH].
  - change ("" +:+ String sep after) with (String sep after). simpl.
    by rewrite (rsplit1_absent _ _ Hafter), Ascii.eqb_refl.
  - change (String c p +:+ String sep after)
      with (String c (p +:+ String sep after)).
    simpl. by rewrite IH.
Qed.

Lemma contains_char_app sep p after :
  Py.contains_char sep (p +:+ String sep after) = true.
Proof.
  induction p as [|c p IH].
  - change ("" +:+ String sep after) with (String sep after). simpl.
    by rewrite Ascii.eqb_refl.
  - change (String c p +:+ String sep after)
      with (String c (p +:+ String sep after)).
    simpl. rewrite IH. apply orb_true_r.
Qed.

Lemma truthy_app p c s : Py.truthy (p +:+ String c s) = true.
Proof. by destruct p. Qed.

(** X23: [upload_pdf] hands to [_sanitize_filename] only names that
    end in [.pdf], in any case of the letters.  For such a name,
    [_sanitize_filename] returns a name of at most 100 characters that
    still ends in [.pdf], in the same case of the letters. *)
Theorem sanitized_pdf_name filename
  (Hpdf : Py.endswith (Py.lower filename) ".pdf" = true) :
  exists name,
    S3Service._sanitize_filename filename = Py.Return name
    /\ Py.endswith (Py.lower name) ".pdf" = true
    /\ (String.length name <= 100)%nat.
Proof.
  apply endswith_split in Hpdf as [p Hp].
  apply lower_split in Hp as (p' & q & -> & _ & Hq).
  destruct (pdf_suffix q Hq) as (ext & Hqe & Hlen & Hnodot & Hkeep).
  unfold S3Service._sanitize_filename. fold safe.
  rewrite map_chars_app.
  change (Py.map_chars (fun c => if Py.contains_char c S3Service.safe_chars
                                 then c else "_"%char) q)
    with (Py.map_chars (fun c => if safe c then c else "_"%char) q).
  rewrite Hkeep.
  set (p0 := Py.map_chars _ p').
  set (s1 := if Py.startswith (p0 +:+ q) "." || Py.startswith (p0 +:+ q) "-"
             then "file_" +:+ (p0 +:+ q) else p0 +:+ q).
  assert (exists p1, s1 = p1 +:+ q) as [p1 Hs1].
  { subst s1. destruct (_ || _).
    - exists ("file_" +:+ p0). by rewrite str_app_assoc.
    - by exists p0. }
  clearbody s1. subst s1.
  assert (Py.endswith (Py.lower (p1 +:+ q)) ".pdf" = true) as Hend
    by (rewrite lower_app, Hq; apply endswith_app).
  destruct (100 <? String.length (p1 +:+ q))%nat eqn:Elen.
  - rewrite Hqe, contains_char_app, (rsplit1_last _ _ _ Hnodot).
    cbn [mbind Py.result_bind mret Py.result_ret].
    assert (Py.truthy ext = true) as -> by (by destruct ext).
    eexists. split; [reflexivity|].
    assert (Py.slice_to 95 p1 +:+ "." +:+ ext = Py.slice_to 95 p1 +:+ q) as Heq
      by (by rewrite Hqe).
    rewrite Heq, Hqe, truthy_app, <- Hqe. split.
    + rewrite lower_app, Hq. apply endswith_app.
    + rewrite length_str_app, Hqe. cbn [String.length]. rewrite Hlen.
      pose proof (slice_to_length 95 p1). lia.
  - apply Nat.ltb_ge in Elen.
    cbn [mbind Py.result_bind mret Py.result_ret].
    exists (p1 +:+ q). rewrite Hqe, truthy_app, <- Hqe. by split.
Qed.

Lemma sanitized_pdf_name_witness :
  exists name,
    S3Service._sanitize_filename "My Resume (final).PDF" = Py.Return name
    /\ Py.endswith (Py.lower name) ".pdf" = true
    /\ (String.length name <= 100)%nat.
Proof. apply (sanitized_pdf_name "My Resume (final).PDF"). reflexivity. Defined.
